(** * Sondra: schema composition, value handlers, references and the
      document/collection runtime.

    A shallow embedding of the Python sources
    - [sondra/document/__init__.py] and [sondra/collection/__init__.py],
      the package layout (module [Pkg]): the metaclasses that compose a
      document type's schema, and the Document/Collection runtime with
      its saved flag and reference collapse;
    - [sondra/document.py], the older single-file layout of the same
      classes (module [DocumentPy]): the [Geometry] and [Time] value
      handlers, the Suite registry and the resolution of identifiers;
    followed by the properties proved about them.

    Python objects are modelled as they are used: JSON-like values
    with insertion-ordered dictionaries, exceptions as a result type,
    and Document instances behind addresses in a heap, so that two
    references to one Document see each other's assignments. Library
    calls (jsonschema, shapely, datetime, iso8601, the ReQL driver) are
    section variables. *)

From Stdlib Require Import String Ascii List ZArith Bool Lia.
From stdpp Require Import base option gmap.
Import ListNotations.
Set Warnings "-register-all".
Local Open Scope string_scope.
Local Open Scope Z_scope.

(** ** Python values *)

(** Objects that live behind a reference (Document instances) are
    addressed by their position in the heap. *)
Abbreviation addr := nat.

(** The values that flow through documents and schemas: the JSON
    fragment of Python plus live [Document] objects. Dictionaries keep
    insertion order, as Python's do. *)
Inductive value : Type :=
| VNone : value
| VBool : bool -> value
| VInt : Z -> value
| VStr : string -> value
| VList : list value -> value
| VDict : list (string * value) -> value
| VDoc : addr -> value.

Abbreviation dict := (list (string * value)).

(** The exceptions the modelled code raises. *)
Inductive exn : Type :=
| KeyError (k : value)
| TypeError
| AttributeError
| ValueError
| ValidationError              (* sondra.document.ValidationError *)
| JsonSchemaValidationError    (* jsonschema.ValidationError *)
| SchemaError                  (* jsonschema.SchemaError *)
| CollectionException
| ApplicationException
| SuiteException
| IndexError
| HookError (msg : string).    (* raised by a user-supplied hook *)

(** A computation that returns or raises. *)
Inductive result (A : Type) : Type :=
| Ok (a : A)
| Raise (e : exn).
Arguments Ok {A} a.
Arguments Raise {A} e.

Definition rbind {A B} (r : result A) (k : A -> result B) : result B :=
  match r with
  | Ok a => k a
  | Raise e => Raise e
  end.

Notation "'let*' x ':=' c 'in' k" := (rbind c (fun x => k))
  (at level 10, x name, c at level 100, k at level 200).
Notation "'do*' c 'in' k" := (rbind c (fun _ => k))
  (at level 10, c at level 100, k at level 200).

(** ** Dictionaries *)

Module Dict.
Section Ops.
Context {A : Type}.
Implicit Types (d e : list (string * A)) (k : string) (v : A).

(** [d.get(k)]: the value bound to [k], if any. *)
Fixpoint get k d : option A :=
  match d with
  | [] => None
  | (k', v) :: d' => if String.eqb k k' then Some v else get k d'
  end.

(** [k in d] *)
Definition mem k d : bool :=
  match get k d with Some _ => true | None => false end.

(** [d[k] = v]: an existing key keeps its position, a new key goes
    last. *)
Fixpoint set k v d : list (string * A) :=
  match d with
  | [] => [(k, v)]
  | (k', v') :: d' =>
      if String.eqb k k' then (k, v) :: d' else (k', v') :: set k v d'
  end.

(** [d.update(e)] *)
Definition update d e : list (string * A) :=
  fold_left (fun acc kv => set (fst kv) (snd kv) acc) e d.

(** [del d[k]] (the caller checks membership first). *)
Fixpoint remove k d : list (string * A) :=
  match d with
  | [] => []
  | (k', v') :: d' =>
      if String.eqb k k' then remove k d' else (k', v') :: remove k d'
  end.

(** [list(d)]: the keys in insertion order. *)
Definition keys d : list string := map fst d.

(** [list(d.values())] *)
Definition values d : list A := map snd d.
End Ops.
End Dict.

(** Iteration that stops at the first exception. *)
Fixpoint foldM {A B : Type} (f : A -> B -> result A) (a : A) (l : list B)
  : result A :=
  match l with
  | [] => Ok a
  | x :: l' => let* a' := f a x in foldM f a' l'
  end.


(** ** Interpreter primitives *)

(** Truth value of an object in a boolean context ([if x], [x and y]).
    A live Document is a mapping object; stored values never hold one
    in the package layout ([Document.__setitem__] collapses them to
    their URL), so the case is kept only for totality. *)
Definition truthy (v : value) : bool :=
  match v with
  | VNone => false
  | VBool b => b
  | VInt z => negb (z =? 0)
  | VStr s => negb (String.eqb s "")
  | VList l => match l with [] => false | _ => true end
  | VDict d => match d with [] => false | _ => true end
  | VDoc _ => true
  end.

(** [v == w] on JSON values: numbers and booleans compare by number,
    sequences element by element, mappings key by key whatever their
    order. Two live Document leaves are compared by identity, which is
    what the container comparison tries first. *)
Fixpoint py_eq (v w : value) {struct v} : bool :=
  match v, w with
  | VNone, VNone => true
  | VBool a, VBool b => Bool.eqb a b
  | VBool a, VInt z => (if a then 1 else 0) =? z
  | VInt z, VBool a => z =? (if a then 1 else 0)
  | VInt a, VInt b => a =? b
  | VStr a, VStr b => String.eqb a b
  | VList l, VList m =>
      (fix list_eq (l m : list value) {struct l} : bool :=
         match l, m with
         | [], [] => true
         | x :: l', y :: m' => py_eq x y && list_eq l' m'
         | _, _ => false
         end) l m
  | VDict d, VDict e =>
      Nat.eqb (length d) (length e) &&
      (fix all_in (d : list (string * value)) : bool :=
         match d with
         | [] => true
         | (k, x) :: d' =>
             match Dict.get k e with
             | Some y => py_eq x y
             | None => false
             end && all_in d'
         end) d
  | VDoc a, VDoc b => Nat.eqb a b
  | _, _ => false
  end.

(** [d[k]], raising [KeyError] on a missing key. *)
Definition getitem (k : string) (d : dict) : result value :=
  match Dict.get k d with
  | Some v => Ok v
  | None => Raise (KeyError (VStr k))
  end.

(** Truth value of a [primary_key] attribute, a string or [None]. *)
Definition pk_truthy (pk : option string) : bool :=
  match pk with
  | Some k => truthy (VStr k)
  | None => truthy VNone
  end.

(** [Collection.primary_key]: the class attribute of the [Collection]
    base of either layout, which a Collection class inherits unless
    its body sets [primary_key]. *)
Definition Collection_primary_key : option string := Some "id".

(** The [primary_key] attribute of a Collection class derived from
    [Collection]: the one its body declares, if it declares one
    ([Some None] is [primary_key = None]), and else the inherited
    one. *)
Definition class_primary_key (declared : option (option string)) : option string :=
  match declared with
  | Some pk => pk
  | None => Collection_primary_key
  end.

(** [str.startswith] *)
Definition startswith (s p : string) : bool := String.prefix p s.

(** ** The package layout: [sondra/document/__init__.py] and
       [sondra/collection/__init__.py] *)

Module Pkg.

(** A Document class object, reduced to the attributes the metaclasses
    and the runtime read. An attribute a class does not carry
    ([hasattr] is false) is [None]. *)
Record doc_class : Type := {
  definitions : option dict;
  (** [collection.schema_url] when the class has a [collection]. *)
  collection_schema_url : option string;
  (** exposed methods, name to slug *)
  exposed_methods : option (list (string * string));
  schema : dict;
  title : value;
  defaults : dict
}.

(** The class body handed to the metaclass ([attrs] / [nmspc]). *)
Record namespace : Type := {
  ns_schema : option dict;
  ns_definitions : option dict;
  ns_title : option value;
  ns_template : option value;
  ns_doc : option string;
  ns_collection : option string;
  (** methods tagged [exposed], name and slug *)
  ns_exposed : list (string * string)
}.

Section Metaclasses.
(** [sondra.utils.split_camelcase] and [convert_camelcase],
    [camelcase_slugify] are not part of the sources at hand. *)
Variable split_camelcase : string -> string.
Variable convert_camelcase : string -> string.
Variable camelcase_slugify : string -> string.
(** [jsonschema.Draft4Validator.check_schema], [true] when it passes. *)
Variable check_schema : dict -> bool.

(** One turn of [for base in bases] in [DocumentMetaclass.__new__],
    on the pair [(definitions, schema)]. *)
Definition DocumentMetaclass_inherit (acc : dict * dict) (base : doc_class)
  : result (dict * dict) :=
  let definitions0 :=
    match definitions base with
    | Some d => if truthy (VDict d) then Dict.update (fst acc) d else fst acc
    | None => fst acc
    end in
  match collection_schema_url base with
  | Some url =>
      let schema0 :=
        if Dict.mem "allOf" (snd acc) then snd acc
        else Dict.set "allOf" (VList []) (snd acc) in
      match Dict.get "allOf" schema0 with
      | Some (VList l) =>
          Ok (definitions0,
              Dict.set "allOf" (VList (l ++ [VDict [("$ref", VStr url)]])) schema0)
      | _ => Raise AttributeError
      end
  | None => Ok (definitions0, snd acc)
  end.

(** [DocumentMetaclass.__new__]: the namespace the class is built
    from. *)
Definition DocumentMetaclass__new__ (name : string) (bases : list doc_class)
    (attrs : namespace) : result namespace :=
  let schema0 :=
    match ns_schema attrs with
    | Some s => s
    | None => [("type", VStr "object"); ("properties", VDict [])]
    end in
  let* r := foldM DocumentMetaclass_inherit ([], schema0) bases in
  let defs :=
    match ns_definitions attrs with
    | Some own => Dict.update own (fst r)
    | None => fst r
    end in
  let fallback :=
    match Dict.get "title" (snd r) with
    | Some t => t
    | None => VStr (split_camelcase name)
    end in
  let title0 :=
    match ns_title attrs with
    | Some VNone | None => fallback
    | Some t => t
    end in
  Ok {| ns_schema := Some (Dict.set "title" title0 (snd r));
        ns_definitions := Some defs;
        ns_title := Some title0;
        ns_template := ns_template attrs;
        ns_doc := ns_doc attrs;
        ns_collection := ns_collection attrs;
        ns_exposed := ns_exposed attrs |}.

(** [cls.exposed_methods] as both metaclasses build it: the bases'
    methods in order, then the class's own. *)
Definition collect_exposed (inherited : list (option (list (string * string))))
    (own : list (string * string)) : list (string * string) :=
  let from_bases :=
    fold_left (fun acc b => match b with
                            | Some m => Dict.update acc m
                            | None => acc
                            end) inherited [] in
  fold_left (fun acc nm => Dict.set (fst nm) (snd nm) acc) own from_bases.

(** The comprehension
    [{k: props[k]['default'] for k in props if 'default' in props[k]}].
    Schemas are JSON Schema objects: a [properties] entry or a property
    schema that is not a mapping is reported as [TypeError]. *)
Definition compute_defaults (schema0 : dict) : result dict :=
  let* props := getitem "properties" schema0 in
  match props with
  | VDict ps =>
      foldM (fun acc k =>
               let* p := getitem k ps in
               match p with
               | VDict pd =>
                   if Dict.mem "default" pd
                   then let* dv := getitem "default" pd in Ok (Dict.set k dv acc)
                   else Ok acc
               | _ => Raise TypeError
               end) [] (Dict.keys ps)
  | _ => Raise TypeError
  end.

(** [DocumentMetaclass.__init__], run on the namespace [__new__] left:
    the finished class. *)
Definition DocumentMetaclass__init__ (name : string) (bases : list doc_class)
    (nmspc : namespace) : result doc_class :=
  match ns_schema nmspc with
  | None => Raise AttributeError
  | Some schema0 =>
      let exposed := collect_exposed (map exposed_methods bases) (ns_exposed nmspc) in
      let schema1 :=
        match ns_doc nmspc with
        | Some doc =>
            if negb (Dict.mem "description" schema0) && truthy (VStr doc)
            then Dict.set "description" (VStr doc) schema0
            else schema0
        | None => schema0
        end in
      let schema2 := Dict.set "methods" (VList (map VStr (Dict.values exposed))) schema1 in
      let schema3 :=
        Dict.set "definitions"
          (VDict (match ns_definitions nmspc with Some d => d | None => [] end))
          schema2 in
      let schema4 :=
        Dict.set "template"
          (match ns_template nmspc with Some t => t | None => VStr "{id}" end)
          schema3 in
      let* defaults0 := compute_defaults schema4 in
      Ok {| definitions := ns_definitions nmspc;
            collection_schema_url :=
              match ns_collection nmspc with
              | Some c => Some c
              | None =>
                  (* inherited from the first base that carries one *)
                  hd_error (omap collection_schema_url bases)
              end;
            exposed_methods := Some exposed;
            schema := schema4;
            title := match ns_title nmspc with Some t => t | None => VNone end;
            defaults := defaults0 |}
  end.

(** Class creation: [type.__call__] runs [__new__] then [__init__] on
    the same namespace object. *)
Definition DocumentMetaclass (name : string) (bases : list doc_class)
    (attrs : namespace) : result doc_class :=
  let* nmspc := DocumentMetaclass__new__ name bases attrs in
  DocumentMetaclass__init__ name bases nmspc.

(** *** Collection classes *)

(** A Collection class body, after attribute inheritance from the
    [Collection] base ([primary_key = "id"], [document_class =
    Document] unless overridden). *)
Record collection_namespace : Type := {
  cn_definitions : option dict;
  (** [None] stands for the base [Document] class itself. *)
  cn_document_class : option doc_class;
  (** [None] is Python's [None]; the [Collection] base declares ["id"]. *)
  cn_primary_key : option string;
  cn_exposed : list (string * string)
}.

(** What the metaclass reads of a base of a Collection class. *)
Record collection_base : Type := {
  cb_definitions : option dict;
  cb_exposed_methods : option (list (string * string))
}.

Record collection_class : Type := {
  cc_name : string;
  cc_slug : option string;
  cc_abstract : bool;
  cc_schema : option dict;
  cc_primary_key : option string;
  cc_definitions : dict;
  cc_document_class : option doc_class;
  cc_exposed_methods : list (string * string)
}.

(** [CollectionMetaclass.__new__]: the merged [definitions]. *)
Definition CollectionMetaclass__new__ (name : string)
    (bases : list collection_base) (attrs : collection_namespace)
  : collection_namespace :=
  let definitions0 :=
    fold_left (fun acc base =>
                 match cb_definitions base with
                 | Some d => if truthy (VDict d) then Dict.update acc d else acc
                 | None => acc
                 end) bases [] in
  {| cn_definitions :=
       Some (match cn_definitions attrs with
             | Some own => Dict.update own definitions0
             | None => definitions0
             end);
     cn_document_class := cn_document_class attrs;
     cn_primary_key := cn_primary_key attrs;
     cn_exposed := cn_exposed attrs |}.

(** ['id' in cls.schema['properties']] *)
Definition declares_id (schema0 : dict) : result bool :=
  let* props := getitem "properties" schema0 in
  match props with
  | VDict ps => Ok (Dict.mem "id" ps)
  | _ => Raise TypeError
  end.

(** [cls.schema['properties'][k] = v] *)
Definition set_property (k : string) (v : value) (schema0 : dict) : result dict :=
  let* props := getitem "properties" schema0 in
  match props with
  | VDict ps => Ok (Dict.set "properties" (VDict (Dict.set k v ps)) schema0)
  | _ => Raise TypeError
  end.

(** [CollectionMetaclass.__init__] *)
Definition CollectionMetaclass__init__ (name : string)
    (bases : list collection_base) (nmspc : collection_namespace)
  : result collection_class :=
  let exposed := collect_exposed (map cb_exposed_methods bases) (cn_exposed nmspc) in
  let defs := match cn_definitions nmspc with Some d => d | None => [] end in
  match cn_document_class nmspc with
  | Some document_class =>
      let schema0 := schema document_class in
      let* has_id := declares_id schema0 in
      if has_id then Raise CollectionException
      else
        let* schema1 :=
          if negb (pk_truthy (cn_primary_key nmspc))
          then set_property "id"
                 (VDict [("type", VStr "string");
                         ("description", VStr "The primary key.");
                         ("title", VStr "ID")]) schema0
          else Ok schema0 in
        let schema2 := Dict.set "methods" (VList (map VStr (Dict.values exposed))) schema1 in
        let schema3 :=
          Dict.set "documentMethods"
            (VList (map VStr (Dict.values
               (match exposed_methods document_class with Some m => m | None => [] end))))
            schema2 in
        if check_schema schema3
        then Ok {| cc_name := convert_camelcase name;
                   cc_slug := Some (camelcase_slugify name);
                   cc_abstract := false;
                   cc_schema := Some schema3;
                   cc_primary_key := cn_primary_key nmspc;
                   cc_definitions := defs;
                   cc_document_class := Some document_class;
                   cc_exposed_methods := exposed |}
        else Raise SchemaError
  | None =>
      Ok {| cc_name := convert_camelcase name;
            cc_slug := None;
            cc_abstract := true;
            cc_schema := None;
            cc_primary_key := cn_primary_key nmspc;
            cc_definitions := defs;
            cc_document_class := None;
            cc_exposed_methods := exposed |}
  end.

Definition CollectionMetaclass (name : string) (bases : list collection_base)
    (attrs : collection_namespace) : result collection_class :=
  CollectionMetaclass__init__ name bases (CollectionMetaclass__new__ name bases attrs).
End Metaclasses.

(** *** Runtime objects *)

(** [ValueHandler]: the three conversions of a special property. *)
Record ValueHandler : Type := {
  to_rql_repr : value -> result value;
  to_json_repr : value -> result value;
  to_python_repr : value -> result value
}.

(** [DocumentProcessor] *)
Record DocumentProcessor : Type := {
  is_necessary : string -> bool;
  run : dict -> result dict
}.

(** A Collection instance, with what its methods reach through
    [self]. *)
Record collection : Type := {
  name : string;
  url : string;
  primary_key : option string;
  coll_schema : dict;
  (** [self.document_class.specials]; [None] when the document class
      declares none. *)
  specials : option (list (string * ValueHandler));
  (** [self.validator], which returns or raises *)
  validator : dict -> result unit
}.

(** A Document instance. [defaults] and [processors] are attributes of
    its class. *)
Record document : Type := {
  doc_class_of : doc_class;
  processors : list DocumentProcessor;
  doc_collection : collection;
  _saved : bool;
  _url : option string;
  _referenced : bool;
  obj : dict
}.

Definition with_saved (b : bool) (d : document) : document :=
  {| doc_class_of := doc_class_of d; processors := processors d;
     doc_collection := doc_collection d; _saved := b; _url := _url d;
     _referenced := _referenced d; obj := obj d |}.

Definition with_obj (o : dict) (d : document) : document :=
  {| doc_class_of := doc_class_of d; processors := processors d;
     doc_collection := doc_collection d; _saved := _saved d; _url := _url d;
     _referenced := _referenced d; obj := o |}.

Definition with_url (u : option string) (d : document) : document :=
  {| doc_class_of := doc_class_of d; processors := processors d;
     doc_collection := doc_collection d; _saved := _saved d; _url := u;
     _referenced := _referenced d; obj := obj d |}.

(** [obj[self.collection.primary_key]] *)
Definition lookup_pk (pk : option string) (o : dict) : result value :=
  match pk with
  | Some k => getitem k o
  | None => Raise (KeyError VNone)
  end.

(** [self.collection.primary_key in obj] *)
Definition pk_in (pk : option string) (o : dict) : bool :=
  match pk with
  | Some k => Dict.mem k o
  | None => false
  end.

(** [Document.id] *)
Definition Document_id (self : document) : result value :=
  if _saved self
  then lookup_pk (primary_key (doc_collection self)) (obj self)
  else Ok VNone.

(** [Document.slug] *)
Definition Document_slug (self : document) : result value := Document_id self.

(** [Document.__len__] *)
Definition Document__len__ (self : document) : nat := length (obj self).

(** [Document.__eq__]: [self.id and (self.id == other.id)] *)
Definition Document__eq__ (self other : document) : result value :=
  let* i := Document_id self in
  if truthy i
  then
    let* i' := Document_id self in
    let* j := Document_id other in
    Ok (VBool (py_eq i' j))
  else Ok i.

(** [Document.__getitem__] *)
Definition Document__getitem__ (self : document) (key : string) : result value :=
  if Dict.mem key (obj self) then getitem key (obj self)
  else if Dict.mem key (defaults (doc_class_of self))
       then getitem key (defaults (doc_class_of self))
       else Raise (KeyError (VStr key)).

(** [a + b] on two objects that must both be [str] *)
Definition str_add (a : string) (b : value) : result value :=
  match b with
  | VStr s => Ok (VStr (a ++ s))
  | _ => Raise TypeError
  end.

(** ['/'.join((a, b))] *)
Definition slash_join (a : string) (b : value) : result string :=
  match b with
  | VStr s => Ok (a ++ "/" ++ s)
  | _ => Raise TypeError
  end.

(** [for property, special in specials.items(): if property in doc:
    doc[property] = convert(special)(doc[property])], on the dict
    [doc] in place: the dict as the loop left it, and the exception
    that stopped it, if one did. *)
Fixpoint apply_specials (convert : ValueHandler -> value -> result value)
    (items : list (string * ValueHandler)) (doc : dict) : dict * option exn :=
  match items with
  | [] => (doc, None)
  | (property, special) :: rest =>
      match Dict.get property doc with
      | Some v =>
          match convert special v with
          | Ok v' => apply_specials convert rest (Dict.set property v' doc)
          | Raise e => (doc, Some e)
          end
      | None => apply_specials convert rest doc
      end
  end.

Section Runtime.
(** The storage engine behind [self.table]: an opaque state, the
    insert of a batch of rows under a conflict policy, which answers
    with the engine's result object, and the row count. *)
Variable store : Type.
Variable table_insert : string -> list dict -> option string -> store -> value * store.
Variable table_count : string -> store -> nat.
(** [jsonschema.validate(value, schema)], [true] when it passes. *)
Variable jsonschema_validate : dict -> dict -> bool.
(** The receivers of the [pre_save] and [post_save] signals, which
    return or raise. *)
Variable pre_save : result unit.
Variable post_save : value -> result unit.

(** The interpreter state the runtime acts on: the Document objects by
    identity, and the storage engine. *)
Record state : Type := {
  heap : gmap addr document;
  db : store
}.

(** A method body: from a state to its outcome and the state it
    leaves, also when it raises. *)
Definition M (A : Type) : Type := state -> result A * state.

Definition ret {A} (a : A) : M A := fun s => (Ok a, s).
Definition raise {A} (e : exn) : M A := fun s => (Raise e, s).
Definition bind {A B} (m : M A) (k : A -> M B) : M B :=
  fun s => match m s with
           | (Ok a, s') => k a s'
           | (Raise e, s') => (Raise e, s')
           end.
Definition lift {A} (r : result A) : M A := fun s => (r, s).

Notation "'let!' x ':=' c 'in' k" := (bind c (fun x => k))
  (at level 10, x name, c at level 100, k at level 200).
Notation "'do!' c 'in' k" := (bind c (fun _ => k))
  (at level 10, c at level 100, k at level 200).

Fixpoint mapM {A B} (f : A -> M B) (l : list A) : M (list B) :=
  match l with
  | [] => ret []
  | x :: l' =>
      let! y := f x in
      let! ys := mapM f l' in
      ret (y :: ys)
  end.

(** Dereferencing an object reference. *)
Definition deref (a : addr) : M document :=
  fun s => match heap s !! a with
           | Some d => (Ok d, s)
           | None => (Raise AttributeError, s)
           end.

(** Attribute assignment on the object at [a]. *)
Definition modify (a : addr) (f : document -> document) : M unit :=
  fun s => (Ok tt, {| heap := alter f a (heap s); db := db s |}).

(** [self.table.insert(values, **kwargs).run(connection)] *)
Definition insert (self : collection) (values : list dict)
    (conflict : option string) : M value :=
  fun s => let r := table_insert (name self) values conflict (db s) in
           (Ok (fst r), {| heap := heap s; db := snd r |}).

(** [bool(collection)]: a Collection is a sized mapping, so its truth
    value is [len(self) != 0], the row count of its table. *)
Definition collection_truthy (self : collection) : M bool :=
  fun s => (Ok (negb (Nat.eqb (table_count (name self) (db s)) 0)), s).

(** What [Collection.save] receives as one of its [docs]. *)
Inductive save_arg : Type :=
| ADoc (a : addr)       (* a Document *)
| AObj (a : addr)       (* the dict object that is [a]'s [obj] *)
| ADict (d : dict).     (* a dict no Document holds *)

(** [self._to_json_repr(value)] and [self._to_rql_repr(value)]: the
    conversion runs on the dict object itself, so when that object is
    a Document's [obj] the Document sees every assignment made before
    the loop ended or raised. *)
Definition convert_in_place (self : collection)
    (convert : ValueHandler -> value -> result value)
    (owner : option addr) (value0 : dict) : M dict :=
  match specials self with
  | None => raise AttributeError
  | Some items =>
      let r := apply_specials convert items value0 in
      do! match owner with
          | Some a => modify a (with_obj (fst r))
          | None => ret tt
          end in
      match snd r with
      | None => ret (fst r)
      | Some e => raise e
      end
  end.

(** The body of [for value in docs] in [Collection.save]: the row
    appended to [values]. *)
Definition Collection_save_one (self : collection) (value0 : save_arg) : M dict :=
  let! unpacked :=
    match value0 with
    | ADoc a =>
        let! d := deref a in
        do! modify a (with_saved true) in
        (* copy(value.obj) *)
        ret (obj d, None)
    | AObj a =>
        let! d := deref a in
        ret (obj d, Some a)
    | ADict d => ret (d, None)
    end in
  let! value1 := convert_in_place self to_json_repr (snd unpacked) (fst unpacked) in
  do! (if jsonschema_validate value1 (coll_schema self)
       then ret tt else raise JsonSchemaValidationError) in
  do! lift (validator self value1) in
  let! value2 := convert_in_place self to_rql_repr (snd unpacked) value1 in
  ret value2.

(** [Collection.save(docs, **kwargs)], [docs] already a list (a single
    document is wrapped into one by the first two lines). *)
Definition Collection_save (self : collection) (docs : list save_arg)
    (conflict : option string) : M value :=
  do! lift pre_save in
  let! values := mapM (Collection_save_one self) docs in
  let! ret0 := insert self values conflict in
  do! lift (post_save ret0) in
  ret ret0.

(** [Document.save]: [self.collection.save(self.obj, *args, **kwargs)] *)
Definition Document_save (self : addr) (conflict : option string) : M value :=
  let! d := deref self in
  Collection_save (doc_collection d) [AObj self] conflict.

(** [Document.url] *)
Definition Document_url (self : addr) : M value :=
  let! d := deref self in
  if match _url d with Some u => truthy (VStr u) | None => false end
  then ret (match _url d with Some u => VStr u | None => VNone end)
  else
    let! c := collection_truthy (doc_collection d) in
    if c
    then
      let! slug := lift (Document_slug d) in
      lift (str_add (url (doc_collection d) ++ "/") slug)
    else lift (Document_slug d).

(** [_reference] *)
Definition _reference (v : value) : M value :=
  match v with
  | VDoc a =>
      let! d := deref a in
      let! i := lift (Document_id d) in
      do! (if negb (truthy i)
           then do! Document_save a None in ret tt
           else ret tt) in
      Document_url a
  | _ => ret v
  end.

(** Modelled from the spec: [sondra.utils.mapjson] is not among the
    sources. The function is applied to every leaf of a container
    (ordered sequence or mapping), recursively and in order, and the
    structure is preserved; a value that is no container is handed to
    the function itself. *)
Fixpoint mapjson (f : value -> M value) (v : value) {struct v} : M value :=
  match v with
  | VDict d =>
      let! d' :=
        (fix items (d : list (string * value)) : M (list (string * value)) :=
           match d with
           | [] => ret []
           | (k, x) :: d' =>
               let! y := mapjson f x in
               let! r := items d' in
               ret ((k, y) :: r)
           end) d in
      ret (VDict d')
  | VList l =>
      let! l' :=
        (fix elements (l : list value) : M (list value) :=
           match l with
           | [] => ret []
           | x :: l' =>
               let! y := mapjson f x in
               let! r := elements l' in
               ret (y :: r)
           end) l in
      ret (VList l')
  | _ => f v
  end.

(** [for p in self.processors: if p.is_necessary(key): p.run(self.obj)]
    on the dict object [o]: the dict as the loop left it, and the
    exception that stopped it, if one did. *)
Fixpoint run_processors (ps : list DocumentProcessor) (key : string) (o : dict)
  : dict * option exn :=
  match ps with
  | [] => (o, None)
  | p :: rest =>
      if is_necessary p key
      then match run p o with
           | Ok o' => run_processors rest key o'
           | Raise e => (o, Some e)
           end
      else run_processors rest key o
  end.

(** [Document.__setitem__] *)
Definition Document__setitem__ (self : addr) (key : string) (value0 : value) : M unit :=
  let! value1 := _reference value0 in
  let! value2 :=
    match value1 with
    | VList _ | VDict _ => mapjson _reference value1
    | _ => ret value1
    end in
  let! d := deref self in
  do! modify self (with_obj (Dict.set key value2 (obj d))) in
  let! d' := deref self in
  let r := run_processors (processors d') key (obj d') in
  do! modify self (with_obj (fst r)) in
  match snd r with
  | None => ret tt
  | Some e => raise e
  end.

(** Allocation of a new object. *)
Definition fresh (s : state) : addr :=
  S (fold_right Nat.max 0%nat (map fst (map_to_list (heap s)))).

Definition alloc (d : document) : M addr :=
  fun s => let a := fresh s in
           (Ok a, {| heap := <[a := d]> (heap s); db := db s |}).

(** [Document.__init__(obj, collection, from_db)], on a new object of
    class [cls] with class attribute [processors]. *)
Definition Document__init__ (cls : doc_class) (procs : list DocumentProcessor)
    (obj0 : dict) (coll : collection) (from_db : bool) : M addr :=
  let! self := alloc {| doc_class_of := cls; processors := procs;
                        doc_collection := coll; _saved := from_db;
                        _url := None; _referenced := true; obj := [] |} in
  do! (if pk_in (primary_key coll) obj0
       then
         let! k := lift (lookup_pk (primary_key coll) obj0) in
         let! r := _reference k in
         let! u := lift (slash_join (url coll) r) in
         modify self (with_url (Some u))
       else ret tt) in
  do! (fix assign (items : list (string * value)) : M unit :=
         match items with
         | [] => ret tt
         | (k, v) :: rest =>
             do! Document__setitem__ self k v in assign rest
         end) obj0 in
  ret self.
End Runtime.

(** *** More of the Document and Collection runtime *)

(** [Document.name]: [self.id or "<unsaved>"] *)
Definition Document_name (self : document) : result value :=
  let* i := Document_id self in
  if truthy i then Ok i else Ok (VStr "<unsaved>").

(** [x in s] on two strings: [x] occurs in [s]. *)
Fixpoint contains (x s : string) : bool :=
  if String.prefix x s then true
  else match s with
       | EmptyString => false
       | String _ s' => contains x s'
       end.

Section Processors.
(** [slugify] of the slugify package, which returns or raises. *)
Variable slugify : value -> result value.

(** [DocumentProcessor], the base class *)
Definition DocumentProcessor_base : DocumentProcessor :=
  {| is_necessary := fun changed_props => false;
     run := fun document => Ok document |}.

(** [SlugPropertyProcessor(source_prop, dest_prop)]. [is_necessary] is
    handed the key that was assigned, a string, so its [in] is the
    substring test. *)
Definition SlugPropertyProcessor (source_prop dest_prop : string) : DocumentProcessor :=
  {| is_necessary := fun changed_props => contains source_prop changed_props;
     run := fun document =>
              let* v := getitem source_prop document in
              let* s := slugify v in
              Ok (Dict.set dest_prop s document) |}.
End Processors.

Section Lifecycle.
Variable store : Type.
Variable table_count : string -> store -> nat.
(** [self.table.delete] with the keyword arguments, run: every row. *)
Variable table_delete : string -> dict -> store -> value * store.
(** [self.table.get_all] of the values, then [delete] with the
    keyword arguments, run. *)
Variable table_get_all_delete : string -> list value -> dict -> store -> value * store.

(** [bool(x)] on an object at hand: a Document is a sized mapping, so
    its truth value is [len(self) != 0]. *)
Definition object_truthy (v : value) : M store bool :=
  match v with
  | VDoc a =>
      bind store (deref store a)
        (fun d => ret store (negb (Nat.eqb (Document__len__ d) 0)))
  | _ => ret store (truthy v)
  end.

(** [Collection.delete], with [docs] defaulting to [None] *)
Definition Collection_delete (self : collection) (docs : value) (kwargs : dict)
  : M store value :=
  bind store (object_truthy docs) (fun t =>
  if negb t
  then fun s => let r := table_delete (name self) kwargs (db store s) in
                (Ok (fst r), {| heap := heap store s; db := snd r |})
  else
    let docs0 := match docs with VList l => l | _ => [docs] end in
    bind store
      (mapM store
         (fun v => match v with
                   | VDoc a => bind store (deref store a)
                                 (fun d => lift store (Document_id d))
                   | _ => ret store v
                   end) docs0)
      (fun values s =>
         let r := table_get_all_delete (name self) values kwargs (db store s) in
         (Ok (fst r), {| heap := heap store s; db := snd r |}))).

(** [Document.delete]: [self.collection.delete(self.id, ...)] *)
Definition Document_delete (self : addr) (kwargs : dict) : M store value :=
  bind store (deref store self) (fun d =>
  bind store (lift store (Document_id d)) (fun i =>
  Collection_delete (doc_collection d) i kwargs)).

(** The body of [for value in docs] in [Collection.json]. *)
Definition Collection_json_one (self : collection) (value0 : save_arg) : M store dict :=
  bind store
    (match value0 with
     | ADoc a =>
         bind store (deref store a) (fun d =>
         bind store (Document_url store table_count a) (fun u =>
         ret store (Dict.set "_url" u (obj d), None)))
     | AObj a =>
         bind store (deref store a) (fun d => ret store (obj d, Some a))
     | ADict d => ret store (d, None)
     end)
    (fun unpacked =>
       convert_in_place store self to_json_repr (snd unpacked) (fst unpacked)).

(** [Collection.json(docs)]; [pop] tells that [docs] was a single
    document, which the first lines wrap into a list. *)
Definition Collection_json (self : collection) (docs : list save_arg) (pop : bool)
  : M store value :=
  bind store (mapM store (Collection_json_one self) docs) (fun values =>
  if pop
  then match values with
       | v :: _ => ret store (VDict v)
       | [] => raise store IndexError
       end
  else ret store (VList (map VDict values))).
End Lifecycle.

Section Fetch.
Variable store : Type.
Variable table_insert : string -> list dict -> option string -> store -> value * store.
Variable table_count : string -> store -> nat.
Variable jsonschema_validate : dict -> dict -> bool.
Variable pre_save : result unit.
Variable post_save : value -> result unit.
(** [self.table.get(key).run(connection)]: the row, or [None]. *)
Variable table_get : string -> string -> store -> option dict.

(** [Collection.__getitem__], for a key that is text;
    [document_class] and [procs] are [self.document_class] and its
    [processors]. The row is a dict of its own, which
    [_to_python_repr] converts where it is. *)
Definition Collection__getitem__ (self : collection) (document_class : doc_class)
    (procs : list DocumentProcessor) (key : string) : M store addr :=
  fun s =>
    match table_get (name self) key (db store s) with
    | Some ((_ :: _) as doc) =>
        bind store (convert_in_place store self to_python_repr None doc)
          (fun doc' =>
             Document__init__ store table_insert table_count jsonschema_validate
               pre_save post_save document_class procs doc' self true) s
    | _ => (Raise (KeyError (VStr (key ++ " not found in " ++ url self))), s)
    end.
End Fetch.

End Pkg.

(** ** The single-file layout: [sondra/document.py] *)

Module DocumentPy.

(** *** Strings as the handlers read them *)

(** [str.lower], on the ASCII letters. *)
Definition lower_ascii (c : ascii) : ascii :=
  let n := nat_of_ascii c in
  if (Nat.leb 65 n && Nat.leb n 90)%bool then ascii_of_nat (n + 32) else c.

Fixpoint lower (s : string) : string :=
  match s with
  | EmptyString => EmptyString
  | String c s' => String (lower_ascii c) (lower s')
  end.

(** [s.split(sep)] for a one-character separator: the pieces between
    the separators, at least one. *)
Fixpoint split (sep : ascii) (s : string) : list string :=
  match s with
  | EmptyString => [EmptyString]
  | String c s' =>
      if Ascii.eqb c sep then EmptyString :: split sep s'
      else match split sep s' with
           | piece :: rest => String c piece :: rest
           | [] => [String c EmptyString]
           end
  end.

Definition digit_of (c : ascii) : option Z :=
  let n := nat_of_ascii c in
  if (Nat.leb 48 n && Nat.leb n 57)%bool then Some (Z.of_nat (n - 48)) else None.

(** The value of a run of decimal digits read after [acc]. *)
Fixpoint digits_from (acc : Z) (s : string) : option Z :=
  match s with
  | EmptyString => Some acc
  | String c s' =>
      match digit_of c with
      | Some d => digits_from (10 * acc + d) s'
      | None => None
      end
  end.

(** [int(s)] for a decimal literal: an optional sign and at least one
    digit. Other spellings [int] accepts (surrounding blanks, digit
    groups joined by underscores) are outside the timezone format and
    are reported as [ValueError] here. *)
Definition py_int (s : string) : result Z :=
  let unsigned (t : string) : option Z :=
    match t with
    | EmptyString => None
    | _ => digits_from 0 t
    end in
  match s with
  | String "-" t =>
      match unsigned t with Some z => Ok (- z) | None => Raise ValueError end
  | String "+" t =>
      match unsigned t with Some z => Ok z | None => Raise ValueError end
  | _ =>
      match unsigned s with Some z => Ok z | None => Raise ValueError end
  end.

(** *** [Time] *)

Section TimeHandler.
(** [datetime.datetime] and [datetime.date] objects, with the library
    calls the handler makes on them. *)
Variable datetime : Type.
Variable date : Type.
Variable tzinfo : Type.
(** [datetime.isoformat()] and [date.isoformat()] *)
Variable isoformat : datetime -> string.
Variable date_isoformat : date -> string.
(** [iso8601.parse_date] *)
Variable parse_date : string -> result datetime.
(** [datetime.timezone(offset)], called with the number
    [from_rql_tz] returns *)
Variable timezone : Z -> result tzinfo.
(** [datetime.fromtimestamp(timestamp, tz=...)]; without [tz] the
    local zone is used. It raises on a number outside the range the
    platform supports. *)
Variable fromtimestamp : Z -> option tzinfo -> result datetime.
(** The engine's time objects: those with [to_epoch_time()],
    [timezone()] and [to_iso8601()]. A timezone reads ["Z"] or a
    signed ["HH:MM"]. *)
Variable reql : Type.
Variable to_epoch_time : reql -> Z.
Variable reql_timezone : reql -> string.
Variable to_iso8601 : reql -> reql.
(** The terms [to_rql_repr] builds. *)
Variable r_iso8601 : string -> string -> reql.
Variable r_time : dict -> string -> reql.
Variable in_timezone : reql -> string -> reql.
Variable as_timezone : reql -> string -> result reql.

(** The values a time property holds in one of its shapes. *)
Inductive tvalue : Type :=
| TNone
| TStr (s : string)
| TNum (z : Z)
| TDict (d : dict)
| TDate (d : date)
| TDatetime (d : datetime)
| TReql (q : reql).

Record Time : Type := { Time_timezone : string }.

Definition Time_DEFAULT_TIMEZONE : string := "Z".

(** [Time.__init__(timezone='Z')] *)
Definition Time__init__ (tz : option string) : Time :=
  {| Time_timezone := match tz with Some z => z | None => "Z" end |}.

(** [Time.from_rql_tz] *)
Definition Time_from_rql_tz (self : Time) (tz : string) : result Z :=
  if String.eqb tz "Z" then Ok 0
  else
    let* first :=
      match tz with
      | String c _ => Ok c
      | EmptyString => Raise IndexError
      end in
    let posneg := if Ascii.eqb first "-" then -1 else 1 in
    let* parts := foldM (fun acc piece => let* n := py_int piece in Ok (acc ++ [n])%list)
                        [] (split ":" tz) in
    match parts with
    | [hours; minutes] =>
        let offset := posneg * (hours * 60 + minutes) in
        Ok offset
    | _ => Raise ValueError
    end.

(** [Time.to_rql_repr] *)
Definition Time_to_rql_repr (self : Time) (value0 : tvalue) : result tvalue :=
  match value0 with
  | TStr s =>
      Ok (TReql (in_timezone (r_iso8601 s Time_DEFAULT_TIMEZONE) (Time_timezone self)))
  | TNum z => let* d := fromtimestamp z None in Ok (TStr (isoformat d))
  | TDict d => Ok (TReql (in_timezone (r_time d (Time_timezone self)) (Time_timezone self)))
  | TDatetime d =>
      let* q := as_timezone (r_iso8601 (isoformat d) Time_DEFAULT_TIMEZONE)
                            (Time_timezone self) in
      Ok (TReql q)
  | TDate d =>
      let* q := as_timezone (r_iso8601 (date_isoformat d) Time_DEFAULT_TIMEZONE)
                            (Time_timezone self) in
      Ok (TReql q)
  | TNone | TReql _ => Raise AttributeError
  end.

(** [Time.to_json_repr] *)
Definition Time_to_json_repr (self : Time) (value0 : tvalue) : result tvalue :=
  match value0 with
  | TDate d => Ok (TStr (date_isoformat d))
  | TDatetime d => Ok (TStr (isoformat d))
  | TReql q => Ok (TReql (to_iso8601 q))
  | TNum z => let* d := fromtimestamp z None in Ok (TStr (isoformat d))
  | _ => Ok value0
  end.

(** [Time.to_python_repr]; a value of no branch falls off the end of
    the function, which returns [None]. *)
Definition Time_to_python_repr (self : Time) (value0 : tvalue) : result tvalue :=
  match value0 with
  | TStr s => let* d := parse_date s in Ok (TDatetime d)
  | TDatetime d => Ok value0
  | TReql q =>
      let timestamp := to_epoch_time q in
      let tz := reql_timezone q in
      let* offset := Time_from_rql_tz self tz in
      let* offset_tz := timezone offset in
      let* dt := fromtimestamp timestamp (Some offset_tz) in
      Ok (TDatetime dt)
  | _ => Ok TNone
  end.
End TimeHandler.
Arguments TNone {datetime date reql}.
Arguments TStr {datetime date reql} s.
Arguments TNum {datetime date reql} z.
Arguments TDict {datetime date reql} d.
Arguments TDate {datetime date reql} d.
Arguments TDatetime {datetime date reql} d.
Arguments TReql {datetime date reql} q.
Arguments Time_to_rql_repr {datetime date tzinfo} isoformat date_isoformat
  fromtimestamp {reql} r_iso8601 r_time in_timezone as_timezone self value0.
Arguments Time_to_json_repr {datetime date tzinfo} isoformat date_isoformat
  fromtimestamp {reql} to_iso8601 self value0.
Arguments Time_to_python_repr {datetime date tzinfo} parse_date timezone
  fromtimestamp {reql} to_epoch_time reql_timezone self value0.

(** *** [Geometry] *)

Section GeometryHandler.
(** [shapely.geometry.base.BaseGeometry] with [shape] and [mapping],
    and the ReQL term [r.geojson(value)]. *)
Variable BaseGeometry : Type.
Variable shape : dict -> result BaseGeometry.
Variable mapping : BaseGeometry -> dict.

(** The values a geometry property holds in one of its shapes. *)
Inductive gvalue : Type :=
| GJson (v : value)            (* a JSON value, such as a GeoJSON mapping *)
| GShape (g : BaseGeometry)    (* a shapely geometry *)
| GReql (v : gvalue).          (* the term [r.geojson(v)] *)

(** A [Geometry] handler; [allowed_types] is a set or [None]. *)
Record Geometry : Type := { allowed_types : option (list string) }.

(** [Geometry.__init__( *allowed_types )] *)
Definition Geometry__init__ (types : list string) : Geometry :=
  {| allowed_types :=
       match types with
       | [] => None
       | _ => Some (fold_left (fun acc x =>
                                 if existsb (String.eqb (lower x)) acc
                                 then acc else (acc ++ [lower x])%list)
                              types [])
       end |}.

(** [value['type'].lower()] *)
Definition geojson_type_lower (value0 : gvalue) : result string :=
  match value0 with
  | GJson (VDict d) =>
      let* t := getitem "type" d in
      match t with
      | VStr s => Ok (lower s)
      | _ => Raise AttributeError
      end
  | _ => Raise TypeError
  end.

(** [Geometry.to_rql_repr] *)
Definition Geometry_to_rql_repr (self : Geometry) (value0 : gvalue) : result gvalue :=
  do* match allowed_types self with
      | Some ((_ :: _) as allowed) =>
          let* t := geojson_type_lower value0 in
          if negb (existsb (String.eqb t) allowed)
          then Raise ValidationError
          else Ok tt
      | _ => Ok tt
      end in
  Ok (GReql value0).

(** [Geometry.to_json_repr] *)
Definition Geometry_to_json_repr (self : Geometry) (value0 : gvalue) : gvalue :=
  match value0 with
  | GShape g => GJson (VDict (mapping g))
  | _ => value0
  end.

(** [Geometry.to_python_repr]: [del value['$reql_type$']], then
    [shape(value)]. *)
Definition Geometry_to_python_repr (self : Geometry) (value0 : gvalue) : result gvalue :=
  match value0 with
  | GJson (VDict d) =>
      if Dict.mem "$reql_type$" d
      then let* g := shape (Dict.remove "$reql_type$" d) in Ok (GShape g)
      else Raise (KeyError (VStr "$reql_type$"))
  | _ => Raise TypeError
  end.
End GeometryHandler.
Arguments GJson {BaseGeometry} v.
Arguments GShape {BaseGeometry} g.
Arguments GReql {BaseGeometry} v.
Arguments Geometry_to_rql_repr {BaseGeometry} self value0.
Arguments Geometry_to_json_repr {BaseGeometry} mapping self value0.
Arguments Geometry_to_python_repr {BaseGeometry} shape self value0.

(** *** The registry: [Suite], [Application], [Collection] *)

(** A Collection instance of this layout, as far as lookups go: the
    documents its table holds, by primary key. *)
Record Collection : Type := {
  Collection_slug : string;
  Collection_rows : list (string * addr)
}.

Record Application : Type := {
  Application_slug : string;
  collections : list (string * Collection)
}.

Record Suite : Type := {
  base_url : string;
  applications : list (string * Application)
}.

(** The process-wide state [Suite()] reads: the concrete Suite classes
    registered, and the one instance. *)
Record process : Type := {
  registry : list string;
  instance : Suite
}.

(** [SuiteMetaclass.__call__] *)
Definition Suite__call__ (p : process) : result Suite :=
  if Nat.ltb 1 (length (registry p)) then Raise SuiteException
  else Ok (instance p).

(** [Suite.__getitem__] *)
Definition Suite__getitem__ (self : Suite) (item : string) : result Application :=
  match Dict.get item (applications self) with
  | Some app => Ok app
  | None => Raise (KeyError (VStr item))
  end.

(** [Application.__getitem__] *)
Definition Application__getitem__ (self : Application) (item : string)
  : result Collection :=
  match Dict.get item (collections self) with
  | Some c => Ok c
  | None => Raise (KeyError (VStr item))
  end.

(** [Collection.__getitem__]: the stored document, or [KeyError]. *)
Definition Collection__getitem__ (self : Collection) (key : string) : result value :=
  match Dict.get key (Collection_rows self) with
  | Some a => Ok (VDoc a)
  | None => Raise (KeyError (VStr key))
  end.

(** What the resolution of an identifier gives: a value (a live
    Document is [VDoc], an identifier left unresolved is the string
    itself), or a live Application or Collection. *)
Inductive entity : Type :=
| EValue (v : value)
| EApplication (a : Application)
| ECollection (c : Collection).

Section References.
(** [Reference(Suite(), url).get_document()] of [sondra.ref], which is
    not among the sources. *)
Variable Reference_get_document : Suite -> string -> result entity.

(** [Suite.lookup_document] *)
Definition Suite_lookup_document (p : process) (self : Suite) (url0 : string)
  : result entity :=
  if negb (startswith url0 (base_url self)) then Ok (EValue VNone)
  else
    let* env := Suite__call__ p in
    Reference_get_document env url0.

(** [_from_ref] *)
Definition _from_ref (p : process) (doc : value) : result entity :=
  let* env := Suite__call__ p in
  match doc with
  | VStr s =>
      if startswith s (base_url env)
      then Suite_lookup_document p env s
      else Ok (EValue doc)
  | _ => Ok (EValue doc)
  end.
End References.

(** Modelled from the spec: the identifier format
    [{suite_base}/{application_slug}/{collection_slug}/{primary_key_value}],
    which [sondra.ref.Reference], not among the sources, takes apart.
    [strip_prefix] is what follows the base address and
    [path_segments] that path cut at the slashes: [None] when the
    identifier is not the base followed by a slash. *)
Fixpoint strip_prefix (p s : string) : option string :=
  match p, s with
  | EmptyString, _ => Some s
  | String a p', String b s' => if Ascii.eqb a b then strip_prefix p' s' else None
  | String _ _, EmptyString => None
  end.

Definition path_segments (base s : string) : option (list string) :=
  match strip_prefix base s with
  | Some (String "/" rest) => Some (split "/" rest)
  | _ => None
  end.

(** Modelled from the spec: [sondra.ref.Reference] is not among the
    sources. An identifier reads
    [{suite_base}/{application_slug}/{collection_slug}/{primary_key_value}];
    applications and collections are addressed the same way, omitting
    trailing segments. It is resolved via the Suite registry to a live
    object: application, collection or document, depending on how
    many path segments are present. The registry is read through the
    item lookups of Suite, Application and Collection. *)
Definition resolve_segments (env : Suite) (segs : list string) : result entity :=
  match segs with
  | [app] =>
      let* a := Suite__getitem__ env app in
      Ok (EApplication a)
  | [app; coll] =>
      let* a := Suite__getitem__ env app in
      let* c := Application__getitem__ a coll in
      Ok (ECollection c)
  | [app; coll; key] =>
      let* a := Suite__getitem__ env app in
      let* c := Application__getitem__ a coll in
      let* d := Collection__getitem__ c key in
      Ok (EValue d)
  | _ => Raise ValueError
  end.

(** Modelled from the spec: [sondra.ref.Reference] is not among the
    sources. The identifier is resolved to the live object and that
    object is returned; if resolution fails (address not under the
    known base, or addressed entity absent) the original string is
    returned unchanged: resolution failure is not an error, it
    degrades to an opaque reference. *)
Definition Reference_get_document (env : Suite) (url0 : string) : result entity :=
  match path_segments (base_url env) url0 with
  | Some segs =>
      match resolve_segments env segs with
      | Ok e => Ok e
      | Raise _ => Ok (EValue (VStr url0))
      end
  | None => Ok (EValue (VStr url0))
  end.

(** *** [CollectionMetaclass] *)

(** A Collection class body of this layout, after attribute
    inheritance, with the [_collection_registry] of the Application
    class it names ([None]: no [application], or [None]). *)
Record collection_namespace : Type := {
  cn_doc : option string;
  cn_document_schema : dict;
  cn_primary_key : option string;
  cn_application : option (list (string * string))
}.

Section Metaclass.
Variable convert_camelcase : string -> string.
Variable camelcase_slugify : string -> string.
Variable check_schema : dict -> bool.

(** [ApplicationMetaclass.register_collection]: the registry maps a
    slug to the class, here to its name. *)
Definition register_collection (reg : list (string * string)) (name slug : string)
  : result (list (string * string)) :=
  if negb (Dict.mem name reg) then Ok (Dict.set slug name reg)
  else Raise ApplicationException.

(** [CollectionMetaclass.__init__]: the class's [schema] and the
    application's registry after it. *)
Definition CollectionMetaclass__init__ (name : string) (nmspc : collection_namespace)
  : result (dict * list (string * string)) :=
  let cname := convert_camelcase name in
  let slug := camelcase_slugify name in
  let schema0 := cn_document_schema nmspc in
  let schema1 :=
    if negb (Dict.mem "description" schema0)
    then Dict.set "description"
           (VStr (match cn_doc nmspc with
                  | Some doc => if truthy (VStr doc) then doc
                                else "No description provided"
                  | None => "No description provided"
                  end)) schema0
    else schema0 in
  let* has_id := Pkg.declares_id schema1 in
  if has_id then Raise CollectionException
  else
    let* schema2 :=
      if negb (pk_truthy (cn_primary_key nmspc))
      then Pkg.set_property "id" (VDict [("type", VStr "string")]) schema1
      else Ok schema1 in
    if check_schema schema2
    then
      match cn_application nmspc with
      | None => Raise CollectionException
      | Some reg =>
          let* reg' := register_collection reg cname slug in
          Ok (schema2, reg')
      end
    else Raise SchemaError.
End Metaclass.

(** *** Registration in the Suite *)

(** [Suite.register_application] *)
Definition Suite_register_application (self : Suite) (app : Application)
  : result Suite :=
  if Dict.mem (Application_slug app) (applications self)
  then Raise SuiteException
  else Ok {| base_url := base_url self;
             applications :=
               Dict.set (Application_slug app) app (applications self) |}.

(** [Suite.__contains__] and [Suite.__len__] *)
Definition Suite__contains__ (self : Suite) (item : string) : bool :=
  Dict.mem item (applications self).

Definition Suite__len__ (self : Suite) : nat := length (applications self).

(** [SuiteMetaclass.__init__] on the shared [registry], a set of
    classes, told apart here by their names: the new class is added
    and its bases are taken out. *)
Definition SuiteMetaclass__init__ (registry0 : list string) (name : string)
    (bases : list string) : list string :=
  let added :=
    if existsb (String.eqb name) registry0 then registry0
    else (registry0 ++ [name])%list in
  List.filter (fun c => negb (existsb (String.eqb c) bases)) added.

End DocumentPy.

(** ** Notions the statements are worded in *)

Module Stated.
Import Pkg.

(** The default a schema declares for a property: the [default] entry
    of the property's schema under [properties]. *)
Definition declared_default (schema0 : dict) (key : string) : option value :=
  match Dict.get "properties" schema0 with
  | Some (VDict ps) =>
      match Dict.get key ps with
      | Some (VDict pd) => Dict.get "default" pd
      | _ => None
      end
  | _ => None
  end.

(** A mapping binds each key once. *)
Definition wf (d : dict) : Prop := List.NoDup (Dict.keys d).

(** The [definitions] and [properties] of a class's composed schema. *)
Definition composed_definitions (c : doc_class) : dict :=
  match Dict.get "definitions" (schema c) with
  | Some (VDict d) => d
  | _ => []
  end.

Definition composed_properties (c : doc_class) : dict :=
  match Dict.get "properties" (schema c) with
  | Some (VDict d) => d
  | _ => []
  end.

(** The fragment a type declares itself: its [definitions] and the
    [properties] of its [schema]. *)
Definition declared_definitions (attrs : namespace) : dict :=
  match ns_definitions attrs with
  | Some d => d
  | None => []
  end.

Definition declared_properties (attrs : namespace) : option value :=
  Dict.get "properties"
    (match ns_schema attrs with
     | Some s => s
     | None => [("type", VStr "object"); ("properties", VDict [])]
     end).

(** The [definitions] attribute of a base, empty when it has none. *)
Definition base_definitions (base : doc_class) : dict :=
  match definitions base with
  | Some d => d
  | None => []
  end.

(** What one base contributes to the [definitions] gathered by
    [DocumentMetaclass.__new__]. *)
Definition inherit_definitions (acc : dict) (base : doc_class) : dict :=
  match definitions base with
  | Some d => if truthy (VDict d) then Dict.update acc d else acc
  | None => acc
  end.



(** The saved flag of the object at an address, if there is one. *)
Definition saved_flag {store : Type} (s : state store) (b : addr) : option bool :=
  _saved <$> (heap store s !! b).

(** A method body that leaves the saved flag of every object in [P]
    as it found it, whether it returns or raises. *)
Definition keeps_flags {store A : Type} (P : addr -> Prop) (m : M store A) : Prop :=
  forall (s : state store) (b : addr),
    P b -> saved_flag (snd (m s)) b = saved_flag s b.

(** A method body that leaves the storage engine as it found it,
    whether it returns or raises. *)
Definition keeps_db {store A : Type} (m : M store A) : Prop :=
  forall s : state store, db store (snd (m s)) = db store s.

(** A value that is neither a Document nor a container. *)
Definition scalar (v : value) : bool :=
  match v with
  | VDoc _ | VList _ | VDict _ => false
  | _ => true
  end.

End Stated.

(** ** Concrete objects *)

Module Examples.
Import Pkg.

(** A document type with one property that declares a default and one
    that does not. *)
Definition widget_attrs : namespace :=
  {| ns_schema :=
       Some [("type", VStr "object");
             ("properties",
              VDict [("name", VDict [("type", VStr "string")]);
                     ("color", VDict [("type", VStr "string");
                                      ("default", VStr "red")])])];
     ns_definitions := None; ns_title := None; ns_template := None;
     ns_doc := None; ns_collection := None; ns_exposed := [] |}.

(** A class object with none of the attributes read. *)
Definition no_class : doc_class :=
  {| definitions := None; collection_schema_url := None;
     exposed_methods := None; schema := []; title := VNone; defaults := [] |}.

Definition widget_class : doc_class :=
  match DocumentMetaclass (fun s => s) "Widget" [] widget_attrs with
  | Ok c => c
  | Raise _ => no_class
  end.

Definition widgets : collection :=
  {| name := "widgets"; url := "http://localhost:8000/shop/widgets";
     primary_key := Some "id"; coll_schema := schema widget_class;
     specials := Some []; validator := fun _ => Ok tt |}.

Definition widget (saved : bool) (o : dict) : document :=
  {| doc_class_of := widget_class; processors := []; doc_collection := widgets;
     _saved := saved; _url := None; _referenced := true; obj := o |}.

(** A base type with one property and one definition, a type derived
    from it that declares a property and a definition of its own, and
    one that declares a definition under the base's name. *)
Definition base_attrs : namespace :=
  {| ns_schema :=
       Some [("type", VStr "object");
             ("properties", VDict [("name", VDict [("type", VStr "string")])])];
     ns_definitions := Some [("address", VDict [("type", VStr "string")])];
     ns_title := None; ns_template := None; ns_doc := None;
     ns_collection := None; ns_exposed := [] |}.

Definition derived_attrs : namespace :=
  {| ns_schema :=
       Some [("type", VStr "object");
             ("properties", VDict [("age", VDict [("type", VStr "integer")])])];
     ns_definitions := Some [("phone", VDict [("type", VStr "string")])];
     ns_title := None; ns_template := None; ns_doc := None;
     ns_collection := None; ns_exposed := [] |}.

Definition overriding_attrs : namespace :=
  {| ns_schema :=
       Some [("type", VStr "object");
             ("properties", VDict [("age", VDict [("type", VStr "integer")])])];
     ns_definitions := Some [("address", VDict [("type", VStr "object")])];
     ns_title := None; ns_template := None; ns_doc := None;
     ns_collection := None; ns_exposed := [] |}.

Definition base_class : doc_class :=
  match DocumentMetaclass (fun s => s) "Base" [] base_attrs with
  | Ok c => c
  | Raise _ => no_class
  end.

(** A collection class keyed by [sku], one that sets [primary_key] to
    [None], and the Application registry the single-file layout
    registers them in. *)
Definition keyed_collection (pk : option string) : collection_namespace :=
  {| cn_definitions := None; cn_document_class := Some widget_class;
     cn_primary_key := pk; cn_exposed := [] |}.

Definition keyed_collection_py (pk : option string) : DocumentPy.collection_namespace :=
  {| DocumentPy.cn_doc := None;
     DocumentPy.cn_document_schema := schema widget_class;
     DocumentPy.cn_primary_key := pk;
     DocumentPy.cn_application := Some [] |}.

(** GeoJSON values, and a point as the engine returns it. *)
Definition point : dict :=
  [("type", VStr "Point"); ("coordinates", VList [VInt 1; VInt 2])].

Definition polygon : dict :=
  [("type", VStr "Polygon");
   ("coordinates",
    VList [VList [VList [VInt 0; VInt 0]; VList [VInt 1; VInt 0];
                  VList [VInt 1; VInt 1]; VList [VInt 0; VInt 0]]])].


Definition geo_mapping (g : dict) : dict := Dict.remove "$reql_type$" g.

(** A suite with one application, one collection and one stored
    document. *)
Definition shop_suite : DocumentPy.Suite :=
  {| DocumentPy.base_url := "http://localhost:8000";
     DocumentPy.applications :=
       [("shop",
         {| DocumentPy.Application_slug := "shop";
            DocumentPy.collections :=
              [("widgets",
                {| DocumentPy.Collection_slug := "widgets";
                   DocumentPy.Collection_rows := [("A1", 7%nat)] |})] |})] |}.

Definition shop_process : DocumentPy.process :=
  {| DocumentPy.registry := ["ShopSuite"]; DocumentPy.instance := shop_suite |}.

(** A storage engine that keeps the rows it was handed, by table. *)
Definition row_store : Type := list (string * dict).

Definition rows_insert (table : string) (values : list dict)
    (conflict : option string) (st : row_store) : value * row_store :=
  (VDict [("inserted", VInt (Z.of_nat (length values)))],
   (st ++ map (fun row => (table, row)) values)%list).

Definition rows_count (table : string) (st : row_store) : nat :=
  length (filter (fun r => String.eqb (fst r) table) st).

Definition empty_state : state row_store :=
  {| heap := ∅; db := [] |}.

(** The runtime over that engine, with a schema check that accepts
    everything or nothing and signal receivers that return. *)
Definition save_with (valid : bool) :=
  Collection_save row_store rows_insert (fun _ _ => valid) (Ok tt) (fun _ => Ok tt).

Definition new_document (valid : bool) :=
  Document__init__ row_store rows_insert rows_count (fun _ _ => valid)
    (Ok tt) (fun _ => Ok tt) widget_class [].

(** The item assignment of the runtime over that engine. *)
Definition setitem_with (valid : bool) :=
  Document__setitem__ row_store rows_insert rows_count (fun _ _ => valid)
    (Ok tt) (fun _ => Ok tt).

(** An unsaved child and an unsaved parent, the parent after the child
    was assigned to its property [child], and the save of the
    parent. *)
Definition family_before : state row_store :=
  match new_document true [("id", VStr "c1"); ("name", VStr "kid")] widgets false
          empty_state with
  | (Ok child, s1) =>
      snd (new_document true [("id", VStr "p1")] widgets false s1)
  | (Raise e, s1) => s1
  end.

Definition family_linked : state row_store :=
  snd (setitem_with true 2%nat "child" (VDoc 1%nat) family_before).

Definition family_saved : result value * state row_store :=
  save_with true widgets [ADoc 2%nat] None family_linked.

(** The same family with the child handed to the parent's
    constructor. *)
Definition family_constructed : result value * state row_store :=
  match new_document true [("id", VStr "c1"); ("name", VStr "kid")] widgets false
          empty_state with
  | (Ok child, s1) =>
      match new_document true [("id", VStr "p1"); ("child", VDoc child)] widgets false
              s1 with
      | (Ok parent, s2) => save_with true widgets [ADoc parent] None s2
      | (Raise e, s2) => (Raise e, s2)
      end
  | (Raise e, s1) => (Raise e, s1)
  end.

(** One unsaved document, in a process whose schema check rejects
    it. *)
Definition lone_unsaved : state row_store :=
  {| heap := {[ 1%nat := widget false [("id", VStr "w1"); ("name", VInt 5)] ]};
     db := [] |}.

(** A handler whose wire shape is text and whose storage shape is a
    tagged mapping, and a collection whose documents hold one such
    property. *)
Definition stamp : ValueHandler :=
  {| to_rql_repr := fun v => Ok (VDict [("$reql_type$", VStr "TIME"); ("iso8601", v)]);
     to_json_repr := fun v => match v with
                              | VInt 0 => Ok (VStr "1970-01-01T00:00:00+00:00")
                              | _ => Ok v
                              end;
     to_python_repr := fun v => Ok v |}.

Definition events : collection :=
  {| name := "events"; url := "http://localhost:8000/shop/events";
     primary_key := Some "id"; coll_schema := schema widget_class;
     specials := Some [("when", stamp)]; validator := fun _ => Ok tt |}.

Definition event (saved : bool) (o : dict) : document :=
  {| doc_class_of := widget_class; processors := []; doc_collection := events;
     _saved := saved; _url := None; _referenced := true; obj := o |}.

Definition lone_event : state row_store :=
  {| heap := {[ 1%nat := event false [("id", VStr "e1"); ("when", VInt 0)] ]};
     db := [] |}.

(** A slug function on text, and a document whose class runs the
    slug processor from [name] to [slug]. *)
Definition slug_of (v : value) : result value :=
  match v with
  | VStr s => Ok (VStr (DocumentPy.lower s))
  | _ => Raise TypeError
  end.

Definition named (o : dict) : document :=
  {| doc_class_of := widget_class;
     processors := [SlugPropertyProcessor slug_of "name" "slug"];
     doc_collection := widgets;
     _saved := false; _url := None; _referenced := true; obj := o |}.

Definition lone_named : state row_store :=
  {| heap := {[ 1%nat := named [("id", VStr "n1")] ]}; db := [] |}.

(** The deletes of the engine that keeps rows by table: of every row
    of a table, and of the rows whose [id] is among the keys. *)
Definition rows_delete (table : string) (kwargs : dict) (st : row_store)
  : value * row_store :=
  (VDict [("deleted", VInt (Z.of_nat (rows_count table st)))],
   List.filter (fun r => negb (String.eqb (fst r) table)) st).

Definition rows_get_all_delete (table : string) (ids : list value) (kwargs : dict)
    (st : row_store) : value * row_store :=
  let hit r :=
    String.eqb (fst r) table &&
    match Dict.get "id" (snd r) with
    | Some i => existsb (py_eq i) ids
    | None => false
    end in
  (VDict [("deleted", VInt (Z.of_nat (length (List.filter hit st))))],
   List.filter (fun r => negb (hit r)) st).

(** One unsaved document beside a table that holds two rows. *)
Definition stocked_unsaved : state row_store :=
  {| heap := {[ 1%nat := widget false [("id", VStr "w1")] ]};
     db := [("widgets", [("id", VStr "w7")]); ("widgets", [("id", VStr "w8")])] |}.

(** A document class whose schema declares a property [id], a base
    that belongs to a collection, and a class derived from it. *)
Definition keyed_class : doc_class :=
  {| definitions := None; collection_schema_url := None;
     exposed_methods := None;
     schema := [("type", VStr "object");
                ("properties", VDict [("id", VDict [("type", VStr "string")])])];
     title := VStr "Keyed"; defaults := [] |}.

Definition shelved_base : doc_class :=
  {| definitions := None;
     collection_schema_url := Some "http://localhost:8000/shop/widgets;schema";
     exposed_methods := None; schema := []; title := VNone; defaults := [] |}.

Definition shelved_class : doc_class :=
  match DocumentMetaclass (fun s => s) "Gadget" [shelved_base] derived_attrs with
  | Ok c => c
  | Raise _ => no_class
  end.

(** The lookup of the engine that keeps rows by table: the first row
    of the table whose [id] is the key. *)
Definition rows_get (table key : string) (st : row_store) : option dict :=
  match List.find (fun r => String.eqb (fst r) table &&
                            match Dict.get "id" (snd r) with
                            | Some (VStr i) => String.eqb i key
                            | _ => false
                            end) st with
  | Some r => Some (snd r)
  | None => None
  end.

(** A saved child that knows its URL, beside an unsaved parent. *)
Definition saved_child : document :=
  with_url (Some "http://localhost:8000/shop/widgets/c1")
    (widget true [("id", VStr "c1"); ("name", VStr "kid")]).

Definition family_with_saved_child : state row_store :=
  {| heap := {[ 1%nat := saved_child; 2%nat := widget false [("id", VStr "p1")] ]};
     db := [("widgets", [("id", VStr "c1"); ("name", VStr "kid")])] |}.

End Examples.

(** * Properties *)

(** ** Dictionary facts *)

Module DictFacts.
Import Dict.
Section Facts.
Context {A : Type}.
Implicit Types (d e : list (string * A)) (k : string) (v : A).

Lemma get_set_eq k v d : get k (set k v d) = Some v.
Proof.
  induction d as [|[k' v'] d IH]; simpl.
  - now rewrite String.eqb_refl.
  - destruct (String.eqb k k') eqn:E; simpl.
    + now rewrite String.eqb_refl.
    + now rewrite E.
Qed.

Lemma get_set_ne k k' v d : k <> k' -> get k' (set k v d) = get k' d.
Proof.
  intros Hne. induction d as [|[k0 v0] d IH]; simpl.
  - destruct (String.eqb_spec k' k); congruence.
  - destruct (String.eqb_spec k k0) as [->|Hk]; simpl.
    + destruct (String.eqb_spec k' k0); congruence.
    + destruct (String.eqb_spec k' k0); auto.
Qed.

Lemma get_set k k' v d :
  get k' (set k v d) = if String.eqb k' k then Some v else get k' d.
Proof.
  destruct (String.eqb_spec k' k) as [->|Hne].
  - apply get_set_eq.
  - apply get_set_ne; congruence.
Qed.

Lemma mem_set k k' v d :
  mem k' (set k v d) = String.eqb k' k || mem k' d.
Proof.
  unfold mem. rewrite get_set. now destruct (String.eqb k' k).
Qed.

Lemma get_app k d e :
  get k (d ++ e) = match get k d with Some v => Some v | None => get k e end.
Proof.
  induction d as [|[k1 v1] d IH]; simpl; auto.
  destruct (String.eqb k k1); auto.
Qed.

Lemma get_Some_In k d : (exists v, get k d = Some v) <-> (exists v, In (k, v) d).
Proof.
  induction d as [|[k1 v1] d IH]; simpl.
  - split; intros [v H]; [discriminate | contradiction].
  - destruct (String.eqb_spec k k1) as [->|Hne].
    + split; intros _; exists v1; auto.
    + rewrite IH. split; intros [v H]; exists v.
      * now right.
      * destruct H as [H|H]; [congruence | exact H].
Qed.

Lemma mem_rev k d : mem k (rev d) = mem k d.
Proof.
  assert (H : (exists v, get k (rev d) = Some v) <-> (exists v, get k d = Some v)).
  { rewrite !get_Some_In. split; intros [v H]; exists v.
    - now apply in_rev.
    - now apply in_rev in H. }
  unfold mem. destruct (get k (rev d)) eqn:E1, (get k d) eqn:E2; auto.
  - destruct (proj1 H) as [v Hv]; [eauto | congruence].
  - destruct (proj2 H) as [v Hv]; [eauto | congruence].
Qed.

(** After an update the entries of [e] shadow those of [d]; among
    several bindings of one key in [e] the last one written wins. *)
Lemma get_update k d e :
  get k (update d e) =
    match get k (rev e) with Some v => Some v | None => get k d end.
Proof.
  unfold update. revert d.
  induction e as [|[k' v'] e IH]; intros d; simpl.
  - reflexivity.
  - rewrite IH, get_app. destruct (get k (rev e)); auto.
    simpl. rewrite get_set.
    now destruct (String.eqb k k').
Qed.

Lemma mem_update k d e : mem k (update d e) = mem k e || mem k d.
Proof.
  rewrite <- (mem_rev k e). unfold mem. rewrite get_update.
  now destruct (get k (rev e)).
Qed.

Lemma get_remove_eq k d : get k (remove k d) = None.
Proof.
  induction d as [|[k' v'] d IH]; simpl; auto.
  destruct (String.eqb k k') eqn:E; simpl; auto. now rewrite E.
Qed.

Lemma mem_In_keys k d : mem k d = true <-> In k (keys d).
Proof.
  unfold mem, keys. induction d as [|[k1 v1] d IH]; simpl.
  - split; [discriminate | contradiction].
  - destruct (String.eqb_spec k k1) as [->|Hne].
    + split; auto.
    + rewrite IH. split; auto. intros [H|H]; [congruence | exact H].
Qed.
End Facts.
End DictFacts.

(** ** Documents: item lookup and equality *)

Module DocumentFacts.
Import Dict DictFacts Pkg Stated Examples.

Section Defaults.
Variable split_camelcase : string -> string.

(** The loop of the comprehension, from any accumulator: a key of the
    loop that has a default is bound to it, every other key is as the
    accumulator had it. *)
Lemma defaults_loop (ps : dict) (ks : list string) :
  forall (acc defs : dict),
    foldM (fun acc k =>
             let* p := getitem k ps in
             match p with
             | VDict pd =>
                 if Dict.mem "default" pd
                 then let* dv := getitem "default" pd in Ok (Dict.set k dv acc)
                 else Ok acc
             | _ => Raise TypeError
             end) acc ks = Ok defs ->
    forall k,
      Dict.get k defs =
        match (if existsb (String.eqb k) ks
               then match Dict.get k ps with
                    | Some (VDict pd) => Dict.get "default" pd
                    | _ => None
                    end
               else None) with
        | Some dv => Some dv
        | None => Dict.get k acc
        end.
Proof.
  induction ks as [|k0 ks IH]; intros acc defs Hfold k; simpl in *.
  - now inversion Hfold.
  - unfold getitem at 1 in Hfold.
    destruct (Dict.get k0 ps) as [p|] eqn:Hp; simpl in Hfold; [|discriminate].
    destruct p as [| | | | |pd|]; try discriminate.
    unfold mem, getitem in Hfold.
    destruct (Dict.get "default" pd) as [dv|] eqn:Hd; simpl in Hfold.
    + rewrite (IH _ _ Hfold k). rewrite get_set.
      destruct (String.eqb_spec k k0) as [->|Hne]; simpl.
      * rewrite Hp, Hd. now destruct (existsb (String.eqb k0) ks).
      * reflexivity.
    + rewrite (IH _ _ Hfold k).
      destruct (String.eqb_spec k k0) as [->|Hne]; simpl; auto.
      rewrite Hp, Hd. now destruct (existsb (String.eqb k0) ks).
Qed.

Lemma existsb_keys (k : string) (ps : dict) :
  existsb (String.eqb k) (Dict.keys ps) = Dict.mem k ps.
Proof.
  unfold keys, mem. induction ps as [|[k1 v1] ps IH]; simpl; auto.
  destruct (String.eqb k k1); auto.
Qed.

(** [defaults] binds exactly the properties whose schema declares a
    default, each to that default. *)
Lemma compute_defaults_declared (schema0 defs : dict) (k : string) :
  compute_defaults schema0 = Ok defs ->
  Dict.get k defs = declared_default schema0 k.
Proof.
  unfold compute_defaults, declared_default, getitem at 1.
  destruct (Dict.get "properties" schema0) as [props|]; simpl; [|discriminate].
  destruct props as [| | | | |ps|]; try discriminate.
  intros Hfold. rewrite (defaults_loop _ _ _ _ Hfold k), existsb_keys.
  unfold mem. destruct (Dict.get k ps) as [p|]; simpl; auto.
  now destruct p as [| | | | |pd|]; try destruct (Dict.get "default" pd).
Qed.

(** A class the metaclass built carries the defaults of its own
    composed schema. *)
Lemma init_defaults (name : string) (bases : list doc_class)
    (nmspc : namespace) (cls : doc_class) (k : string) :
  DocumentMetaclass__init__ name bases nmspc = Ok cls ->
  Dict.get k (defaults cls) = declared_default (schema cls) k.
Proof.
  unfold DocumentMetaclass__init__.
  destruct (ns_schema nmspc) as [schema0|]; [|discriminate].
  match goal with
  | |- context [compute_defaults ?s] =>
      destruct (compute_defaults s) as [defs|e] eqn:Hd; simpl; [|discriminate]
  end.
  intros H. inversion H; subst; clear H. simpl.
  now apply compute_defaults_declared.
Qed.

Lemma metaclass_defaults (name : string) (bases : list doc_class)
    (attrs : namespace) (cls : doc_class) (k : string) :
  DocumentMetaclass split_camelcase name bases attrs = Ok cls ->
  Dict.get k (defaults cls) = declared_default (schema cls) k.
Proof.
  unfold DocumentMetaclass.
  destruct (DocumentMetaclass__new__ split_camelcase name bases attrs) as [ns|e];
    simpl; [|discriminate].
  apply init_defaults.
Qed.

(** C9. Indexed lookup on a Document returns the value stored under
    the key when the document's object has one; otherwise the default
    its class's schema declares for that property, when there is one;
    and raises [KeyError] only when there is neither. *)
Theorem getitem_value_default_or_KeyError (name : string)
    (bases : list doc_class) (attrs : namespace) (cls : doc_class)
    (d : document) (key : string) :
  DocumentMetaclass split_camelcase name bases attrs = Ok cls ->
  doc_class_of d = cls ->
  Document__getitem__ d key =
    match Dict.get key (obj d) with
    | Some v => Ok v
    | None =>
        match declared_default (schema cls) key with
        | Some dv => Ok dv
        | None => Raise (KeyError (VStr key))
        end
    end.
Proof.
  intros Hcls Hd. unfold Document__getitem__, mem, getitem.
  destruct (Dict.get key (obj d)) as [v|]; [reflexivity|].
  rewrite Hd, (metaclass_defaults _ _ _ _ key Hcls).
  now destruct (declared_default (schema cls) key).
Qed.
End Defaults.

Lemma getitem_value_default_or_KeyError_witness :
  DocumentMetaclass (fun s => s) "Widget" [] widget_attrs = Ok widget_class /\
  Document__getitem__ (widget false [("name", VStr "w")]) "name" = Ok (VStr "w") /\
  Document__getitem__ (widget false [("name", VStr "w")]) "color" = Ok (VStr "red") /\
  Document__getitem__ (widget false [("name", VStr "w")]) "size" =
    Raise (KeyError (VStr "size")).
Proof.
  split; [reflexivity|].
  split; [|split].
  - exact (getitem_value_default_or_KeyError (fun s => s) "Widget" [] widget_attrs
             widget_class (widget false [("name", VStr "w")]) "name" eq_refl eq_refl).
  - exact (getitem_value_default_or_KeyError (fun s => s) "Widget" [] widget_attrs
             widget_class (widget false [("name", VStr "w")]) "color" eq_refl eq_refl).
  - exact (getitem_value_default_or_KeyError (fun s => s) "Widget" [] widget_attrs
             widget_class (widget false [("name", VStr "w")]) "size" eq_refl eq_refl).
Defined.

(** What [Document.__eq__] computes, in general. The comparison reads
    the two ids and nothing else: two pairs of documents with the
    same ids compare alike. It yields a true value exactly when the
    left document's id is a true value and equals the other's id, so
    the guard [self.id and ...] turns away [None] and with it every
    other false id; an unsaved document, whose id is [None], compares
    unequal to every document, itself included. *)
Theorem eq_compares_truthy_ids (self other : document) :
  ((exists r, Document__eq__ self other = Ok r /\ truthy r = true) <->
   (exists i j, Document_id self = Ok i /\ Document_id other = Ok j /\
                truthy i = true /\ py_eq i j = true)) /\
  (forall self' other' : document,
      Document_id self' = Document_id self ->
      Document_id other' = Document_id other ->
      Document__eq__ self' other' = Document__eq__ self other) /\
  Document__eq__ (with_saved false self) other = Ok VNone /\
  Document__eq__ (with_saved false self) (with_saved false self) = Ok VNone /\
  truthy VNone = false.
Proof.
  repeat split.
  - intros (r & Heq & Hr). unfold Document__eq__ in Heq.
    destruct (Document_id self) as [i|e] eqn:Hi; simpl in Heq; [|discriminate].
    destruct (truthy i) eqn:Ht.
    + destruct (Document_id other) as [j|e] eqn:Hj; simpl in Heq; [|discriminate].
      inversion Heq; subst. simpl in Hr. now exists i, j.
    + inversion Heq; subst. congruence.
  - intros (i & j & Hi & Hj & Ht & Hij). unfold Document__eq__.
    rewrite Hi. simpl. rewrite Ht, Hj. simpl. rewrite Hij. now exists (VBool true).
  - intros self' other' Hs Ho. unfold Document__eq__. now rewrite Hs, Ho.
Qed.

Lemma eq_compares_truthy_ids_witness :
  Document__eq__ (widget true [("id", VStr "A1"); ("name", VStr "w")])
                 (widget true [("id", VStr "A1"); ("color", VStr "blue")])
    = Ok (VBool true) /\
  Document__eq__ (widget true [("id", VStr "A1")]) (widget true [("id", VStr "B2")])
    = Ok (VBool false) /\
  Document__eq__ (widget false [("id", VStr "A1")]) (widget false [("id", VStr "A1")])
    = Ok VNone.
Proof.
  split; [|split].
  - rewrite (proj1 (proj2 (eq_compares_truthy_ids
               (widget true [("id", VStr "A1")]) (widget true [("id", VStr "A1")])))
               (widget true [("id", VStr "A1"); ("name", VStr "w")])
               (widget true [("id", VStr "A1"); ("color", VStr "blue")])
               eq_refl eq_refl).
    reflexivity.
  - reflexivity.
  - exact (proj1 (proj2 (proj2 (proj2 (eq_compares_truthy_ids
             (widget false [("id", VStr "A1")]) (widget false [("id", VStr "A1")])))))).
Defined.

(** C10. A saved document whose primary key is the empty string has
    an id that is not [None] and equals itself, yet the comparison
    with itself yields the empty string, a false value: the two
    documents have the same primary key and do not compare equal. *)
Theorem eq_empty_id_self_comparison :
  Document_id (widget true [("id", VStr "")]) = Ok (VStr "") /\
  VStr "" <> VNone /\
  py_eq (VStr "") (VStr "") = true /\
  Document__eq__ (widget true [("id", VStr "")]) (widget true [("id", VStr "")])
    = Ok (VStr "") /\
  truthy (VStr "") = false.
Proof. repeat split; try reflexivity. discriminate. Qed.

End DocumentFacts.

(** ** Schema composition *)

Module ComposerFacts.
Import Dict DictFacts Pkg Stated.

Lemma wf_set (k : string) (v : value) (d : dict) : wf d -> wf (Dict.set k v d).
Proof.
  unfold wf, keys. induction d as [|[k1 v1] d IH]; simpl; intros Hd.
  - constructor; [intros H; exact H | constructor].
  - inversion Hd as [|? ? Hnotin Hd']; subst.
    destruct (String.eqb_spec k k1) as [->|Hne]; simpl.
    + now constructor.
    + constructor; auto. intros Hin. apply Hnotin.
      clear - Hin Hne. induction d as [|[k2 v2] d IH]; simpl in *.
      * destruct Hin as [H|[]]. congruence.
      * destruct (String.eqb_spec k k2) as [->|Hne2]; simpl in *.
        -- destruct Hin as [H|H]; [congruence | now right].
        -- destruct Hin as [H|H]; [now left | right; auto].
Qed.

Lemma wf_update (d e : dict) : wf d -> wf (Dict.update d e).
Proof.
  unfold update. revert d. induction e as [|[k v] e IH]; simpl; intros d Hd; auto.
  apply IH. now apply wf_set.
Qed.

(** In a mapping the first and the last binding of a key are the
    same one. *)
Lemma get_rev_wf (k : string) (d : dict) : wf d -> Dict.get k (rev d) = Dict.get k d.
Proof.
  unfold wf, keys. induction d as [|[k1 v1] d IH]; simpl; intros Hd; auto.
  inversion Hd as [|? ? Hnotin Hd']; subst.
  rewrite get_app, (IH Hd'). simpl.
  destruct (String.eqb_spec k k1) as [->|Hne].
  - destruct (Dict.get k1 d) as [v|] eqn:Hg; auto.
    exfalso. apply Hnotin.
    assert (Hm : Dict.mem k1 d = true) by (unfold mem; now rewrite Hg).
    now apply mem_In_keys in Hm.
  - now destruct (Dict.get k d).
Qed.

Lemma get_update_wf (k : string) (d e : dict) :
  wf e ->
  Dict.get k (Dict.update d e) =
    match Dict.get k e with Some v => Some v | None => Dict.get k d end.
Proof. intros He. now rewrite get_update, get_rev_wf. Qed.

Lemma wf_inherit (bases : list doc_class) (acc : dict) :
  wf acc -> wf (fold_left inherit_definitions bases acc).
Proof.
  revert acc. induction bases as [|b bases IH]; simpl; intros acc Hacc; auto.
  apply IH. unfold inherit_definitions.
  destruct (definitions b) as [d|]; auto.
  destruct (truthy (VDict d)); auto. now apply wf_update.
Qed.

Lemma mem_inherit_definitions (k : string) (acc : dict) (b : doc_class) :
  Dict.mem k (inherit_definitions acc b) =
    Dict.mem k (base_definitions b) || Dict.mem k acc.
Proof.
  unfold inherit_definitions, base_definitions.
  destruct (definitions b) as [d|]; simpl; auto.
  destruct d as [|kv d]; simpl truthy; cbv iota.
  - reflexivity.
  - apply mem_update.
Qed.

(** Every name a base defines is defined after the loop. *)
Lemma mem_inherit_fold (k : string) (bases : list doc_class) (acc : dict) :
  Dict.mem k (fold_left inherit_definitions bases acc) =
    existsb (fun b => Dict.mem k (base_definitions b)) bases || Dict.mem k acc.
Proof.
  revert acc. induction bases as [|b bases IH]; simpl; intros acc; auto.
  rewrite IH, mem_inherit_definitions.
  now destruct (Dict.mem k (base_definitions b)),
    (existsb (fun b0 => Dict.mem k (base_definitions b0)) bases).
Qed.

(** A base that does not define a name leaves its binding alone. *)
Lemma get_inherit_other (k : string) (acc : dict) (b : doc_class) :
  Dict.mem k (base_definitions b) = false ->
  Dict.get k (inherit_definitions acc b) = Dict.get k acc.
Proof.
  unfold inherit_definitions, base_definitions.
  destruct (definitions b) as [d|]; auto. intros Hm.
  destruct (truthy (VDict d)); auto.
  rewrite get_update. rewrite <- mem_rev in Hm. unfold mem in Hm.
  now destruct (Dict.get k (rev d)).
Qed.

Lemma get_inherit_fold_other (k : string) (bases : list doc_class) (acc : dict) :
  existsb (fun b => Dict.mem k (base_definitions b)) bases = false ->
  Dict.get k (fold_left inherit_definitions bases acc) = Dict.get k acc.
Proof.
  revert acc. induction bases as [|b bases IH]; simpl; intros acc H; auto.
  apply orb_false_iff in H as [Hb Hrest].
  now rewrite IH, get_inherit_other.
Qed.

(** The base that defines a name last is the one whose definition the
    loop leaves. *)
Lemma get_inherit_fold_last (k : string) (pre post : list doc_class)
    (A : doc_class) (acc : dict) :
  wf (base_definitions A) ->
  Dict.mem k (base_definitions A) = true ->
  existsb (fun b => Dict.mem k (base_definitions b)) post = false ->
  Dict.get k (fold_left inherit_definitions (pre ++ A :: post) acc) =
    Dict.get k (base_definitions A).
Proof.
  intros Hwf Hk Hpost. rewrite fold_left_app. simpl.
  rewrite get_inherit_fold_other by assumption.
  unfold inherit_definitions, base_definitions in *.
  destruct (definitions A) as [d|]; [|discriminate].
  destruct d as [|kv d]; [discriminate|]. simpl truthy. cbv iota.
  rewrite get_update_wf by assumption.
  unfold mem in Hk. now destruct (Dict.get k (kv :: d)).
Qed.

(** The loop over the bases: its [definitions] are the fold of
    [inherit_definitions], and of the schema it touches [allOf] only. *)
Lemma inherit_loop (bases : list doc_class) :
  forall (acc r : dict * dict),
    foldM DocumentMetaclass_inherit acc bases = Ok r ->
    fst r = fold_left inherit_definitions bases (fst acc) /\
    forall key, key <> "allOf" -> Dict.get key (snd r) = Dict.get key (snd acc).
Proof.
  induction bases as [|b bases IH]; simpl; intros acc r H.
  - inversion H; subst. auto.
  - destruct (DocumentMetaclass_inherit acc b) as [acc'|e] eqn:Hb; simpl in H;
      [|discriminate].
    destruct (IH _ _ H) as [Hd Hs]. clear IH H.
    unfold DocumentMetaclass_inherit in Hb.
    fold (inherit_definitions (fst acc) b) in Hb.
    destruct (collection_schema_url b) as [u|].
    + destruct (Dict.get "allOf" _) as [[| | | |l| |]|] eqn:Hall; try discriminate.
      inversion Hb; subst; clear Hb. simpl in *. split; [assumption|].
      intros key Hkey. rewrite (Hs key Hkey), get_set_ne by congruence.
      destruct (Dict.mem "allOf" (snd acc)); auto.
      rewrite get_set_ne by congruence. reflexivity.
    + inversion Hb; subst; clear Hb. simpl in *. auto.
Qed.
Section Composition.
Variable split_camelcase : string -> string.

(** What [__init__] leaves in the composed schema. *)
Lemma init_schema (name : string) (bases : list doc_class)
    (nmspc : namespace) (cls : doc_class) :
  DocumentMetaclass__init__ name bases nmspc = Ok cls ->
  exists schema0,
    ns_schema nmspc = Some schema0 /\
    definitions cls = ns_definitions nmspc /\
    Dict.get "definitions" (schema cls) = Some (VDict (declared_definitions nmspc)) /\
    Dict.get "properties" (schema cls) = Dict.get "properties" schema0.
Proof.
  unfold DocumentMetaclass__init__.
  destruct (ns_schema nmspc) as [schema0|]; [|discriminate].
  match goal with
  | |- context [compute_defaults ?s] =>
      destruct (compute_defaults s) as [defs|e]; simpl; [|discriminate]
  end.
  intros H. inversion H; subst; clear H. exists schema0. simpl.
  repeat split.
  - now rewrite get_set_ne, get_set_eq by congruence.
  - rewrite !get_set_ne by congruence.
    destruct (ns_doc nmspc) as [doc|]; auto.
    match goal with
    | |- context [if ?c then _ else _] => destruct c
    end; now rewrite ?get_set_ne by congruence.
Qed.

(** What class creation leaves in the composed schema. *)
Lemma created_class (name : string) (bases : list doc_class)
    (attrs : namespace) (cls : doc_class) :
  DocumentMetaclass split_camelcase name bases attrs = Ok cls ->
  definitions cls = Some (composed_definitions cls) /\
  composed_definitions cls =
    match ns_definitions attrs with
    | Some own => Dict.update own (fold_left inherit_definitions bases [])
    | None => fold_left inherit_definitions bases []
    end /\
  Dict.get "properties" (schema cls) = declared_properties attrs.
Proof.
  unfold DocumentMetaclass, DocumentMetaclass__new__.
  destruct (foldM DocumentMetaclass_inherit _ bases) as [r|e] eqn:Hloop;
    [|discriminate].
  destruct (inherit_loop _ _ _ Hloop) as [Hdefs Hschema]. simpl in Hdefs, Hschema.
  unfold rbind. intros Hinit.
  destruct (init_schema _ _ _ _ Hinit) as (schema0 & Hs & Hd & Hcd & Hp).
  cbn [ns_schema ns_definitions] in Hs, Hd.
  unfold declared_definitions in Hcd. cbn [ns_definitions] in Hcd.
  unfold composed_definitions, declared_properties.
  rewrite Hcd, Hd, Hp, <- Hdefs. inversion Hs; subst schema0; clear Hs.
  repeat split.
  rewrite get_set_ne by congruence. now apply Hschema.
Qed.

Lemma wf_created (name : string) (bases : list doc_class)
    (attrs : namespace) (cls : doc_class) :
  DocumentMetaclass split_camelcase name bases attrs = Ok cls ->
  wf (declared_definitions attrs) ->
  wf (base_definitions cls).
Proof.
  intros Hcls Hwf. destruct (created_class _ _ _ _ Hcls) as (Hd & Hc & _).
  unfold base_definitions. rewrite Hd, Hc. unfold declared_definitions in Hwf.
  destruct (ns_definitions attrs) as [own|].
  - now apply wf_update.
  - apply wf_inherit. constructor.
Qed.

(** C1 (as amended). When B extends A (A stands among B's bases),
    every definition name of A's composed schema is a definition name
    of B's composed schema; where B declares no definition of that
    name and no base listed after A defines it, B's composed schema
    holds A's definition; a definition B declares under a name that no
    base defines is present as declared; and the properties of B's
    composed schema are the ones B's own fragment declares: A's
    properties are not copied into them. *)
Theorem derived_schema_keeps_base_definitions
    (nameA nameB : string) (basesA pre post : list doc_class)
    (attrsA attrsB : namespace) (A B : doc_class) (k : string) :
  DocumentMetaclass split_camelcase nameA basesA attrsA = Ok A ->
  DocumentMetaclass split_camelcase nameB (pre ++ A :: post) attrsB = Ok B ->
  (Dict.mem k (composed_definitions A) = true ->
   Dict.mem k (composed_definitions B) = true) /\
  (wf (declared_definitions attrsA) ->
   Dict.mem k (composed_definitions A) = true ->
   Dict.mem k (declared_definitions attrsB) = false ->
   existsb (fun b => Dict.mem k (base_definitions b)) post = false ->
   Dict.get k (composed_definitions B) = Dict.get k (composed_definitions A)) /\
  (existsb (fun b => Dict.mem k (base_definitions b)) (pre ++ A :: post) = false ->
   Dict.get k (composed_definitions B) = Dict.get k (declared_definitions attrsB)) /\
  Dict.get "properties" (schema B) = declared_properties attrsB.
Proof.
  intros HA HB.
  destruct (created_class _ _ _ _ HA) as (HdA & _ & _).
  destruct (created_class _ _ _ _ HB) as (_ & HcB & HpB).
  assert (HbaseA : base_definitions A = composed_definitions A)
    by (unfold base_definitions; now rewrite HdA).
  set (F := fold_left inherit_definitions (pre ++ A :: post) []) in *.
  assert (HwfF : wf F) by (apply wf_inherit; constructor).
  assert (HmemF : Dict.mem k (composed_definitions A) = true -> Dict.mem k F = true).
  { intros Hk. unfold F. rewrite mem_inherit_fold, existsb_app. simpl.
    rewrite HbaseA, Hk. now rewrite orb_true_r. }
  repeat split.
  - intros Hk. rewrite HcB. destruct (ns_definitions attrsB) as [own|]; auto.
    rewrite mem_update, (HmemF Hk). reflexivity.
  - intros HwfA Hk _ Hpost.
    assert (HF : Dict.get k F = Dict.get k (composed_definitions A)).
    { unfold F. rewrite <- HbaseA. apply get_inherit_fold_last.
      - now apply (wf_created _ _ _ _ HA).
      - now rewrite HbaseA.
      - assumption. }
    rewrite HcB. destruct (ns_definitions attrsB) as [own|]; auto.
    rewrite get_update_wf by assumption. rewrite HF.
    unfold mem in Hk. now destruct (Dict.get k (composed_definitions A)).
  - intros Hnone.
    assert (HF : Dict.get k F = None).
    { unfold F. now rewrite get_inherit_fold_other. }
    rewrite HcB. unfold declared_definitions.
    destruct (ns_definitions attrsB) as [own|]; auto.
    rewrite get_update_wf by assumption. now rewrite HF.
  - assumption.
Qed.
End Composition.

Lemma derived_schema_keeps_base_definitions_witness :
  exists B : doc_class,
    DocumentMetaclass (fun s => s) "Derived" [Examples.base_class]
      Examples.derived_attrs = Ok B /\
    Dict.mem "address" (composed_definitions B) = true /\
    Dict.get "address" (composed_definitions B) =
      Some (VDict [("type", VStr "string")]) /\
    Dict.get "phone" (composed_definitions B) =
      Some (VDict [("type", VStr "string")]) /\
    Dict.get "properties" (schema B) =
      Some (VDict [("age", VDict [("type", VStr "integer")])]).
Proof.
  destruct (DocumentMetaclass (fun s => s) "Derived" [Examples.base_class]
              Examples.derived_attrs) as [B|e] eqn:HB; [|discriminate HB].
  exists B. split; [reflexivity|].
  destruct (derived_schema_keeps_base_definitions (fun s => s) "Base" "Derived"
              [] [] [] Examples.base_attrs Examples.derived_attrs
              Examples.base_class B "address" eq_refl HB) as (H1 & H2 & _ & H4).
  destruct (derived_schema_keeps_base_definitions (fun s => s) "Base" "Derived"
              [] [] [] Examples.base_attrs Examples.derived_attrs
              Examples.base_class B "phone" eq_refl HB) as (_ & _ & H3 & _).
  repeat split.
  - apply H1. reflexivity.
  - rewrite H2; try reflexivity.
    repeat constructor; simpl; intuition congruence.
  - rewrite H3; reflexivity.
  - rewrite H4. reflexivity.
Defined.

(** A derived type that declares a property of its own and a
    definition under a name of its base: the base's property is absent
    from the derived composed schema, and under the shared name the
    derived composed schema holds the base's definition, not the one
    the derived type declares. *)
Lemma derived_schema_counterexample :
  exists A B : doc_class,
    DocumentMetaclass (fun s => s) "Base" [] Examples.base_attrs = Ok A /\
    DocumentMetaclass (fun s => s) "Derived" [A] Examples.overriding_attrs = Ok B /\
    Dict.mem "name" (composed_properties A) = true /\
    Dict.mem "name" (composed_properties B) = false /\
    Dict.get "address" (declared_definitions Examples.overriding_attrs) =
      Some (VDict [("type", VStr "object")]) /\
    Dict.get "address" (composed_definitions B) =
      Some (VDict [("type", VStr "string")]).
Proof.
  eexists. eexists. split; [reflexivity|]. split; [reflexivity|].
  repeat split.
Qed.

End ComposerFacts.

(** ** Registration of a collection: the [id] property *)

Module RegistrationFacts.
Import Dict DictFacts Pkg.

Section Registration.
Variable convert_camelcase : string -> string.
Variable camelcase_slugify : string -> string.
Variable check_schema : dict -> bool.

(** The property test and the synthesis step, shared by both layouts:
    a schema that passes the test has no [id] property, and gets one,
    the given one, exactly when the primary key is unset. *)
Lemma id_after_synthesis (pk : option string) (v : value) (schema0 schema1 : dict) :
  declares_id schema0 = Ok false ->
  (if negb (pk_truthy pk) then set_property "id" v schema0 else Ok schema0)
    = Ok schema1 ->
  exists ps,
    Dict.get "properties" schema1 = Some (VDict ps) /\
    Dict.mem "id" ps = negb (pk_truthy pk) /\
    (pk_truthy pk = false -> Dict.get "id" ps = Some v).
Proof.
  unfold declares_id, set_property, getitem.
  destruct (Dict.get "properties" schema0) as [props|] eqn:Hp; simpl; [|discriminate].
  destruct props as [| | | | |ps|]; try discriminate.
  intros Hid. assert (Hmem : Dict.mem "id" ps = false) by congruence. clear Hid.
  destruct (pk_truthy pk); simpl; intros H; injection H as <-.
  - exists ps. split; [assumption|]. split; [assumption|]. intros Hf; discriminate Hf.
  - exists (Dict.set "id" v ps). rewrite get_set_eq, mem_set, get_set_eq. auto.
Qed.

(** Assigning another key of the schema does not change what its
    [properties] declare. *)
Lemma declares_id_set (k : string) (v : value) (schema0 : dict) :
  k <> "properties" -> declares_id (Dict.set k v schema0) = declares_id schema0.
Proof.
  intros Hk. unfold declares_id, getitem. now rewrite get_set_ne.
Qed.

Lemma class_primary_key_falsy (declared : option (option string)) :
  pk_truthy (class_primary_key declared) = false <->
  declared = Some None \/ declared = Some (Some "").
Proof.
  destruct declared as [[k|]|]; cbn.
  - destruct (String.eqb_spec k "") as [->|Hk]; cbn; split; auto.
    + discriminate.
    + intros [H|H]; congruence.
  - split; auto.
  - split; [discriminate | intros [H|H]; discriminate].
Qed.

(** The composed schema and the primary key, in general. For a
    registered collection the document type's own schema declares no
    property named [id] (registration rejects it), and the composed
    schema declares one exactly when the class's [primary_key]
    attribute is a false value, that is when the class body sets it
    to [None] or to the empty string; the property is then the
    synthesized string property. The guard of the synthesis reads the
    attribute after inheritance, so for a class that declares no
    primary key it sees the inherited ["id"]. This holds for
    [CollectionMetaclass] of the package layout and of the
    single-file layout alike. *)
Theorem composed_schema_id_property
    (name : string) (bases : list collection_base)
    (attrs : collection_namespace) (cc : collection_class)
    (name' : string) (attrs' : DocumentPy.collection_namespace)
    (schema' : dict) (reg' : list (string * string))
    (declared declared' : option (option string)) :
  cn_primary_key attrs = class_primary_key declared ->
  DocumentPy.cn_primary_key attrs' = class_primary_key declared' ->
  CollectionMetaclass convert_camelcase camelcase_slugify check_schema
    name bases attrs = Ok cc ->
  cc_abstract cc = false ->
  DocumentPy.CollectionMetaclass__init__ convert_camelcase camelcase_slugify
    check_schema name' attrs' = Ok (schema', reg') ->
  (exists document_class schema0 ps,
      cn_document_class attrs = Some document_class /\
      declares_id (schema document_class) = Ok false /\
      cc_schema cc = Some schema0 /\
      Dict.get "properties" schema0 = Some (VDict ps) /\
      (Dict.mem "id" ps = true <->
       declared = Some None \/ declared = Some (Some "")) /\
      (Dict.mem "id" ps = true ->
       exists p, Dict.get "id" ps = Some (VDict p) /\
                 Dict.get "type" p = Some (VStr "string"))) /\
  (exists ps,
      declares_id (DocumentPy.cn_document_schema attrs') = Ok false /\
      Dict.get "properties" schema' = Some (VDict ps) /\
      (Dict.mem "id" ps = true <->
       declared' = Some None \/ declared' = Some (Some "")) /\
      (Dict.mem "id" ps = true ->
       exists p, Dict.get "id" ps = Some (VDict p) /\
                 Dict.get "type" p = Some (VStr "string"))).
Proof.
  intros Hdecl Hdecl' Hpkg Habs Hpy. split.
  - unfold CollectionMetaclass, CollectionMetaclass__init__ in Hpkg.
    cbn [CollectionMetaclass__new__ cn_document_class cn_primary_key] in Hpkg.
    destruct (cn_document_class attrs) as [dc|];
      [|inversion Hpkg; subst; discriminate Habs].
    destruct (declares_id (schema dc)) as [[|]|e] eqn:Hid; simpl in Hpkg;
      try discriminate.
    match type of Hpkg with
    | (let* _ := ?syn in _) = _ => destruct syn as [schema1|e] eqn:Hsyn
    end; simpl in Hpkg; [|discriminate].
    destruct (check_schema _); [|discriminate].
    inversion Hpkg; subst; clear Hpkg. cbn [cc_schema].
    destruct (id_after_synthesis _ _ _ _ Hid Hsyn) as (ps & Hps & Hmem & Hget).
    exists dc. eexists. exists ps.
    split; [reflexivity|]. split; [exact Hid|]. split; [reflexivity|].
    rewrite !get_set_ne by congruence. split; [exact Hps|].
    rewrite Hdecl in Hmem, Hget. split.
    + rewrite <- class_primary_key_falsy, Hmem.
      now destruct (pk_truthy (class_primary_key declared)).
    + intros Hin. rewrite Hin in Hmem.
      eexists. split; [apply Hget | reflexivity].
      now destruct (pk_truthy (class_primary_key declared)).
  - unfold DocumentPy.CollectionMetaclass__init__ in Hpy.
    match type of Hpy with
    | (let* _ := declares_id ?s in _) = _ =>
        destruct (declares_id s) as [[|]|e] eqn:Hid
    end; simpl in Hpy; try discriminate.
    match type of Hpy with
    | (let* _ := ?syn in _) = _ => destruct syn as [schema1|e] eqn:Hsyn
    end; simpl in Hpy; [|discriminate].
    destruct (check_schema schema1); [|discriminate].
    destruct (DocumentPy.cn_application attrs') as [reg|]; [|discriminate].
    destruct (DocumentPy.register_collection _ _ _) as [reg1|e]; simpl in Hpy;
      [|discriminate].
    inversion Hpy; subst; clear Hpy.
    destruct (id_after_synthesis _ _ _ _ Hid Hsyn) as (ps & Hps & Hmem & Hget).
    exists ps. split.
    { rewrite <- Hid. destruct (negb (Dict.mem "description" _)); [|reflexivity].
      symmetry. now apply declares_id_set. }
    split; [exact Hps|]. rewrite Hdecl' in Hmem, Hget. split.
    + rewrite <- class_primary_key_falsy, Hmem.
      now destruct (pk_truthy (class_primary_key declared')).
    + intros Hin. rewrite Hin in Hmem.
      eexists. split; [apply Hget | reflexivity].
      now destruct (pk_truthy (class_primary_key declared')).
Qed.
End Registration.

Lemma composed_schema_id_property_witness :
  exists (cc : collection_class) (schema' : dict) (reg' : list (string * string)),
    CollectionMetaclass (fun s => s) (fun s => s) (fun _ => true)
      "Widgets" [] (Examples.keyed_collection (class_primary_key (Some None))) = Ok cc /\
    DocumentPy.CollectionMetaclass__init__ (fun s => s) (fun s => s) (fun _ => true)
      "Widgets" (Examples.keyed_collection_py (class_primary_key (Some (Some "sku"))))
      = Ok (schema', reg') /\
    (exists schema0 ps,
        cc_schema cc = Some schema0 /\
        Dict.get "properties" schema0 = Some (VDict ps) /\
        Dict.mem "id" ps = true) /\
    (exists ps,
        Dict.get "properties" schema' = Some (VDict ps) /\
        Dict.mem "id" ps = false).
Proof.
  destruct (CollectionMetaclass (fun s => s) (fun s => s) (fun _ => true)
              "Widgets" [] (Examples.keyed_collection (class_primary_key (Some None))))
    as [cc|e] eqn:Hcc; [|discriminate Hcc].
  destruct (DocumentPy.CollectionMetaclass__init__ (fun s => s) (fun s => s)
              (fun _ => true) "Widgets"
              (Examples.keyed_collection_py (class_primary_key (Some (Some "sku")))))
    as [[schema' reg']|e] eqn:Hpy; [|discriminate Hpy].
  exists cc, schema', reg'. split; [reflexivity|]. split; [reflexivity|].
  assert (Habs : cc_abstract cc = false) by (inversion Hcc; reflexivity).
  destruct (composed_schema_id_property (fun s => s) (fun s => s) (fun _ => true)
              "Widgets" [] (Examples.keyed_collection (class_primary_key (Some None)))
              cc "Widgets"
              (Examples.keyed_collection_py (class_primary_key (Some (Some "sku"))))
              schema' reg' (Some None) (Some (Some "sku"))
              eq_refl eq_refl Hcc Habs Hpy)
    as [(dc & schema0 & ps & _ & _ & Hs & Hps & Hmem & _)
        (ps' & _ & Hps' & Hmem' & _)].
  split.
  - exists schema0, ps. split; [exact Hs|]. split; [exact Hps|].
    apply Hmem. now left.
  - exists ps'. split; [exact Hps'|].
    destruct (Dict.mem "id" ps'); [|reflexivity].
    destruct (proj1 Hmem' eq_refl) as [H|H]; discriminate H.
Defined.

(** C8. A collection class that declares no primary key, in either
    layout: it inherits ["id"], its registration succeeds, and the
    composed schema has no property [id]; none was synthesized. *)
Theorem undeclared_key_gets_no_id :
  class_primary_key None = Some "id" /\
  (exists cc schema0 ps,
      CollectionMetaclass (fun s => s) (fun s => s) (fun _ => true)
        "Widgets" [] (Examples.keyed_collection (class_primary_key None)) = Ok cc /\
      cc_abstract cc = false /\
      cc_schema cc = Some schema0 /\
      Dict.get "properties" schema0 = Some (VDict ps) /\
      Dict.mem "id" ps = false) /\
  (exists schema' reg' ps,
      DocumentPy.CollectionMetaclass__init__ (fun s => s) (fun s => s)
        (fun _ => true) "Widgets"
        (Examples.keyed_collection_py (class_primary_key None)) = Ok (schema', reg') /\
      Dict.get "properties" schema' = Some (VDict ps) /\
      Dict.mem "id" ps = false).
Proof.
  split; [reflexivity|]. split.
  - do 3 eexists. repeat split; reflexivity.
  - do 3 eexists. repeat split; reflexivity.
Qed.
End RegistrationFacts.

(** ** Value handlers *)

Module HandlerFacts.
Import Dict DictFacts DocumentPy Stated.

Section GeometryFacts.
Variable BaseGeometry : Type.
Variable shape : dict -> result BaseGeometry.
Variable mapping : BaseGeometry -> dict.

(** C6. A Geometry handler built with the allow-list [{"Point"}]
    raises [ValidationError] when a value whose GeoJSON type is
    ["Polygon"] is converted to storage shape; the point
    [{"type": "Point", "coordinates": [1, 2]}] is converted, and its
    wire shape reports the type ["Point"]. *)
Theorem point_only_geometry (d : dict) :
  Dict.get "type" d = Some (VStr "Polygon") ->
  Geometry_to_rql_repr (Geometry__init__ ["Point"]) (@GJson BaseGeometry (VDict d))
    = Raise ValidationError /\
  Geometry_to_rql_repr (Geometry__init__ ["Point"])
      (@GJson BaseGeometry (VDict Examples.point))
    = Ok (GReql (GJson (VDict Examples.point))) /\
  exists wire,
    Geometry_to_json_repr mapping (Geometry__init__ ["Point"])
      (GJson (VDict Examples.point)) = GJson (VDict wire) /\
    Dict.get "type" wire = Some (VStr "Point").
Proof.
  intros Htype. split; [|split].
  - unfold Geometry_to_rql_repr, geojson_type_lower, getitem. simpl allowed_types.
    rewrite Htype. reflexivity.
  - reflexivity.
  - exists Examples.point. split; reflexivity.
Qed.

End GeometryFacts.

Lemma point_only_geometry_witness :
  Geometry_to_rql_repr (Geometry__init__ ["Point"])
      (@GJson dict (VDict Examples.polygon)) = Raise ValidationError /\
  Geometry_to_rql_repr (Geometry__init__ ["Point"])
      (@GJson dict (VDict Examples.point))
    = Ok (GReql (GJson (VDict Examples.point))).
Proof.
  destruct (point_only_geometry dict Examples.geo_mapping Examples.polygon eq_refl)
    as (H1 & H2 & _).
  exact (conj H1 H2).
Defined.

(** *** The timezone offset of a stored time *)

Lemma digit_not_special (c : ascii) (d : Z) :
  digit_of c = Some d -> c <> ":"%char /\ c <> "-"%char /\ c <> "+"%char.
Proof.
  destruct c as [[] [] [] [] [] [] [] []]; cbv; intros H;
    try discriminate H; repeat split; discriminate.
Qed.

(** A run of digits has no colon in it. *)
Lemma split_digits (s t : string) (acc z : Z) :
  digits_from acc s = Some z ->
  split ":" (s ++ String ":" t) = s :: split ":" t.
Proof.
  revert acc. induction s as [|c s IH]; intros acc H.
  - reflexivity.
  - cbn [digits_from] in H.
    destruct (digit_of c) as [d|] eqn:Hd; [|discriminate].
    destruct (digit_not_special _ _ Hd) as (Hc & _).
    change (String c s ++ String ":" t) with (String c (s ++ String ":" t)).
    cbn [split]. rewrite (IH _ H).
    destruct (Ascii.eqb_spec c ":"); [contradiction | reflexivity].
Qed.

Lemma split_digits_end (s : string) (acc z : Z) :
  digits_from acc s = Some z -> split ":" s = [s].
Proof.
  revert acc. induction s as [|c s IH]; intros acc H.
  - reflexivity.
  - cbn [digits_from] in H.
    destruct (digit_of c) as [d|] eqn:Hd; [|discriminate].
    destruct (digit_not_special _ _ Hd) as (Hc & _).
    cbn [split]. rewrite (IH _ H).
    destruct (Ascii.eqb_spec c ":"); [contradiction | reflexivity].
Qed.

Lemma py_int_digits (s : string) (z : Z) :
  s <> "" -> digits_from 0 s = Some z -> py_int s = Ok z.
Proof.
  destruct s as [|c s]; [congruence|]. intros _ H.
  assert (Hc : exists d, digit_of c = Some d).
  { cbn [digits_from] in H. destruct (digit_of c) as [d|]; [eauto | discriminate]. }
  destruct Hc as [d Hd]. destruct (digit_not_special _ _ Hd) as (_ & Hm & Hp).
  unfold py_int.
  destruct c as [[] [] [] [] [] [] [] []]; try congruence; now rewrite H.
Qed.

Lemma py_int_minus_digits (s : string) (z : Z) :
  s <> "" -> digits_from 0 s = Some z -> py_int (String "-" s) = Ok (- z).
Proof.
  intros Hs H. unfold py_int. destruct s as [|c s]; [congruence|]. now rewrite H.
Qed.

(** X1. For a stored offset written [-HH:MM] the handler computes
    [60 * HH - MM]: the hour part is read with its sign and then
    negated once more. *)
Lemma from_rql_tz_negative_offset (self : Time) (hh mm : string) (h m : Z) :
  hh <> "" -> mm <> "" ->
  digits_from 0 hh = Some h -> digits_from 0 mm = Some m ->
  Time_from_rql_tz self (String "-" (hh ++ String ":" mm)) = Ok (60 * h - m).
Proof.
  intros Hh Hm Hhh Hmm. unfold Time_from_rql_tz.
  replace (String.eqb (String "-" (hh ++ String ":" mm)) "Z") with false by reflexivity.
  cbn [rbind]. replace (Ascii.eqb "-" "-") with true by reflexivity.
  assert (Hsplit : split ":" (String "-" (hh ++ String ":" mm)) = [String "-" hh; mm]).
  { cbn [split]. replace (Ascii.eqb "-" ":") with false by reflexivity.
    now rewrite (split_digits _ _ _ _ Hhh), (split_digits_end _ _ _ Hmm). }
  rewrite Hsplit. cbn [foldM].
  rewrite (py_int_minus_digits _ _ Hh Hhh). cbn [rbind app].
  rewrite (py_int_digits _ _ Hm Hmm). cbn [rbind app].
  f_equal. lia.
Qed.

(** C4. The offset the handler computes for the stored timezone
    [-05:00] is +300 minutes, the same as for [+05:00]. *)
Theorem from_rql_tz_minus_five :
  Time_from_rql_tz (Time__init__ None) "-05:00" = Ok 300 /\
  Time_from_rql_tz (Time__init__ None) "+05:00" = Ok 300 /\
  Time_from_rql_tz (Time__init__ None) "-05:30" = Ok 270 /\
  Time_from_rql_tz (Time__init__ None) "Z" = Ok 0.
Proof. repeat split. Qed.

Section TimeFacts.
Variable datetime : Type.
Variable date : Type.
Variable tzinfo : Type.
Variable isoformat : datetime -> string.
Variable date_isoformat : date -> string.
Variable parse_date : string -> result datetime.
Variable timezone : Z -> result tzinfo.
Variable fromtimestamp : Z -> option tzinfo -> result datetime.
Variable reql : Type.
Variable to_epoch_time : reql -> Z.
Variable reql_timezone : reql -> string.
Variable to_iso8601 : reql -> reql.

Let to_native : Time -> tvalue datetime date reql -> result (tvalue datetime date reql) :=
  Time_to_python_repr parse_date timezone fromtimestamp to_epoch_time reql_timezone.

(** The timestamp built for a stored time at [-05:00] is built in the
    zone [timezone(300)]. *)
Lemma to_python_repr_minus_five (self : Time) (q : reql) :
  reql_timezone q = "-05:00" ->
  to_native self (TReql q) =
    let* tz := timezone 300 in
    let* dt := fromtimestamp (to_epoch_time q) (Some tz) in
    Ok (TDatetime dt).
Proof.
  intros Htz. unfold to_native, Time_to_python_repr. rewrite Htz.
  now replace (Time_from_rql_tz self "-05:00") with (Ok 300 : result Z)
    by reflexivity.
Qed.



End TimeFacts.

Section RoundTrip.
Variable datetime : Type.
Variable date : Type.
Variable tzinfo : Type.
Variable isoformat : datetime -> string.
Variable date_isoformat : date -> string.
Variable parse_date : string -> result datetime.
Variable timezone : Z -> result tzinfo.
Variable fromtimestamp : Z -> option tzinfo -> result datetime.
Variable reql : Type.
Variable to_epoch_time : reql -> Z.
Variable reql_timezone : reql -> string.
Variable to_iso8601 : reql -> reql.
Variable BaseGeometry : Type.
Variable shape : dict -> result BaseGeometry.
Variable mapping : BaseGeometry -> dict.

End RoundTrip.



End HandlerFacts.

(** ** Resolution of identifiers *)

Module ReferenceFacts.
Import Dict DictFacts DocumentPy.

Section AnyResolver.
Variable resolver : Suite -> string -> result entity.

(** A value that is no string, and a string outside the base address,
    come back unchanged. *)
Lemma from_ref_opaque (p : process) (env : Suite) (doc : value) :
  Suite__call__ p = Ok env ->
  match doc with
  | VStr s => startswith s (base_url env) = false
  | _ => True
  end ->
  _from_ref resolver p doc = Ok (EValue doc).
Proof.
  intros Henv Hdoc. unfold _from_ref. rewrite Henv. simpl.
  destruct doc; try reflexivity. now rewrite Hdoc.
Qed.

(** Under the base address the outcome is the resolver's, whatever it
    is: [_from_ref] and [Suite.lookup_document] add nothing of their
    own. *)
Lemma from_ref_resolved (p : process) (env : Suite) (s : string) :
  Suite__call__ p = Ok env ->
  startswith s (base_url env) = true ->
  _from_ref resolver p (VStr s) = resolver env s.
Proof.
  intros Henv Hs. unfold _from_ref, Suite_lookup_document.
  rewrite Henv. simpl. now rewrite Hs.
Qed.
End AnyResolver.

Lemma strip_prefix_prefix (p s r : string) :
  strip_prefix p s = Some r -> String.prefix p s = true.
Proof.
  revert s. induction p as [|a p IH]; intros [|b s]; simpl; try discriminate; auto.
  destruct (Ascii.eqb_spec a b) as [->|Hne]; [|discriminate].
  intros H. destruct (Ascii.ascii_dec b b) as [_|Hbb]; [eauto | congruence].
Qed.

Lemma path_segments_startswith (base s : string) (segs : list string) :
  path_segments base s = Some segs -> startswith s base = true.
Proof.
  unfold path_segments, startswith.
  destruct (strip_prefix base s) as [r|] eqn:Hr; [|discriminate].
  intros _. now apply (strip_prefix_prefix _ _ r).
Qed.

(** The resolver returns for every string: the live object its path
    segments address in the registry, or the string. *)
Lemma get_document_returns (env : Suite) (s : string) :
  Reference_get_document env s = Ok (EValue (VStr s)) \/
  exists segs e,
    path_segments (base_url env) s = Some segs /\
    resolve_segments env segs = Ok e /\
    Reference_get_document env s = Ok e.
Proof.
  unfold Reference_get_document.
  destruct (path_segments (base_url env) s) as [segs|]; [|now left].
  destruct (resolve_segments env segs) as [e|x] eqn:He; [|now left].
  right. now exists segs, e.
Qed.

(** C7. Once [Suite()] returns the suite, the native-form resolver
    returns for every string, it never raises: what comes back is the
    string itself or the live object its path segments address in the
    registry. A string that does not begin with the Suite's base
    address comes back unchanged, and so does one that does when the
    application, the collection or the document it addresses is
    absent from the registry. *)
Theorem from_ref_resolution (p : process) (env : Suite) (s : string) :
  Suite__call__ p = Ok env ->
  (_from_ref Reference_get_document p (VStr s) = Ok (EValue (VStr s)) \/
   exists segs e,
     path_segments (base_url env) s = Some segs /\
     resolve_segments env segs = Ok e /\
     _from_ref Reference_get_document p (VStr s) = Ok e) /\
  (startswith s (base_url env) = false ->
   _from_ref Reference_get_document p (VStr s) = Ok (EValue (VStr s))) /\
  (forall app,
      path_segments (base_url env) s = Some [app] ->
      get app (applications env) = None ->
      _from_ref Reference_get_document p (VStr s) = Ok (EValue (VStr s))) /\
  (forall app coll,
      path_segments (base_url env) s = Some [app; coll] ->
      (forall a, get app (applications env) = Some a ->
                 get coll (collections a) = None) ->
      _from_ref Reference_get_document p (VStr s) = Ok (EValue (VStr s))) /\
  (forall app coll key,
      path_segments (base_url env) s = Some [app; coll; key] ->
      (forall a c, get app (applications env) = Some a ->
                   get coll (collections a) = Some c ->
                   get key (Collection_rows c) = None) ->
      _from_ref Reference_get_document p (VStr s) = Ok (EValue (VStr s))).
Proof.
  intros Henv. split; [|split; [|split; [|split]]].
  - destruct (startswith s (base_url env)) eqn:Hs.
    + rewrite (from_ref_resolved _ _ env) by assumption.
      apply get_document_returns.
    + left. now apply (from_ref_opaque _ _ env).
  - intros Hs. now apply (from_ref_opaque _ _ env).
  - intros app Hsegs Happ.
    rewrite (from_ref_resolved _ _ env) by
      (auto; now apply (path_segments_startswith _ _ [app])).
    unfold Reference_get_document. rewrite Hsegs.
    unfold resolve_segments, Suite__getitem__. now rewrite Happ.
  - intros app coll Hsegs Habsent.
    rewrite (from_ref_resolved _ _ env) by
      (auto; now apply (path_segments_startswith _ _ [app; coll])).
    unfold Reference_get_document. rewrite Hsegs.
    unfold resolve_segments, Suite__getitem__, Application__getitem__.
    destruct (get app (applications env)) as [a|]; cbn [rbind]; [|reflexivity].
    now rewrite (Habsent a eq_refl).
  - intros app coll key Hsegs Habsent.
    rewrite (from_ref_resolved _ _ env) by
      (auto; now apply (path_segments_startswith _ _ [app; coll; key])).
    unfold Reference_get_document. rewrite Hsegs.
    unfold resolve_segments, Suite__getitem__, Application__getitem__,
      Collection__getitem__.
    destruct (get app (applications env)) as [a|] eqn:Ha; cbn [rbind];
      [|reflexivity].
    destruct (get coll (collections a)) as [c|] eqn:Hc; cbn [rbind];
      [|reflexivity].
    now rewrite (Habsent a c eq_refl Hc).
Qed.

Lemma from_ref_resolution_witness :
  _from_ref Reference_get_document Examples.shop_process
      (VStr "https://elsewhere.example/shop/widgets/A1")
    = Ok (EValue (VStr "https://elsewhere.example/shop/widgets/A1")) /\
  _from_ref Reference_get_document Examples.shop_process
      (VStr "http://localhost:8000/crm")
    = Ok (EValue (VStr "http://localhost:8000/crm")) /\
  _from_ref Reference_get_document Examples.shop_process
      (VStr "http://localhost:8000/shop/orders")
    = Ok (EValue (VStr "http://localhost:8000/shop/orders")) /\
  _from_ref Reference_get_document Examples.shop_process
      (VStr "http://localhost:8000/shop/widgets/42")
    = Ok (EValue (VStr "http://localhost:8000/shop/widgets/42")).
Proof.
  split; [|split; [|split]].
  - destruct (from_ref_resolution Examples.shop_process Examples.shop_suite
                "https://elsewhere.example/shop/widgets/A1" eq_refl)
      as (_ & H & _).
    exact (H eq_refl).
  - destruct (from_ref_resolution Examples.shop_process Examples.shop_suite
                "http://localhost:8000/crm" eq_refl)
      as (_ & _ & H & _).
    exact (H "crm" eq_refl eq_refl).
  - destruct (from_ref_resolution Examples.shop_process Examples.shop_suite
                "http://localhost:8000/shop/orders" eq_refl)
      as (_ & _ & _ & H & _).
    apply (H "shop" "orders" eq_refl).
    intros a Ha. injection Ha as <-. reflexivity.
  - destruct (from_ref_resolution Examples.shop_process Examples.shop_suite
                "http://localhost:8000/shop/widgets/42" eq_refl)
      as (_ & _ & _ & _ & H).
    apply (H "shop" "widgets" "42" eq_refl).
    intros a c Ha Hc. injection Ha as <-. injection Hc as <-. reflexivity.
Defined.

(** What is registered is found: the application, the collection and
    the document of the example suite. *)
Lemma registered_entities_resolve :
  _from_ref Reference_get_document Examples.shop_process
      (VStr "http://localhost:8000/shop/widgets/A1")
    = Ok (EValue (VDoc 7)) /\
  (exists c, _from_ref Reference_get_document Examples.shop_process
               (VStr "http://localhost:8000/shop/widgets") = Ok (ECollection c)) /\
  (exists a, _from_ref Reference_get_document Examples.shop_process
               (VStr "http://localhost:8000/shop") = Ok (EApplication a)).
Proof. repeat split; eexists; reflexivity. Qed.
End ReferenceFacts.

(** ** The runtime: saving and referencing documents *)

Module RuntimeFacts.
Import Dict DictFacts Pkg Stated.

(** Induction over values, through the containers. *)
Lemma value_ind' (P : value -> Prop) :
  P VNone ->
  (forall b, P (VBool b)) ->
  (forall z, P (VInt z)) ->
  (forall s, P (VStr s)) ->
  (forall l, Forall P l -> P (VList l)) ->
  (forall d, Forall (fun kv => P (snd kv)) d -> P (VDict d)) ->
  (forall a, P (VDoc a)) ->
  forall v, P v.
Proof.
  intros HNone HBool HInt HStr HList HDict HDoc.
  fix IH 1. intros [|b|z|s|l|d|a].
  - exact HNone.
  - apply HBool.
  - apply HInt.
  - apply HStr.
  - apply HList. induction l as [|x l IHl]; constructor; [apply IH | exact IHl].
  - apply HDict. induction d as [|[k x] d IHd]; constructor; [apply IH | exact IHd].
  - apply HDoc.
Qed.

Section Frames.
Variable store : Type.
Variable table_insert : string -> list dict -> option string -> store -> value * store.
Variable table_count : string -> store -> nat.
Variable jsonschema_validate : dict -> dict -> bool.
Variable pre_save : result unit.
Variable post_save : value -> result unit.
Variable P : addr -> Prop.

Lemma keeps_ret {A} (a : A) : keeps_flags P (ret store a).
Proof. now intros s b _. Qed.

Lemma keeps_raise {A} (e : exn) : keeps_flags P (@raise store A e).
Proof. now intros s b _. Qed.

Lemma keeps_lift {A} (r : result A) : keeps_flags P (lift store r).
Proof. now intros s b _. Qed.

Lemma keeps_bind {A B} (m : M store A) (k : A -> M store B) :
  keeps_flags P m -> (forall a, keeps_flags P (k a)) -> keeps_flags P (bind store m k).
Proof.
  intros Hm Hk s b Hb. unfold bind. specialize (Hm s b Hb).
  destruct (m s) as [[a|e] s']; simpl in *; [|assumption].
  now rewrite (Hk a s' b Hb).
Qed.

Lemma keeps_deref (a : addr) : keeps_flags P (deref store a).
Proof. intros s b _. unfold deref. now destruct (heap store s !! a). Qed.

Lemma keeps_insert (self : collection) (values : list dict) (c : option string) :
  keeps_flags P (insert store table_insert self values c).
Proof. now intros s b _. Qed.

Lemma keeps_collection_truthy (self : collection) :
  keeps_flags P (collection_truthy store table_count self).
Proof. now intros s b _. Qed.

(** Assigning an attribute other than the flag keeps every flag. *)
Lemma keeps_modify (a : addr) (f : document -> document) :
  (forall d, _saved (f d) = _saved d) -> keeps_flags P (modify store a f).
Proof.
  intros Hf s b _. unfold modify, saved_flag. simpl.
  rewrite lookup_alter. case_decide as Hab; [|reflexivity]. subst b.
  destruct (heap store s !! a) as [d|]; simpl; [|reflexivity]. now rewrite Hf.
Qed.

(** Setting the flag of [a] keeps the flag of every other object. *)
Lemma keeps_modify_saved (a : addr) (v : bool) :
  (forall b, P b -> b <> a) -> keeps_flags P (modify store a (with_saved v)).
Proof.
  intros Hother s b Hb. unfold modify, saved_flag. simpl.
  rewrite lookup_alter. case_decide as Hab; [|reflexivity].
  subst b. now destruct (Hother a Hb).
Qed.

Lemma keeps_convert_in_place (self : collection)
    (convert : ValueHandler -> value -> result value)
    (owner : option addr) (value0 : dict) :
  keeps_flags P (convert_in_place store self convert owner value0).
Proof.
  unfold convert_in_place. destruct (specials self) as [items|]; [|apply keeps_raise].
  apply keeps_bind.
  - destruct owner as [a|]; [now apply keeps_modify | apply keeps_ret].
  - intros _. destruct (snd (apply_specials convert items value0));
      [apply keeps_raise | apply keeps_ret].
Qed.

(** Saving a dict, or the dict that is a Document's [obj], keeps every
    flag; saving a Document keeps the flag of every other object. *)
Lemma keeps_save_one (self : collection) (value0 : save_arg) :
  match value0 with
  | ADoc a => forall b, P b -> b <> a
  | _ => True
  end ->
  keeps_flags P (Collection_save_one store jsonschema_validate self value0).
Proof.
  intros Harg. unfold Collection_save_one.
  apply keeps_bind.
  - destruct value0 as [a|a|d].
    + apply keeps_bind; [apply keeps_deref|]. intros d.
      apply keeps_bind; [now apply keeps_modify_saved|]. intros _. apply keeps_ret.
    + apply keeps_bind; [apply keeps_deref|]. intros d. apply keeps_ret.
    + apply keeps_ret.
  - intros unpacked. apply keeps_bind; [apply keeps_convert_in_place|]. intros value1.
    apply keeps_bind.
    { destruct (jsonschema_validate _ _); [apply keeps_ret | apply keeps_raise]. }
    intros _. apply keeps_bind; [apply keeps_lift|]. intros _.
    apply keeps_bind; [apply keeps_convert_in_place|]. intros value2. apply keeps_ret.
Qed.

Lemma keeps_Collection_save (self : collection) (docs : list save_arg)
    (conflict : option string) :
  Forall (fun value0 => match value0 with
                        | ADoc a => forall b, P b -> b <> a
                        | _ => True
                        end) docs ->
  keeps_flags P
    (Collection_save store table_insert jsonschema_validate pre_save post_save
       self docs conflict).
Proof.
  intros Hdocs. unfold Collection_save.
  apply keeps_bind; [apply keeps_lift|]. intros _.
  apply keeps_bind.
  - induction Hdocs as [|x l Hx Hl IH]; simpl.
    + apply keeps_ret.
    + apply keeps_bind; [now apply keeps_save_one|]. intros y.
      apply keeps_bind; [apply IH|]. intros ys. apply keeps_ret.
  - intros values. apply keeps_bind; [apply keeps_insert|]. intros ret0.
    apply keeps_bind; [apply keeps_lift|]. intros _. apply keeps_ret.
Qed.

(** [Document.save] hands [self.obj], a dict, to [Collection.save]:
    no flag changes, the document's own included. *)
Lemma keeps_Document_save (self : addr) (conflict : option string) :
  keeps_flags P
    (Document_save store table_insert jsonschema_validate pre_save post_save
       self conflict).
Proof.
  unfold Document_save. apply keeps_bind; [apply keeps_deref|]. intros d.
  apply keeps_Collection_save. now repeat constructor.
Qed.

Lemma keeps_Document_url (self : addr) :
  keeps_flags P (Document_url store table_count self).
Proof.
  unfold Document_url. apply keeps_bind; [apply keeps_deref|]. intros d.
  destruct (match _url d with Some u => truthy (VStr u) | None => false end);
    [apply keeps_ret|].
  apply keeps_bind; [apply keeps_collection_truthy|]. intros c.
  destruct c; [|apply keeps_lift].
  apply keeps_bind; [apply keeps_lift|]. intros slug. apply keeps_lift.
Qed.

Lemma keeps_reference (v : value) :
  keeps_flags P
    (_reference store table_insert table_count jsonschema_validate pre_save
       post_save v).
Proof.
  unfold _reference. destruct v; try apply keeps_ret.
  apply keeps_bind; [apply keeps_deref|]. intros d.
  apply keeps_bind; [apply keeps_lift|]. intros i.
  apply keeps_bind; [|intros _; apply keeps_Document_url].
  destruct (negb (truthy i)); [|apply keeps_ret].
  apply keeps_bind; [apply keeps_Document_save|]. intros _. apply keeps_ret.
Qed.

(** Mapping over a container keeps what the mapped function keeps. *)
Lemma keeps_mapjson (f : value -> M store value) :
  (forall v, keeps_flags P (f v)) ->
  forall v, keeps_flags P (mapjson store f v).
Proof.
  intros Hf. induction v as [| | | |l IHl|d IHd|] using value_ind'; simpl; auto.
  - apply keeps_bind; [|intros l'; apply keeps_ret].
    induction IHl as [|x l Hx Hl IH]; [apply keeps_ret|].
    apply keeps_bind; [exact Hx|]. intros y.
    apply keeps_bind; [exact IH|]. intros r. apply keeps_ret.
  - apply keeps_bind; [|intros d'; apply keeps_ret].
    induction IHd as [|[k x] d Hx Hd IH]; [apply keeps_ret|].
    apply keeps_bind; [exact Hx|]. intros y.
    apply keeps_bind; [exact IH|]. intros r. apply keeps_ret.
Qed.

(** Assigning a property, with whatever referencing and saving of
    nested documents it triggers, keeps every flag. *)
Lemma keeps_setitem (self : addr) (key : string) (value0 : value) :
  keeps_flags P
    (Document__setitem__ store table_insert table_count jsonschema_validate
       pre_save post_save self key value0).
Proof.
  unfold Document__setitem__.
  apply keeps_bind; [apply keeps_reference|]. intros value1.
  apply keeps_bind.
  { destruct value1; try apply keeps_ret;
      apply keeps_mapjson; apply keeps_reference. }
  intros value2. apply keeps_bind; [apply keeps_deref|]. intros d.
  apply keeps_bind; [now apply keeps_modify|]. intros _.
  apply keeps_bind; [apply keeps_deref|]. intros d'.
  apply keeps_bind; [now apply keeps_modify|]. intros _.
  destruct (snd (run_processors _ _ _)); [apply keeps_raise | apply keeps_ret].
Qed.
End Frames.
Section Saving.
Variable store : Type.
Variable table_insert : string -> list dict -> option string -> store -> value * store.
Variable table_count : string -> store -> nat.
Variable jsonschema_validate : dict -> dict -> bool.
Variable pre_save : result unit.
Variable post_save : value -> result unit.

(** C2. Assigning a Document to a property of a parent (which saves
    it when it is unsaved) and then saving the parent leave the
    child's saved flag as it was: an unsaved child is written to the
    store and still reads as unsaved. *)
Theorem referenced_child_stays_unsaved (s : state store) (coll : collection)
    (parent child : addr) (key : string) (conflict : option string) :
  parent <> child ->
  saved_flag
    (snd (Collection_save store table_insert jsonschema_validate pre_save post_save
            coll [ADoc parent] conflict
            (snd (Document__setitem__ store table_insert table_count
                    jsonschema_validate pre_save post_save
                    parent key (VDoc child) s))))
    child
  = saved_flag s child.
Proof.
  intros Hne.
  rewrite (keeps_Collection_save store table_insert jsonschema_validate pre_save
             post_save (fun b => b <> parent) coll [ADoc parent] conflict).
  - now apply (keeps_setitem store table_insert table_count jsonschema_validate
                 pre_save post_save (fun b => b <> parent)).
  - repeat constructor. auto.
  - congruence.
Qed.

(** The loop body on a Document: whatever its outcome, it has set the
    document's saved flag, and nothing else in the heap or the store
    has changed. *)
Lemma save_one_document (s s' : state store) (coll : collection) (a : addr)
    (d : document) (r : result dict) :
  heap store s !! a = Some d ->
  Collection_save_one store jsonschema_validate coll (ADoc a) s = (r, s') ->
  s' = {| heap := alter (with_saved true) a (heap store s); db := db store s |}.
Proof.
  intros Hd. unfold Collection_save_one, convert_in_place.
  unfold bind, deref, modify, ret, raise, lift. rewrite Hd. cbn [fst snd].
  destruct (specials coll) as [items|]; [|intros H; now injection H as _ <-].
  destruct (apply_specials to_json_repr items (obj d)) as [wire [e|]]; cbn [fst snd];
    [intros H; now injection H as _ <-|].
  destruct (jsonschema_validate wire (coll_schema coll));
    [|intros H; now injection H as _ <-].
  destruct (validator coll wire) as [[]|e]; [|intros H; now injection H as _ <-].
  destruct (apply_specials to_rql_repr items wire) as [stored [e|]]; cbn [fst snd];
    intros H; now injection H as _ <-.
Qed.

(** C3. When the save of a Document fails in the loop body, that is
    in the wire-shape conversion, the schema validation, the custom
    validation hook or the storage-shape conversion, the save raises
    with nothing written to the store and with the document's
    contents as they were, but the document's saved flag is set by
    then, whatever it was before. *)
Theorem failed_save_sets_saved_flag (s s' : state store) (coll : collection)
    (a : addr) (d : document) (e : exn) (conflict : option string) :
  pre_save = Ok tt ->
  heap store s !! a = Some d ->
  Collection_save_one store jsonschema_validate coll (ADoc a) s = (Raise e, s') ->
  Collection_save store table_insert jsonschema_validate pre_save post_save
    coll [ADoc a] conflict s = (Raise e, s') /\
  db store s' = db store s /\
  heap store s' !! a = Some (with_saved true d) /\
  obj (with_saved true d) = obj d /\
  _saved (with_saved true d) = true /\
  (forall b, b <> a -> heap store s' !! b = heap store s !! b).
Proof.
  intros Hpre Hd Hone.
  pose proof (save_one_document _ _ _ _ _ _ Hd Hone) as Hs'.
  split; [|subst s'; repeat split].
  - unfold Collection_save. rewrite Hpre.
    unfold bind at 1, lift at 1. cbn [mapM]. unfold bind at 1 2.
    now rewrite Hone.
  - cbn [heap]. rewrite lookup_alter. case_decide; [|congruence].
    now rewrite Hd.
  - intros b Hb. cbn [heap]. rewrite lookup_alter. case_decide; congruence.
Qed.

(** The case of the schema validation. *)
Lemma invalid_document_save (s : state store) (coll : collection)
    (a : addr) (d : document) (items : list (string * ValueHandler))
    (wire : dict) :
  heap store s !! a = Some d ->
  specials coll = Some items ->
  apply_specials to_json_repr items (obj d) = (wire, None) ->
  jsonschema_validate wire (coll_schema coll) = false ->
  Collection_save_one store jsonschema_validate coll (ADoc a) s =
    (Raise JsonSchemaValidationError,
     {| heap := alter (with_saved true) a (heap store s); db := db store s |}).
Proof.
  intros Hd Hitems Hwire Hvalid. unfold Collection_save_one, convert_in_place.
  unfold bind, deref, modify, ret, raise, lift. rewrite Hd. cbn [fst snd].
  rewrite Hitems, Hwire. cbn [fst snd heap db]. now rewrite Hvalid.
Qed.
End Saving.

Lemma referenced_child_stays_unsaved_witness :
  saved_flag Examples.family_before 1%nat = Some false /\
  fst Examples.family_saved = Ok (VDict [("inserted", VInt 1)]) /\
  saved_flag (snd Examples.family_saved) 1%nat = Some false.
Proof.
  split; [reflexivity|]. split; [reflexivity|].
  unfold Examples.family_saved, Examples.family_linked, Examples.save_with,
    Examples.setitem_with.
  rewrite (referenced_child_stays_unsaved Examples.row_store Examples.rows_insert
             Examples.rows_count (fun _ _ => true) (Ok tt) (fun _ => Ok tt)
             Examples.family_before Examples.widgets 2%nat 1%nat "child" None).
  - reflexivity.
  - discriminate.
Defined.

(** The family built through the constructors: the save of the parent
    succeeds, the parent holds the child's URL as a string and is
    flagged saved, the store holds the child's row and the parent's,
    and the child is still flagged unsaved. *)
Lemma parent_save_example :
  fst Examples.family_constructed = Ok (VDict [("inserted", VInt 1)]) /\
  (obj <$> heap _ (snd Examples.family_constructed) !! 2%nat) =
    Some [("id", VStr "p1");
          ("child", VStr "http://localhost:8000/shop/widgets/c1")] /\
  saved_flag (snd Examples.family_constructed) 2%nat = Some true /\
  db _ (snd Examples.family_constructed) =
    [("widgets", [("id", VStr "c1"); ("name", VStr "kid")]);
     ("widgets", [("id", VStr "p1");
                  ("child", VStr "http://localhost:8000/shop/widgets/c1")])] /\
  saved_flag (snd Examples.family_constructed) 1%nat = Some false.
Proof. vm_compute. repeat split. Qed.

Lemma failed_save_sets_saved_flag_witness :
  saved_flag Examples.lone_unsaved 1%nat = Some false /\
  exists s',
    Examples.save_with false Examples.widgets [ADoc 1%nat] None Examples.lone_unsaved
      = (Raise JsonSchemaValidationError, s') /\
    db _ s' = [] /\
    saved_flag s' 1%nat = Some true.
Proof.
  split; [reflexivity|].
  pose proof (invalid_document_save Examples.row_store (fun _ _ => false)
                Examples.lone_unsaved Examples.widgets 1%nat
                (Examples.widget false [("id", VStr "w1"); ("name", VInt 5)])
                [] [("id", VStr "w1"); ("name", VInt 5)]
                eq_refl eq_refl eq_refl eq_refl) as Hone.
  destruct (failed_save_sets_saved_flag Examples.row_store Examples.rows_insert
              (fun _ _ => false) (Ok tt) (fun _ => Ok tt)
              Examples.lone_unsaved _ Examples.widgets 1%nat
              (Examples.widget false [("id", VStr "w1"); ("name", VInt 5)])
              JsonSchemaValidationError None eq_refl eq_refl Hone)
    as (Hsave & Hdb & Hheap & _).
  eexists. split; [exact Hsave|]. split; [exact Hdb|].
  unfold saved_flag. now rewrite Hheap.
Defined.
End RuntimeFacts.

(** * Further properties of the code *)

(** ** The value handlers, continued *)

Module HandlerExtras.
Import Dict DictFacts DocumentPy Stated HandlerFacts.

Lemma from_rql_tz_negative_offset_witness :
  Time_from_rql_tz (Time__init__ None) "-05:30" = Ok (60 * 5 - 30) /\
  Time_from_rql_tz (Time__init__ None) "-11:00" = Ok (60 * 11 - 0).
Proof.
  split.
  - exact (from_rql_tz_negative_offset (Time__init__ None) "05" "30" 5 30
             ltac:(discriminate) ltac:(discriminate) eq_refl eq_refl).
  - exact (from_rql_tz_negative_offset (Time__init__ None) "11" "00" 11 0
             ltac:(discriminate) ltac:(discriminate) eq_refl eq_refl).
Defined.

Lemma digit_not_Z (c : ascii) (d : Z) : digit_of c = Some d -> c <> "Z"%char.
Proof.
  destruct c as [[] [] [] [] [] [] [] []]; cbv; intros H;
    try discriminate H; discriminate.
Qed.

Lemma py_int_plus_digits (s : string) (z : Z) :
  s <> "" -> digits_from 0 s = Some z -> py_int (String "+" s) = Ok z.
Proof.
  intros Hs H. unfold py_int. destruct s as [|c s]; [congruence|]. now rewrite H.
Qed.

Lemma first_digit (s : string) (acc z : Z) :
  s <> "" -> digits_from acc s = Some z ->
  exists c s' d, s = String c s' /\ digit_of c = Some d.
Proof.
  destruct s as [|c s]; [congruence|]. intros _ H. cbn [digits_from] in H.
  destruct (digit_of c) as [d|] eqn:Hd; [|discriminate]. now exists c, s, d.
Qed.

(** X2. For an offset written [+HH:MM], or [HH:MM] without a sign, the
    handler computes [60 * HH + MM]. *)
Theorem from_rql_tz_positive_offset (self : Time) (hh mm : string) (h m : Z) :
  hh <> "" -> mm <> "" ->
  digits_from 0 hh = Some h -> digits_from 0 mm = Some m ->
  Time_from_rql_tz self (String "+" (hh ++ String ":" mm)) = Ok (60 * h + m) /\
  Time_from_rql_tz self (hh ++ String ":" mm) = Ok (60 * h + m).
Proof.
  intros Hh Hm Hhh Hmm. split.
  - unfold Time_from_rql_tz.
    replace (String.eqb (String "+" (hh ++ String ":" mm)) "Z") with false
      by reflexivity.
    cbn [rbind]. replace (Ascii.eqb "+" "-") with false by reflexivity.
    assert (Hsplit : split ":" (String "+" (hh ++ String ":" mm))
                     = [String "+" hh; mm]).
    { cbn [split]. replace (Ascii.eqb "+" ":") with false by reflexivity.
      now rewrite (split_digits _ _ _ _ Hhh), (split_digits_end _ _ _ Hmm). }
    rewrite Hsplit. cbn [foldM].
    rewrite (py_int_plus_digits _ _ Hh Hhh). cbn [rbind app].
    rewrite (py_int_digits _ _ Hm Hmm). cbn [rbind app].
    f_equal. lia.
  - destruct (first_digit _ _ _ Hh Hhh) as (c & hh' & d & -> & Hd).
    destruct (digit_not_special _ _ Hd) as (_ & Hminus & _).
    pose proof (digit_not_Z _ _ Hd) as HZ.
    unfold Time_from_rql_tz.
    change (String c hh' ++ String ":" mm) with (String c (hh' ++ String ":" mm)).
    assert (HnotZ : String.eqb (String c (hh' ++ String ":" mm)) "Z" = false).
    { cbn [String.eqb]. destruct (Ascii.eqb_spec c "Z"); [contradiction | reflexivity]. }
    rewrite HnotZ. cbn [rbind].
    destruct (Ascii.eqb_spec c "-") as [|_]; [contradiction|].
    change (String c (hh' ++ String ":" mm)) with (String c hh' ++ String ":" mm).
    rewrite (split_digits _ _ _ _ Hhh), (split_digits_end _ _ _ Hmm). cbn [foldM].
    rewrite (py_int_digits _ _ Hh Hhh). cbn [rbind app].
    rewrite (py_int_digits _ _ Hm Hmm). cbn [rbind app].
    f_equal. lia.
Qed.

Lemma from_rql_tz_positive_offset_witness :
  Time_from_rql_tz (Time__init__ None) "+05:30" = Ok (60 * 5 + 30) /\
  Time_from_rql_tz (Time__init__ None) "05:30" = Ok (60 * 5 + 30).
Proof.
  exact (from_rql_tz_positive_offset (Time__init__ None) "05" "30" 5 30
           ltac:(discriminate) ltac:(discriminate) eq_refl eq_refl).
Defined.

(** X3. An offset written without a colon, digits only with or without a
    sign, is rejected with [ValueError]: one number is read where the
    hours and the minutes are wanted. *)
Theorem from_rql_tz_without_colon (self : Time) (s : string) (z : Z) :
  s <> "" -> digits_from 0 s = Some z ->
  Time_from_rql_tz self s = Raise ValueError /\
  Time_from_rql_tz self (String "-" s) = Raise ValueError /\
  Time_from_rql_tz self (String "+" s) = Raise ValueError.
Proof.
  intros Hs Hz. repeat split.
  - destruct (first_digit _ _ _ Hs Hz) as (c & s' & d & -> & Hd).
    pose proof (digit_not_Z _ _ Hd) as HZ. unfold Time_from_rql_tz.
    assert (HnotZ : String.eqb (String c s') "Z" = false).
    { cbn [String.eqb]. destruct (Ascii.eqb_spec c "Z"); [contradiction | reflexivity]. }
    rewrite HnotZ. cbn [rbind].
    rewrite (split_digits_end _ _ _ Hz). cbn [foldM].
    now rewrite (py_int_digits _ _ Hs Hz).
  - unfold Time_from_rql_tz.
    replace (String.eqb (String "-" s) "Z") with false by reflexivity.
    cbn [rbind split]. replace (Ascii.eqb "-" ":") with false by reflexivity.
    rewrite (split_digits_end _ _ _ Hz). cbn [foldM].
    now rewrite (py_int_minus_digits _ _ Hs Hz).
  - unfold Time_from_rql_tz.
    replace (String.eqb (String "+" s) "Z") with false by reflexivity.
    cbn [rbind split]. replace (Ascii.eqb "+" ":") with false by reflexivity.
    rewrite (split_digits_end _ _ _ Hz). cbn [foldM].
    now rewrite (py_int_plus_digits _ _ Hs Hz).
Qed.

Lemma from_rql_tz_without_colon_witness :
  Time_from_rql_tz (Time__init__ None) "0530" = Raise ValueError /\
  Time_from_rql_tz (Time__init__ None) "-0530" = Raise ValueError.
Proof.
  destruct (from_rql_tz_without_colon (Time__init__ None) "0530" 530
              ltac:(discriminate) eq_refl) as (H1 & H2 & _).
  exact (conj H1 H2).
Defined.

Section TimeShapes.
Variable datetime : Type.
Variable date : Type.
Variable tzinfo : Type.
Variable parse_date : string -> result datetime.
Variable timezone : Z -> result tzinfo.
Variable fromtimestamp : Z -> option tzinfo -> result datetime.
Variable reql : Type.
Variable to_epoch_time : reql -> Z.
Variable reql_timezone : reql -> string.

(** X4. The native shape of a time is a timestamp or [None], nothing
    else: a string is parsed, a stored time is rebuilt, and a number,
    a mapping, a plain date or [None] comes back as [None] without an
    error. *)
Theorem to_python_repr_datetime_or_none (self : Time)
    (x : tvalue datetime date reql) :
  (forall r,
      Time_to_python_repr parse_date timezone fromtimestamp to_epoch_time
        reql_timezone self x = Ok r ->
      r = TNone \/ exists dt, r = TDatetime dt) /\
  (match x with
   | TNum _ | TDict _ | TDate _ | TNone =>
       Time_to_python_repr parse_date timezone fromtimestamp to_epoch_time
         reql_timezone self x = Ok TNone
   | _ => True
   end).
Proof.
  split.
  - intros r Hr. unfold Time_to_python_repr in Hr.
    destruct x; try (injection Hr as <-; eauto; fail).
    + destruct (parse_date s); simpl in Hr; [injection Hr as <-; eauto | discriminate].
    + destruct (Time_from_rql_tz _ _); simpl in Hr; [|discriminate].
      destruct (timezone _); simpl in Hr; [|discriminate].
      destruct (fromtimestamp _ _); simpl in Hr;
        [injection Hr as <-; eauto | discriminate].
  - now destruct x.
Qed.
End TimeShapes.
Section TimeWire.
Variable datetime : Type.
Variable date : Type.
Variable tzinfo : Type.
Variable isoformat : datetime -> string.
Variable date_isoformat : date -> string.
Variable fromtimestamp : Z -> option tzinfo -> result datetime.
Variable reql : Type.
Variable to_iso8601 : reql -> reql.

(** X5. The wire shape of a time is made without an error for every
    value but a number, for which it is the ISO text of
    [datetime.fromtimestamp] of the number, or the exception that
    call raises. A date and a timestamp become text; and for every
    value but a stored time a wire shape that was made is stable:
    converting it again returns it. *)
Theorem time_wire_shape_is_stable (self : Time) (x : tvalue datetime date reql) :
  (match x with
   | TNum z =>
       Time_to_json_repr isoformat date_isoformat fromtimestamp to_iso8601 self x
       = match fromtimestamp z None with
         | Ok d => Ok (TStr (isoformat d))
         | Raise e => Raise e
         end
   | TDate d =>
       Time_to_json_repr isoformat date_isoformat fromtimestamp to_iso8601 self x
       = Ok (TStr (date_isoformat d))
   | TDatetime d =>
       Time_to_json_repr isoformat date_isoformat fromtimestamp to_iso8601 self x
       = Ok (TStr (isoformat d))
   | _ =>
       exists w,
         Time_to_json_repr isoformat date_isoformat fromtimestamp to_iso8601 self x
         = Ok w
   end) /\
  (forall w,
      Time_to_json_repr isoformat date_isoformat fromtimestamp to_iso8601 self x
      = Ok w ->
      match x with TReql _ => False | _ => True end ->
      Time_to_json_repr isoformat date_isoformat fromtimestamp to_iso8601 self w
      = Ok w).
Proof.
  split.
  - destruct x; cbn [Time_to_json_repr]; eauto.
  - intros w Hw Hx. destruct x; cbn [Time_to_json_repr] in Hw;
      try (injection Hw as <-; reflexivity); try contradiction.
    destruct (fromtimestamp z None); cbn [rbind] in Hw; [|discriminate].
    injection Hw as <-. reflexivity.
Qed.
End TimeWire.

End HandlerExtras.

(** ** The geometry handler, continued *)

Module GeometryExtras.
Import Dict DictFacts DocumentPy Stated.

Lemma allowed_fold (t : string) (types acc : list string) :
  existsb (String.eqb t)
    (fold_left (fun acc x =>
                  if existsb (String.eqb (lower x)) acc
                  then acc else (acc ++ [lower x])%list) types acc)
  = existsb (String.eqb t) acc || existsb (String.eqb t) (map lower types).
Proof.
  revert acc. induction types as [|x types IH]; intros acc; cbn [fold_left map existsb].
  - now rewrite orb_false_r.
  - rewrite IH. destruct (existsb (String.eqb (lower x)) acc) eqn:Hx.
    + destruct (String.eqb_spec t (lower x)) as [->|_]; cbn [orb].
      * now rewrite Hx.
      * reflexivity.
    + rewrite existsb_app. cbn [existsb]. rewrite orb_false_r.
      now rewrite orb_assoc.
Qed.

Lemma allowed_nonempty (types acc : list string) :
  acc <> [] ->
  fold_left (fun acc x =>
               if existsb (String.eqb (lower x)) acc
               then acc else (acc ++ [lower x])%list) types acc <> [].
Proof.
  revert acc. induction types as [|x types IH]; intros acc Hacc; cbn [fold_left].
  - exact Hacc.
  - apply IH. destruct (existsb _ acc); [exact Hacc|].
    destruct acc; discriminate.
Qed.

Lemma get_remove_ne {A} (k k' : string) (d : list (string * A)) :
  k <> k' -> Dict.get k (Dict.remove k' d) = Dict.get k d.
Proof.
  intros Hk. induction d as [|[k0 v0] d IH]; cbn [Dict.get Dict.remove]; auto.
  destruct (String.eqb_spec k' k0) as [->|Hk0].
  - rewrite IH. destruct (String.eqb_spec k k0); [contradiction | reflexivity].
  - cbn [Dict.get]. now rewrite IH.
Qed.

Section Allowed.
Variable BaseGeometry : Type.

(** X6. The list of allowed types is matched without regard to case on
    both sides: a mapping is accepted exactly when its lower-cased
    [type] equals the lower-cased form of one of the types the handler
    was built with, and is rejected with [ValidationError] otherwise. *)
Theorem allowed_types_ignore_case (types : list string) (d : dict) (s : string) :
  types <> [] ->
  Dict.get "type" d = Some (VStr s) ->
  Geometry_to_rql_repr (BaseGeometry := BaseGeometry)
    (Geometry__init__ types) (GJson (VDict d))
  = if existsb (String.eqb (lower s)) (map lower types)
    then Ok (GReql (GJson (VDict d)))
    else Raise ValidationError.
Proof.
  intros Hne Hget. unfold Geometry_to_rql_repr, Geometry__init__.
  destruct types as [|x types]; [congruence|]. cbn [allowed_types].
  set (step := fun acc x0 => if existsb (String.eqb (lower x0)) acc
                            then acc else (acc ++ [lower x0])%list).
  pose proof (allowed_fold (lower s) (x :: types) []) as Hmem.
  fold step in Hmem. cbn [existsb orb] in Hmem.
  assert (Hnil : fold_left step (x :: types) [] <> []).
  { cbn [fold_left]. apply allowed_nonempty. unfold step. cbn. discriminate. }
  destruct (fold_left step (x :: types) []) as [|a allowed] eqn:Hfold;
    [congruence|].
  unfold geojson_type_lower, getitem. rewrite Hget. cbn [rbind].
  rewrite Hmem. now destruct (existsb _ (map lower (x :: types))).
Qed.

(** A handler built without types accepts every value, also one that
    is no mapping. *)
Theorem no_allowed_types_accepts_all (v : gvalue BaseGeometry) :
  Geometry_to_rql_repr (Geometry__init__ []) v = Ok (GReql v).
Proof. reflexivity. Qed.

Variable shape : dict -> result BaseGeometry.

(** X7. Reading a stored geometry back: a mapping without the
    [$reql_type$] entry raises [KeyError] and [shape] is not
    consulted; with the entry, [shape] receives the mapping without
    it and with every other entry as it was, and a failure of [shape]
    is the failure of the handler. *)
Theorem to_python_repr_strips_marker (self : Geometry) (d : dict) :
  (Dict.mem "$reql_type$" d = false ->
   Geometry_to_python_repr shape self (GJson (VDict d))
   = Raise (KeyError (VStr "$reql_type$"))) /\
  (Dict.mem "$reql_type$" d = true ->
   exists d',
     Dict.mem "$reql_type$" d' = false /\
     (forall k, k <> "$reql_type$" -> Dict.get k d' = Dict.get k d) /\
     Geometry_to_python_repr shape self (GJson (VDict d))
     = match shape d' with
       | Ok g => Ok (GShape g)
       | Raise e => Raise e
       end).
Proof.
  split; intros Hmem; unfold Geometry_to_python_repr; rewrite Hmem; [reflexivity|].
  exists (Dict.remove "$reql_type$" d). repeat split.
  - unfold Dict.mem. now rewrite get_remove_eq.
  - intros k Hk. now apply get_remove_ne.
Qed.
End Allowed.

Lemma allowed_types_ignore_case_witness :
  Geometry_to_rql_repr (BaseGeometry := unit)
    (Geometry__init__ ["Point"; "LineString"])
    (GJson (VDict [("type", VStr "POINT"); ("coordinates", VList [VInt 1; VInt 2])]))
  = Ok (GReql (GJson (VDict [("type", VStr "POINT");
                             ("coordinates", VList [VInt 1; VInt 2])]))).
Proof.
  exact (allowed_types_ignore_case unit ["Point"; "LineString"]
           [("type", VStr "POINT"); ("coordinates", VList [VInt 1; VInt 2])]
           "POINT" ltac:(discriminate) eq_refl).
Defined.
End GeometryExtras.

(** ** The conversions and the save, continued *)

Module SaveExtras.
Import Dict DictFacts Pkg Stated.

Lemma keys_set_present {A} (k : string) (v v' : A) (d : list (string * A)) :
  get k d = Some v -> keys (set k v' d) = keys d.
Proof.
  unfold keys. induction d as [|[k0 v0] d IH]; cbn [get set map]; [discriminate|].
  destruct (String.eqb_spec k k0) as [->|_]; [reflexivity|].
  intros H. cbn [map fst]. now rewrite (IH H).
Qed.

Lemma apply_specials_frame (convert : ValueHandler -> value -> result value)
    (items : list (string * ValueHandler)) (doc : dict) :
  keys (fst (apply_specials convert items doc)) = keys doc /\
  (forall k, ~ In k (map fst items) ->
             get k (fst (apply_specials convert items doc)) = get k doc).
Proof.
  revert doc. induction items as [|[p sp] rest IH]; intros doc; cbn [apply_specials].
  - now split.
  - destruct (get p doc) as [w|] eqn:Hp.
    + destruct (convert sp w) as [w'|e]; cbn [fst]; [|now split].
      destruct (IH (set p w' doc)) as [Hk Hg]. split.
      * rewrite Hk. now apply keys_set_present with w.
      * intros k Hin. cbn [map fst In] in Hin. rewrite Hg by tauto.
        apply get_set_ne. tauto.
    + destruct (IH doc) as [Hk Hg]. split; [exact Hk|].
      intros k Hin. cbn [map fst In] in Hin. apply Hg. tauto.
Qed.

(** X8. The conversion loop of [_to_json_repr], [_to_rql_repr] and
    [_to_python_repr] keeps the keys of the document and their
    order, and keeps the value of every property that has no handler;
    when it ends without an exception and no property has two
    handlers, every property present that has a handler holds what
    the handler returned for its value. *)
Theorem specials_convert_their_properties_only
    (convert : ValueHandler -> value -> result value)
    (items : list (string * ValueHandler)) (doc : dict) :
  keys (fst (apply_specials convert items doc)) = keys doc /\
  (forall k, ~ In k (map fst items) ->
             get k (fst (apply_specials convert items doc)) = get k doc) /\
  (List.NoDup (map fst items) ->
   snd (apply_specials convert items doc) = None ->
   forall k h v, In (k, h) items -> get k doc = Some v ->
     exists v', convert h v = Ok v' /\
                get k (fst (apply_specials convert items doc)) = Some v').
Proof.
  destruct (apply_specials_frame convert items doc) as [Hkeys Hframe].
  split; [exact Hkeys|]. split; [exact Hframe|]. clear Hkeys Hframe.
  revert doc. induction items as [|[p sp] rest IH]; intros doc Hnd Hnone k h v Hin Hget.
  - destruct Hin.
  - cbn [map fst] in Hnd. apply NoDup_cons_iff in Hnd as [Hp Hnd].
    cbn [apply_specials] in *. destruct Hin as [Heq|Hin].
    + injection Heq as -> ->. rewrite Hget in *.
      destruct (convert h v) as [v'|e]; [|discriminate].
      exists v'. split; [reflexivity|].
      destruct (apply_specials_frame convert rest (set k v' doc)) as [_ Hg].
      rewrite (Hg k Hp). apply get_set_eq.
    + assert (Hne : p <> k).
      { intros ->. apply Hp. change k with (fst (k, h)). now apply in_map. }
      destruct (get p doc) as [w|] eqn:Hpd.
      * destruct (convert sp w) as [w'|e]; [|discriminate].
        apply (IH (set p w' doc) Hnd Hnone k h v Hin).
        now rewrite get_set_ne.
      * now apply (IH doc Hnd Hnone k h v Hin).
Qed.

Section Store.
Variable store : Type.
Variable table_insert : string -> list dict -> option string -> store -> value * store.
Variable table_count : string -> store -> nat.
Variable jsonschema_validate : dict -> dict -> bool.
Variable pre_save : result unit.
Variable post_save : value -> result unit.

Lemma keeps_db_ret {A} (a : A) : keeps_db (ret store a).
Proof. now intros s. Qed.

Lemma keeps_db_raise {A} (e : exn) : keeps_db (@raise store A e).
Proof. now intros s. Qed.

Lemma keeps_db_lift {A} (r : result A) : keeps_db (lift store r).
Proof. now intros s. Qed.

Lemma keeps_db_bind {A B} (m : M store A) (k : A -> M store B) :
  keeps_db m -> (forall a, keeps_db (k a)) -> keeps_db (bind store m k).
Proof.
  intros Hm Hk s. unfold bind. specialize (Hm s).
  destruct (m s) as [[a|e] s']; simpl in *; [|assumption].
  now rewrite (Hk a s').
Qed.

Lemma keeps_db_deref (a : addr) : keeps_db (deref store a).
Proof. intros s. unfold deref. now destruct (heap store s !! a). Qed.

Lemma keeps_db_modify (a : addr) (f : document -> document) :
  keeps_db (modify store a f).
Proof. now intros s. Qed.

Lemma keeps_db_convert_in_place (self : collection)
    (convert : ValueHandler -> value -> result value)
    (owner : option addr) (value0 : dict) :
  keeps_db (convert_in_place store self convert owner value0).
Proof.
  unfold convert_in_place. destruct (specials self) as [items|]; [|apply keeps_db_raise].
  apply keeps_db_bind.
  - destruct owner as [a|]; [apply keeps_db_modify | apply keeps_db_ret].
  - intros _. destruct (snd (apply_specials convert items value0));
      [apply keeps_db_raise | apply keeps_db_ret].
Qed.

Lemma keeps_db_save_one (self : collection) (value0 : save_arg) :
  keeps_db (Collection_save_one store jsonschema_validate self value0).
Proof.
  unfold Collection_save_one. apply keeps_db_bind.
  - destruct value0 as [a|a|d].
    + apply keeps_db_bind; [apply keeps_db_deref|]. intros d.
      apply keeps_db_bind; [apply keeps_db_modify|]. intros _. apply keeps_db_ret.
    + apply keeps_db_bind; [apply keeps_db_deref|]. intros d. apply keeps_db_ret.
    + apply keeps_db_ret.
  - intros unpacked. apply keeps_db_bind; [apply keeps_db_convert_in_place|].
    intros value1. apply keeps_db_bind.
    { destruct (jsonschema_validate _ _); [apply keeps_db_ret | apply keeps_db_raise]. }
    intros _. apply keeps_db_bind; [apply keeps_db_lift|]. intros _.
    apply keeps_db_bind; [apply keeps_db_convert_in_place|]. intros value2.
    apply keeps_db_ret.
Qed.

Lemma keeps_db_mapM {A B} (f : A -> M store B) (l : list A) :
  (forall x, keeps_db (f x)) -> keeps_db (mapM store f l).
Proof.
  intros Hf. induction l as [|x l IH]; cbn [mapM]; [apply keeps_db_ret|].
  apply keeps_db_bind; [apply Hf|]. intros y.
  apply keeps_db_bind; [exact IH|]. intros ys. apply keeps_db_ret.
Qed.

Lemma mapM_length {A B} (f : A -> M store B) (l : list A) (s s' : state store)
    (ys : list B) :
  mapM store f l s = (Ok ys, s') -> length ys = length l.
Proof.
  revert s s' ys. induction l as [|x l IH]; intros s s' ys; cbn [mapM].
  - unfold ret. intros H. now injection H as <- _.
  - unfold bind at 1. destruct (f x s) as [[y|e] s1]; [|discriminate].
    unfold bind at 1. destruct (mapM store f l s1) as [[zs|e] s2] eqn:Hl;
      [|discriminate].
    unfold ret. intros H. injection H as <- _. cbn [length].
    now rewrite (IH _ _ _ Hl).
Qed.

(** X9. [Collection.save] reaches the storage engine once or not at all:
    when it returns, the engine has seen one insert of one row per
    document handed in, with the keyword arguments, and the result is
    the engine's; when it raises, either nothing was written, or the
    rows were written and the exception is that of a [post_save]
    receiver. *)
Theorem save_is_one_insert (self : collection) (docs : list save_arg)
    (conflict : option string) (s : state store) :
  match Collection_save store table_insert jsonschema_validate pre_save post_save
          self docs conflict s with
  | (Ok r, s') =>
      exists values,
        length values = length docs /\
        table_insert (name self) values conflict (db store s) = (r, db store s')
  | (Raise e, s') =>
      db store s' = db store s \/
      exists values r,
        length values = length docs /\
        table_insert (name self) values conflict (db store s) = (r, db store s') /\
        post_save r = Raise e
  end.
Proof.
  unfold Collection_save. unfold bind at 1, lift at 1.
  destruct pre_save as [[]|e]; [|now left].
  unfold bind at 1.
  pose proof (keeps_db_mapM (Collection_save_one store jsonschema_validate self)
                docs (keeps_db_save_one self) s) as Hdb.
  destruct (mapM store (Collection_save_one store jsonschema_validate self) docs s)
    as [[values|e] s1] eqn:Hmap; cbn [snd] in Hdb; [|now left].
  pose proof (mapM_length _ _ _ _ _ Hmap) as Hlen.
  unfold bind at 1, insert. rewrite Hdb.
  destruct (table_insert (name self) values conflict (db store s)) as [r st] eqn:Hins.
  cbn [fst snd]. unfold bind, lift, ret.
  destruct (post_save r) as [[]|e] eqn:Hpost.
  - exists values. now split.
  - right. exists values, r. now repeat split.
Qed.

(** X10. [Document.save] hands the document's own dict to
    [Collection.save], which converts it where it is: after a save
    that the schema check rejects, the document holds the wire shape
    of its properties and nothing is written; after a save that
    succeeds, it holds the storage shape, which is the row
    inserted. *)
Theorem document_save_converts_in_place (s : state store) (a : addr)
    (d : document) (items : list (string * ValueHandler)) (o1 o2 : dict)
    (conflict : option string) :
  heap store s !! a = Some d ->
  specials (doc_collection d) = Some items ->
  pre_save = Ok tt ->
  (forall v, post_save v = Ok tt) ->
  apply_specials to_json_repr items (obj d) = (o1, None) ->
  validator (doc_collection d) o1 = Ok tt ->
  apply_specials to_rql_repr items o1 = (o2, None) ->
  let out := Document_save store table_insert jsonschema_validate pre_save
               post_save a conflict s in
  if jsonschema_validate o1 (coll_schema (doc_collection d))
  then fst out = Ok (fst (table_insert (name (doc_collection d)) [o2] conflict
                            (db store s))) /\
       db store (snd out) = snd (table_insert (name (doc_collection d)) [o2] conflict
                                   (db store s)) /\
       heap store (snd out) !! a = Some (with_obj o2 d)
  else fst out = Raise JsonSchemaValidationError /\
       db store (snd out) = db store s /\
       heap store (snd out) !! a = Some (with_obj o1 d).
Proof.
  intros Hd Hitems Hpre Hpost Hwire Hval Hrql out.
  destruct (jsonschema_validate o1 (coll_schema (doc_collection d))) eqn:Hvalid.
  - assert (Hout : out =
      (Ok (fst (table_insert (name (doc_collection d)) [o2] conflict (db store s))),
       {| heap := alter (with_obj o2) a (alter (with_obj o1) a (heap store s));
          db := snd (table_insert (name (doc_collection d)) [o2] conflict
                       (db store s)) |})).
    { subst out.
      unfold Document_save, Collection_save, Collection_save_one, convert_in_place.
      rewrite Hpre. cbn [mapM].
      unfold bind, deref, modify, ret, raise, lift, insert.
      rewrite Hd. cbn [fst snd]. rewrite Hd. cbn [fst snd].
      rewrite Hitems, Hwire. cbn [fst snd heap db].
      rewrite Hvalid, Hval, Hrql. cbn [fst snd heap db]. now rewrite Hpost. }
    rewrite Hout. cbn [fst snd heap db]. repeat split.
    rewrite !lookup_alter. repeat case_decide; try congruence. now rewrite Hd.
  - assert (Hout : out =
      (Raise JsonSchemaValidationError,
       {| heap := alter (with_obj o1) a (heap store s); db := db store s |})).
    { subst out.
      unfold Document_save, Collection_save, Collection_save_one, convert_in_place.
      rewrite Hpre. cbn [mapM].
      unfold bind, deref, modify, ret, raise, lift, insert.
      rewrite Hd. cbn [fst snd]. rewrite Hd. cbn [fst snd].
      rewrite Hitems, Hwire. cbn [fst snd heap db]. now rewrite Hvalid. }
    rewrite Hout. cbn [fst snd heap db]. repeat split.
    rewrite lookup_alter. case_decide; try congruence. now rewrite Hd.
Qed.
End Store.
Lemma document_save_converts_in_place_witness :
  let out := Document_save Examples.row_store Examples.rows_insert
               (fun _ _ => false) (Ok tt) (fun _ => Ok tt) 1%nat None
               Examples.lone_event in
  fst out = Raise JsonSchemaValidationError /\
  db _ (snd out) = db _ Examples.lone_event /\
  heap _ (snd out) !! 1%nat =
    Some (with_obj [("id", VStr "e1"); ("when", VStr "1970-01-01T00:00:00+00:00")]
            (Examples.event false [("id", VStr "e1"); ("when", VInt 0)])).
Proof.
  exact (document_save_converts_in_place Examples.row_store Examples.rows_insert
           (fun _ _ => false) (Ok tt) (fun _ => Ok tt) Examples.lone_event 1%nat
           (Examples.event false [("id", VStr "e1"); ("when", VInt 0)])
           [("when", Examples.stamp)]
           [("id", VStr "e1"); ("when", VStr "1970-01-01T00:00:00+00:00")]
           [("id", VStr "e1");
            ("when", VDict [("$reql_type$", VStr "TIME");
                            ("iso8601", VStr "1970-01-01T00:00:00+00:00")])]
           None eq_refl eq_refl eq_refl (fun _ => eq_refl) eq_refl eq_refl eq_refl).
Defined.

End SaveExtras.

(** ** Documents, continued *)

Module DocumentExtras.
Import Dict DictFacts Pkg Stated.

Lemma run_processors_none (ps : list DocumentProcessor) (key : string) (o : dict) :
  (forall p, In p ps -> is_necessary p key = false) ->
  run_processors ps key o = (o, None).
Proof.
  induction ps as [|p ps IH]; intros H; cbn [run_processors]; [reflexivity|].
  rewrite (H p (or_introl eq_refl)). apply IH. intros q Hq. apply H. now right.
Qed.

Lemma prefix_refl (x : string) : String.prefix x x = true.
Proof.
  induction x as [|c x IH]; cbn [String.prefix]; [reflexivity|].
  now destruct (ascii_dec c c).
Qed.

Lemma append_assoc (x y z : string) : ((x ++ y) ++ z = x ++ y ++ z)%string.
Proof.
  induction x as [|c x IH]; [reflexivity|].
  change (String c ((x ++ y) ++ z) = String c (x ++ y ++ z))%string.
  now rewrite IH.
Qed.

Lemma contains_refl (x : string) : contains x x = true.
Proof. destruct x; cbn [contains]; now rewrite prefix_refl. Qed.

(** X11. [Document.name] is never a false value: an unsaved document, and
    a saved one whose id is a false value such as the empty string or
    0, read as ["<unsaved>"]. *)
Theorem name_is_never_false (self : document) :
  (forall v, Document_name self = Ok v -> truthy v = true) /\
  (forall i, Document_id self = Ok i -> truthy i = false ->
             Document_name self = Ok (VStr "<unsaved>")).
Proof.
  unfold Document_name. split.
  - intros v. destruct (Document_id self) as [i|e]; cbn [rbind]; [|discriminate].
    destruct (truthy i) eqn:Hi; intros H; injection H as <-; [exact Hi | reflexivity].
  - intros i -> Hi. cbn [rbind]. now rewrite Hi.
Qed.

Section Store.
Variable store : Type.
Variable table_insert : string -> list dict -> option string -> store -> value * store.
Variable table_count : string -> store -> nat.
Variable jsonschema_validate : dict -> dict -> bool.
Variable pre_save : result unit.
Variable post_save : value -> result unit.

Let setitem := Document__setitem__ store table_insert table_count
                 jsonschema_validate pre_save post_save.

(** The assignment of a value that is no Document and no container:
    the outcome of the processors, and the state it leaves. *)
Lemma setitem_scalar (s : state store) (a : addr) (d : document) (key : string)
    (v : value) :
  heap store s !! a = Some d ->
  scalar v = true ->
  setitem a key v s =
    (match snd (run_processors (processors d) key (set key v (obj d))) with
     | None => Ok tt
     | Some e => Raise e
     end,
     {| heap := <[a := with_obj (fst (run_processors (processors d) key
                                        (set key v (obj d)))) d]> (heap store s);
        db := db store s |}).
Proof.
  intros Hd Hv. unfold setitem, Document__setitem__.
  assert (Href : _reference store table_insert table_count jsonschema_validate
                   pre_save post_save v = ret store v)
    by (destruct v; try discriminate; reflexivity).
  rewrite Href.
  assert (Hmap : (match v with
                  | VList _ | VDict _ =>
                      mapjson store (_reference store table_insert table_count
                                       jsonschema_validate pre_save post_save) v
                  | _ => ret store v
                  end) = ret store v)
    by (destruct v; try discriminate; reflexivity).
  unfold bind at 1. unfold ret at 1. unfold bind at 1. rewrite Hmap. unfold ret at 1.
  unfold bind, deref, modify, ret, raise. rewrite Hd. cbn [fst snd heap db].
  rewrite lookup_alter. case_decide; [|congruence]. rewrite Hd. cbn [fmap option_fmap option_map].
  cbn [processors obj with_obj fst snd heap db].
  set (r := run_processors (processors d) key (set key v (obj d))).
  assert (Hheap : alter (with_obj (fst r)) a
                    (alter (with_obj (set key v (obj d))) a (heap store s))
                  = <[a := with_obj (fst r) d]> (heap store s)).
  { apply map_eq. intros b. destruct (decide (b = a)) as [->|Hb].
    - rewrite lookup_insert_eq, !lookup_alter. repeat case_decide; try congruence.
      now rewrite Hd.
    - rewrite lookup_insert_ne by congruence. rewrite !lookup_alter.
      repeat case_decide; congruence. }
  rewrite Hheap. now destruct (snd r).
Qed.

(** X12. Assigning a plain value to a property and reading the property
    back gives the value, when no processor of the document's class
    asks to run for the key: the assignment returns, writes nothing
    to the store, and leaves every other property, the defaults and
    the saved flag as they were. *)
Theorem setitem_then_getitem (s : state store) (a : addr) (d : document)
    (key : string) (v : value) :
  heap store s !! a = Some d ->
  scalar v = true ->
  (forall p, In p (processors d) -> is_necessary p key = false) ->
  let out := setitem a key v s in
  fst out = Ok tt /\
  db store (snd out) = db store s /\
  exists d',
    heap store (snd out) !! a = Some d' /\
    Document__getitem__ d' key = Ok v /\
    (forall k, k <> key -> Document__getitem__ d' k = Document__getitem__ d k) /\
    _saved d' = _saved d.
Proof.
  intros Hd Hv Hps out. subst out. rewrite (setitem_scalar s a d key v Hd Hv).
  rewrite (run_processors_none _ _ _ Hps). cbn [fst snd heap db].
  split; [reflexivity|]. split; [reflexivity|].
  exists (with_obj (set key v (obj d)) d). rewrite lookup_insert_eq.
  split; [reflexivity|]. split; [|split; [|reflexivity]].
  - unfold Document__getitem__, getitem. cbn [obj with_obj].
    unfold mem. now rewrite get_set_eq.
  - intros k Hk. unfold Document__getitem__, getitem, mem.
    cbn [obj with_obj doc_class_of]. rewrite get_set_ne by congruence. reflexivity.
Qed.

(** X30. Assigning a Document that has a true id and a cached URL to
    a property stores the URL, a string, under the property, not the
    Document: nothing is written to the store, the child and every
    other object are as they were, and the parent differs in that
    one property only (when no processor of its class asks to run
    for the key). *)
Theorem saved_child_is_stored_as_url (s : state store) (parent child : addr)
    (dp dc : document) (key u : string) (i : value) :
  heap store s !! parent = Some dp ->
  heap store s !! child = Some dc ->
  Document_id dc = Ok i ->
  truthy i = true ->
  _url dc = Some u ->
  u <> "" ->
  (forall p, In p (processors dp) -> is_necessary p key = false) ->
  let out := setitem parent key (VDoc child) s in
  fst out = Ok tt /\
  db store (snd out) = db store s /\
  heap store (snd out) !! parent = Some (with_obj (set key (VStr u) (obj dp)) dp) /\
  (forall b, b <> parent -> heap store (snd out) !! b = heap store s !! b).
Proof.
  intros Hp Hc Hid Hi Hurl Hu Hps out.
  assert (Hne : String.eqb u "" = false)
    by (destruct (String.eqb_spec u ""); congruence).
  assert (Href : _reference store table_insert table_count jsonschema_validate
                   pre_save post_save (VDoc child) s = (Ok (VStr u), s)).
  { unfold _reference, Document_url, bind, deref, lift, ret. rewrite Hc.
    rewrite Hid, Hi. cbn [negb]. rewrite Hc, Hurl. cbn [truthy]. now rewrite Hne. }
  assert (Hout : out =
    (Ok tt, {| heap := alter (with_obj (set key (VStr u) (obj dp))) parent
                         (alter (with_obj (set key (VStr u) (obj dp))) parent
                            (heap store s));
               db := db store s |})).
  { subst out. unfold setitem, Document__setitem__.
    unfold bind at 1. rewrite Href.
    unfold bind, deref, modify, ret, raise. rewrite Hp. cbn [fst snd heap db].
    rewrite lookup_alter. case_decide; [|congruence]. rewrite Hp.
    cbn [fmap option_fmap option_map processors obj with_obj].
    rewrite (run_processors_none _ _ _ Hps). reflexivity. }
  rewrite Hout. cbn [fst snd heap db]. repeat split.
  - rewrite !lookup_alter. repeat case_decide; try congruence. now rewrite Hp.
  - intros b Hb. rewrite !lookup_alter. repeat case_decide; congruence.
Qed.

Section Slug.
Variable slugify : value -> result value.

(** X13. With the slug processor on its class, a document whose source
    property is assigned a plain value holds the slug of that value in
    the destination property when the assignment returns. *)
Theorem slug_follows_source (s : state store) (a : addr) (d : document)
    (source_prop dest_prop : string) (v sl : value) :
  heap store s !! a = Some d ->
  processors d = [SlugPropertyProcessor slugify source_prop dest_prop] ->
  scalar v = true ->
  slugify v = Ok sl ->
  let out := setitem a source_prop v s in
  fst out = Ok tt /\
  exists d',
    heap store (snd out) !! a = Some d' /\
    Document__getitem__ d' dest_prop = Ok sl /\
    (source_prop <> dest_prop -> Document__getitem__ d' source_prop = Ok v).
Proof.
  intros Hd Hps Hv Hsl out. subst out. rewrite (setitem_scalar s a d _ v Hd Hv).
  rewrite Hps. cbn [run_processors SlugPropertyProcessor is_necessary run].
  rewrite contains_refl. unfold getitem. rewrite get_set_eq. cbn [rbind].
  rewrite Hsl. cbn [rbind run_processors fst snd heap db].
  split; [reflexivity|]. eexists. rewrite lookup_insert_eq.
  split; [reflexivity|]. split.
  - unfold Document__getitem__, getitem, mem. cbn [obj with_obj].
    now rewrite get_set_eq.
  - intros Hne. unfold Document__getitem__, getitem, mem. cbn [obj with_obj].
    rewrite get_set_ne by congruence. now rewrite get_set_eq.
Qed.

(** X14. The slug processor asks to run for every key that contains the
    name of its source property, not only for that name: assigning
    such a key to a document that has no source property yet raises
    [KeyError] for the source property, with the key assigned by
    then. *)
Theorem slug_runs_on_containing_keys (s : state store) (a : addr) (d : document)
    (source_prop dest_prop key : string) (v : value) :
  heap store s !! a = Some d ->
  processors d = [SlugPropertyProcessor slugify source_prop dest_prop] ->
  scalar v = true ->
  contains source_prop key = true ->
  key <> source_prop ->
  mem source_prop (obj d) = false ->
  let out := setitem a key v s in
  fst out = Raise (KeyError (VStr source_prop)) /\
  exists d',
    heap store (snd out) !! a = Some d' /\
    Document__getitem__ d' key = Ok v.
Proof.
  intros Hd Hps Hv Hin Hne Hmem out. subst out.
  rewrite (setitem_scalar s a d _ v Hd Hv).
  rewrite Hps. cbn [run_processors SlugPropertyProcessor is_necessary run].
  rewrite Hin. unfold getitem. rewrite get_set_ne by congruence.
  unfold mem in Hmem. destruct (get source_prop (obj d)); [discriminate|].
  cbn [rbind fst snd heap db]. split; [reflexivity|].
  eexists. rewrite lookup_insert_eq. split; [reflexivity|].
  unfold Document__getitem__, getitem, mem. cbn [obj with_obj].
  now rewrite get_set_eq.
Qed.
End Slug.

(** X15. A document that has no cached URL reads its URL from its id and
    from the truth value of its collection, which is that of the row
    count of the table. Unsaved, the URL is [None] beside an empty
    table and a [TypeError] beside any other; saved under a string
    id, it is the bare id beside an empty table and the id under the
    collection's URL beside any other. In no case is the state
    changed. *)
Theorem url_depends_on_row_count (s : state store) (a : addr) (d : document) :
  heap store s !! a = Some d ->
  _url d = None ->
  (_saved d = false ->
   Document_url store table_count a s =
     (if Nat.eqb (table_count (name (doc_collection d)) (db store s)) 0
      then Ok VNone else Raise TypeError, s)) /\
  (forall i, _saved d = true ->
             lookup_pk (primary_key (doc_collection d)) (obj d) = Ok (VStr i) ->
   Document_url store table_count a s =
     (if Nat.eqb (table_count (name (doc_collection d)) (db store s)) 0
      then Ok (VStr i)
      else Ok (VStr (url (doc_collection d) ++ "/" ++ i)), s)).
Proof.
  intros Hd Hurl. split.
  - intros Hsaved. unfold Document_url, bind, deref, collection_truthy, lift, ret.
    rewrite Hd, Hurl. cbn [fst snd]. unfold Document_slug, Document_id.
    rewrite Hsaved.
    now destruct (Nat.eqb (table_count (name (doc_collection d)) (db store s)) 0).
  - intros i Hsaved Hpk.
    unfold Document_url, bind, deref, collection_truthy, lift, ret.
    rewrite Hd, Hurl. cbn [fst snd]. unfold Document_slug, Document_id.
    rewrite Hsaved, Hpk.
    destruct (Nat.eqb (table_count (name (doc_collection d)) (db store s)) 0);
      cbn [negb str_add]; [reflexivity|].
    do 3 f_equal. apply append_assoc.
Qed.
End Store.
Lemma setitem_then_getitem_witness :
  let out := Examples.setitem_with true 1%nat "color" (VStr "blue")
               Examples.lone_unsaved in
  fst out = Ok tt /\
  db _ (snd out) = db _ Examples.lone_unsaved /\
  exists d',
    heap _ (snd out) !! 1%nat = Some d' /\
    Document__getitem__ d' "color" = Ok (VStr "blue") /\
    (forall k, k <> "color" ->
       Document__getitem__ d' k =
       Document__getitem__
         (Examples.widget false [("id", VStr "w1"); ("name", VInt 5)]) k) /\
    _saved d' = false.
Proof.
  exact (setitem_then_getitem Examples.row_store Examples.rows_insert
           Examples.rows_count (fun _ _ => true) (Ok tt) (fun _ => Ok tt)
           Examples.lone_unsaved 1%nat
           (Examples.widget false [("id", VStr "w1"); ("name", VInt 5)])
           "color" (VStr "blue") eq_refl eq_refl
           (fun p (H : In p []) => match H with end)).
Defined.

Lemma slug_follows_source_witness :
  let out := Examples.setitem_with true 1%nat "name" (VStr "Blue Car")
               Examples.lone_named in
  fst out = Ok tt /\
  exists d',
    heap _ (snd out) !! 1%nat = Some d' /\
    Document__getitem__ d' "slug" = Ok (VStr "blue car") /\
    ("name" <> "slug" -> Document__getitem__ d' "name" = Ok (VStr "Blue Car")).
Proof.
  exact (slug_follows_source Examples.row_store Examples.rows_insert
           Examples.rows_count (fun _ _ => true) (Ok tt) (fun _ => Ok tt)
           Examples.slug_of Examples.lone_named 1%nat
           (Examples.named [("id", VStr "n1")]) "name" "slug"
           (VStr "Blue Car") (VStr "blue car") eq_refl eq_refl eq_refl eq_refl).
Defined.

Lemma slug_runs_on_containing_keys_witness :
  let out := Examples.setitem_with true 1%nat "surname" (VStr "Doe")
               Examples.lone_named in
  fst out = Raise (KeyError (VStr "name")) /\
  exists d',
    heap _ (snd out) !! 1%nat = Some d' /\
    Document__getitem__ d' "surname" = Ok (VStr "Doe").
Proof.
  exact (slug_runs_on_containing_keys Examples.row_store Examples.rows_insert
           Examples.rows_count (fun _ _ => true) (Ok tt) (fun _ => Ok tt)
           Examples.slug_of Examples.lone_named 1%nat
           (Examples.named [("id", VStr "n1")]) "name" "slug" "surname"
           (VStr "Doe") eq_refl eq_refl eq_refl eq_refl
           ltac:(discriminate) eq_refl).
Defined.

Lemma url_depends_on_row_count_witness :
  Document_url Examples.row_store Examples.rows_count 1%nat Examples.stocked_unsaved
  = (Raise TypeError, Examples.stocked_unsaved) /\
  Document_url Examples.row_store Examples.rows_count 1%nat Examples.lone_unsaved
  = (Ok VNone, Examples.lone_unsaved).
Proof.
  split.
  - exact (proj1 (url_depends_on_row_count Examples.row_store Examples.rows_count
                    Examples.stocked_unsaved 1%nat
                    (Examples.widget false [("id", VStr "w1")]) eq_refl eq_refl)
             eq_refl).
  - exact (proj1 (url_depends_on_row_count Examples.row_store Examples.rows_count
                    Examples.lone_unsaved 1%nat
                    (Examples.widget false [("id", VStr "w1"); ("name", VInt 5)])
                    eq_refl eq_refl)
             eq_refl).
Defined.

Lemma saved_child_is_stored_as_url_witness :
  let out := Examples.setitem_with true 2%nat "child" (VDoc 1%nat)
               Examples.family_with_saved_child in
  fst out = Ok tt /\
  db _ (snd out) = db _ Examples.family_with_saved_child /\
  heap _ (snd out) !! 2%nat =
    Some (with_obj [("id", VStr "p1");
                    ("child", VStr "http://localhost:8000/shop/widgets/c1")]
            (Examples.widget false [("id", VStr "p1")])) /\
  (forall b, b <> 2%nat ->
             heap _ (snd out) !! b = heap _ Examples.family_with_saved_child !! b).
Proof.
  exact (saved_child_is_stored_as_url Examples.row_store Examples.rows_insert
           Examples.rows_count (fun _ _ => true) (Ok tt) (fun _ => Ok tt)
           Examples.family_with_saved_child 2%nat 1%nat
           (Examples.widget false [("id", VStr "p1")]) Examples.saved_child
           "child" "http://localhost:8000/shop/widgets/c1" (VStr "c1")
           eq_refl eq_refl eq_refl eq_refl eq_refl ltac:(discriminate)
           (fun p (H : In p []) => match H with end)).
Defined.

End DocumentExtras.

(** ** Construction, deletion and rendering of documents *)

Module LifecycleExtras.
Import Dict DictFacts Pkg Stated RuntimeFacts.

Lemma le_fold_max (k : nat) (l : list nat) :
  In k l -> (k <= fold_right Nat.max 0 l)%nat.
Proof.
  induction l as [|x l IH]; cbn [In fold_right]; [tauto|].
  intros [->|H]; [lia|]. specialize (IH H). lia.
Qed.

Lemma fresh_unused {store : Type} (s : state store) :
  heap store s !! fresh store s = None.
Proof.
  destruct (heap store s !! fresh store s) as [d|] eqn:Hd; [|reflexivity].
  apply elem_of_map_to_list in Hd. apply list_elem_of_In in Hd.
  apply (in_map fst) in Hd. apply le_fold_max in Hd.
  unfold fresh in Hd at 1. cbn [fst] in Hd. unfold fresh in Hd. lia.
Qed.

Section Construction.
Variable store : Type.
Variable table_insert : string -> list dict -> option string -> store -> value * store.
Variable table_count : string -> store -> nat.
Variable jsonschema_validate : dict -> dict -> bool.
Variable pre_save : result unit.
Variable post_save : value -> result unit.

Let init := Document__init__ store table_insert table_count jsonschema_validate
              pre_save post_save.

(** X16. The constructor gives the new document an identity no object
    has, and flags it saved exactly when [from_db] says so; whatever
    the properties handed in, also Documents that it saves on the
    way, and whether it returns or raises, it leaves the saved flag
    of every other object as it was. *)
Theorem init_flags (cls : doc_class) (procs : list DocumentProcessor)
    (obj0 : dict) (coll : collection) (from_db : bool) (s : state store) :
  let out := init cls procs obj0 coll from_db s in
  heap store s !! fresh store s = None /\
  (forall a, fst out = Ok a -> a = fresh store s) /\
  saved_flag (snd out) (fresh store s) = Some from_db /\
  (forall b, b <> fresh store s -> saved_flag (snd out) b = saved_flag s b).
Proof.
  intros out. split; [apply fresh_unused|].
  set (d0 := {| doc_class_of := cls; processors := procs; doc_collection := coll;
                _saved := from_db; _url := None; _referenced := true; obj := [] |}).
  set (s1 := {| heap := <[fresh store s := d0]> (heap store s); db := db store s |}).
  set (loop := fix assign (items : list (string * value)) : M store unit :=
         match items with
         | [] => ret store tt
         | (k, v) :: rest =>
             bind store
               (Document__setitem__ store table_insert table_count
                  jsonschema_validate pre_save post_save (fresh store s) k v)
               (fun _ => assign rest)
         end).
  set (link := if pk_in (primary_key coll) obj0
               then
                 bind store (lift store (lookup_pk (primary_key coll) obj0)) (fun k =>
                 bind store (_reference store table_insert table_count
                               jsonschema_validate pre_save post_save k) (fun r =>
                 bind store (lift store (slash_join (url coll) r)) (fun u =>
                 modify store (fresh store s) (with_url (Some u)))))
               else ret store tt).
  set (body := bind store link (fun _ => bind store (loop obj0)
                                  (fun _ => ret store (fresh store s)))).
  assert (Hout : out = body s1) by reflexivity.
  assert (Hloop : forall items, keeps_flags (fun _ => True) (loop items)).
  { induction items as [|[k v] rest IH]; cbn [loop]; [apply keeps_ret|].
    apply keeps_bind; [apply keeps_setitem|]. intros _. exact IH. }
  assert (Hkeeps : keeps_flags (fun _ => True) body).
  { unfold body. apply keeps_bind.
    - unfold link. destruct (pk_in (primary_key coll) obj0); [|apply keeps_ret].
      apply keeps_bind; [apply keeps_lift|]. intros k.
      apply keeps_bind; [apply keeps_reference|]. intros r.
      apply keeps_bind; [apply keeps_lift|]. intros u.
      now apply keeps_modify.
    - intros _. apply keeps_bind; [apply Hloop | intros _; apply keeps_ret]. }
  rewrite Hout. split; [|split].
  - intros a. unfold body, bind.
    destruct (link s1) as [[[]|e] s2]; [|discriminate].
    destruct (loop obj0 s2) as [[[]|e] s3]; [|discriminate].
    unfold ret. cbn [fst]. congruence.
  - rewrite (Hkeeps s1 (fresh store s) I). unfold saved_flag, s1. cbn [heap].
    now rewrite lookup_insert_eq.
  - intros b Hb. rewrite (Hkeeps s1 b I). unfold saved_flag, s1. cbn [heap].
    now rewrite lookup_insert_ne by congruence.
Qed.

(** X17. The constructor joins the collection's URL and the primary key
    of the properties handed in as text: a document whose primary key
    holds a number, a truth value or [None] cannot be built, the
    constructor raises [TypeError]. *)
Theorem init_needs_string_key (cls : doc_class) (procs : list DocumentProcessor)
    (obj0 : dict) (coll : collection) (from_db : bool) (s : state store)
    (k : string) (v : value) :
  primary_key coll = Some k ->
  get k obj0 = Some v ->
  scalar v = true ->
  (forall x, v <> VStr x) ->
  fst (init cls procs obj0 coll from_db s) = Raise TypeError.
Proof.
  intros Hpk Hget Hv Hstr.
  assert (Hin : pk_in (primary_key coll) obj0 = true)
    by (unfold pk_in, mem; now rewrite Hpk, Hget).
  assert (Hlk : lookup_pk (primary_key coll) obj0 = Ok v)
    by (unfold lookup_pk, getitem; now rewrite Hpk, Hget).
  assert (Href : _reference store table_insert table_count jsonschema_validate
                   pre_save post_save v = ret store v)
    by (destruct v; try discriminate; reflexivity).
  assert (Hjoin : slash_join (url coll) v = Raise TypeError).
  { destruct v; try discriminate; try reflexivity. now destruct (Hstr s0). }
  unfold init, Document__init__, bind, alloc, lift. cbv beta iota zeta.
  rewrite Hin, Hlk. cbv beta iota zeta. rewrite Href. unfold ret.
  cbv beta iota zeta. now rewrite Hjoin.
Qed.
End Construction.

Lemma init_needs_string_key_witness :
  fst (Examples.new_document true [("id", VInt 7); ("name", VStr "kid")]
         Examples.widgets false Examples.empty_state) = Raise TypeError.
Proof.
  exact (init_needs_string_key Examples.row_store Examples.rows_insert
           Examples.rows_count (fun _ _ => true) (Ok tt) (fun _ => Ok tt)
           Examples.widget_class [] [("id", VInt 7); ("name", VStr "kid")]
           Examples.widgets false Examples.empty_state "id" (VInt 7)
           eq_refl eq_refl eq_refl ltac:(discriminate)).
Defined.

Lemma set_absent {A} (k : string) (v : A) (d : list (string * A)) :
  mem k d = false -> set k v d = (d ++ [(k, v)])%list.
Proof.
  unfold mem. induction d as [|[k0 v0] d IH]; cbn [get set app]; [reflexivity|].
  destruct (String.eqb k k0); [discriminate|]. intros H. now rewrite (IH H).
Qed.

Lemma update_fresh (items acc : dict) :
  List.NoDup (keys acc ++ keys items) -> Dict.update acc items = (acc ++ items)%list.
Proof.
  revert acc. induction items as [|[k v] rest IH]; intros acc Hnd.
  - cbn. now rewrite app_nil_r.
  - unfold Dict.update. cbn [fold_left fst snd]. fold (Dict.update (set k v acc) rest).
    assert (Hk : mem k acc = false).
    { destruct (mem k acc) eqn:Hm; [|reflexivity].
      apply mem_In_keys in Hm. cbn [keys map fst] in Hnd.
      apply NoDup_remove_2 in Hnd. destruct Hnd. apply in_or_app. now left. }
    rewrite (set_absent k v acc Hk). rewrite IH.
    + now rewrite <- app_assoc.
    + unfold keys in *. rewrite map_app, <- app_assoc. exact Hnd.
Qed.

Lemma append_not_empty (x y : string) (c : ascii) :
  String.eqb (x ++ String c y) "" = false.
Proof. now destruct x. Qed.

Section Plain.
Variable store : Type.
Variable table_insert : string -> list dict -> option string -> store -> value * store.
Variable table_count : string -> store -> nat.
Variable jsonschema_validate : dict -> dict -> bool.
Variable pre_save : result unit.
Variable post_save : value -> result unit.

Lemma assign_scalars (a : addr) (items : dict) :
  forall (s : state store) (d : document),
    heap store s !! a = Some d ->
    processors d = [] ->
    Forall (fun kv => scalar (snd kv) = true) items ->
    (fix assign (items : list (string * value)) : M store unit :=
       match items with
       | [] => ret store tt
       | (k, v) :: rest =>
           bind store
             (Document__setitem__ store table_insert table_count
                jsonschema_validate pre_save post_save a k v)
             (fun _ => assign rest)
       end) items s
    = (Ok tt, {| heap := <[a := with_obj (Dict.update (obj d) items) d]> (heap store s);
                 db := db store s |}).
Proof.
  induction items as [|[k v] rest IH]; intros s d Hd Hps Hsc.
  - unfold ret. f_equal. destruct s as [h st]. cbn [heap db] in *. f_equal.
    replace (with_obj (Dict.update (obj d) []) d) with d by now destruct d.
    symmetry. now apply insert_id.
  - apply Forall_cons_iff in Hsc as [Hv Hrest]. cbn [snd] in Hv.
    unfold bind at 1.
    rewrite (DocumentExtras.setitem_scalar store table_insert table_count
               jsonschema_validate pre_save post_save s a d k v Hd Hv).
    rewrite Hps. cbn [run_processors fst snd].
    rewrite (IH _ (with_obj (set k v (obj d)) d)).
    + cbn [heap db]. rewrite insert_insert_eq. reflexivity.
    + cbn [heap]. apply lookup_insert_eq.
    + exact Hps.
    + exact Hrest.
Qed.

(** The outcome of the constructor on plain properties with a text
    primary key, for a class without processors. *)
Lemma init_plain_state (cls : doc_class) (obj0 : dict)
    (coll : collection) (from_db : bool) (s : state store) (k i : string) :
  primary_key coll = Some k ->
  get k obj0 = Some (VStr i) ->
  wf obj0 ->
  Forall (fun kv => scalar (snd kv) = true) obj0 ->
  Document__init__ store table_insert table_count jsonschema_validate
    pre_save post_save cls [] obj0 coll from_db s
  = (Ok (fresh store s),
     {| heap := <[fresh store s :=
                    {| doc_class_of := cls; processors := []; doc_collection := coll;
                       _saved := from_db; _url := Some (url coll ++ "/" ++ i);
                       _referenced := true; obj := obj0 |}]> (heap store s);
        db := db store s |}).
Proof.
  intros Hpk Hget Hwf Hsc.
  assert (Hin : pk_in (primary_key coll) obj0 = true)
    by (unfold pk_in, mem; now rewrite Hpk, Hget).
  assert (Hlk : lookup_pk (primary_key coll) obj0 = Ok (VStr i))
    by (unfold lookup_pk, getitem; now rewrite Hpk, Hget).
  set (d1 := {| doc_class_of := cls; processors := []; doc_collection := coll;
                _saved := from_db; _url := Some (url coll ++ "/" ++ i);
                _referenced := true; obj := [] |}).
  unfold Document__init__. unfold bind at 1, alloc at 1.
  cbv beta iota zeta. rewrite Hin, Hlk.
  unfold bind at 1. unfold bind at 1. unfold bind at 1, lift at 1.
  unfold bind at 1. cbn [_reference]. unfold ret at 1.
  unfold bind at 1, lift at 1. cbn [slash_join]. unfold modify at 1.
  cbv beta iota zeta. cbn [heap db].
  assert (Hh : alter (with_url (Some (url coll ++ "/" ++ i))) (fresh store s)
                 (<[fresh store s :=
                      {| doc_class_of := cls; processors := [];
                         doc_collection := coll; _saved := from_db; _url := None;
                         _referenced := true; obj := [] |}]> (heap store s))
               = <[fresh store s := d1]> (heap store s)).
  { apply map_eq. intros b. destruct (decide (b = fresh store s)) as [->|Hb].
    - rewrite lookup_alter. case_decide; [|congruence].
      now rewrite !lookup_insert_eq.
    - rewrite lookup_alter. case_decide; [congruence|].
      now rewrite !lookup_insert_ne by congruence. }
  rewrite Hh. unfold bind at 1.
  rewrite (assign_scalars (fresh store s) obj0 _ d1);
    [|cbn [heap]; apply lookup_insert_eq | reflexivity | exact Hsc].
  cbn [heap db obj d1]. rewrite insert_insert_eq.
  unfold ret. rewrite (update_fresh obj0 []) by exact Hwf. reflexivity.
Qed.

(** X18. Built from plain properties that include a text primary key, by
    a class without processors, a document holds exactly the
    properties handed in, in their order; it is flagged saved as
    [from_db] says, nothing is written to the store, and its URL is
    the collection's URL, a slash and the key, whatever the table
    holds. *)
Theorem init_from_plain_properties (cls : doc_class) (obj0 : dict)
    (coll : collection) (from_db : bool) (s : state store) (k i : string) :
  primary_key coll = Some k ->
  get k obj0 = Some (VStr i) ->
  wf obj0 ->
  Forall (fun kv => scalar (snd kv) = true) obj0 ->
  let out := Document__init__ store table_insert table_count jsonschema_validate
               pre_save post_save cls [] obj0 coll from_db s in
  fst out = Ok (fresh store s) /\
  db store (snd out) = db store s /\
  heap store (snd out) =
    <[fresh store s :=
        {| doc_class_of := cls; processors := []; doc_collection := coll;
           _saved := from_db; _url := Some (url coll ++ "/" ++ i);
           _referenced := true; obj := obj0 |}]> (heap store s) /\
  Document_url store table_count (fresh store s) (snd out)
  = (Ok (VStr (url coll ++ "/" ++ i)), snd out).
Proof.
  intros Hpk Hget Hwf Hsc out. subst out.
  rewrite (init_plain_state cls obj0 coll from_db s k i Hpk Hget Hwf Hsc).
  cbn [fst snd heap db]. repeat split.
  unfold Document_url, bind, deref. cbn [heap]. rewrite lookup_insert_eq.
  cbn [_url truthy].
  change (url coll ++ "/" ++ i)%string with (url coll ++ String "/" i)%string.
  rewrite append_not_empty. reflexivity.
Qed.

Variable table_get : string -> string -> store -> option dict.

(** X19. Reading a document by a text key, for a document class
    without processors: a key the table has no row for, or an empty
    row for, raises [KeyError] and makes no object. When the
    collection declares [specials], no handler raises, and the
    native shape of the row holds plain values with text under the
    primary key, the row becomes a new document that is flagged
    saved and holds the row in native shape, the keys and their
    order as stored; the store is as it was. *)
Theorem getitem_builds_saved_document (self : collection) (cls : doc_class)
    (key : string) (s : state store) :
  let out := Collection__getitem__ store table_insert table_count
               jsonschema_validate pre_save post_save table_get self cls [] key s in
  match table_get (name self) key (db store s) with
  | None | Some [] =>
      out = (Raise (KeyError (VStr (key ++ " not found in " ++ url self))), s)
  | Some row =>
      forall items native k i,
        specials self = Some items ->
        apply_specials to_python_repr items row = (native, None) ->
        primary_key self = Some k ->
        get k native = Some (VStr i) ->
        wf row ->
        Forall (fun kv => scalar (snd kv) = true) native ->
        keys native = keys row /\
        fst out = Ok (fresh store s) /\
        db store (snd out) = db store s /\
        heap store (snd out) =
          <[fresh store s :=
              {| doc_class_of := cls; processors := []; doc_collection := self;
                 _saved := true; _url := Some (url self ++ "/" ++ i);
                 _referenced := true; obj := native |}]> (heap store s)
  end.
Proof.
  intros out. subst out. unfold Collection__getitem__.
  destruct (table_get (name self) key (db store s)) as [[|kv row]|]; try reflexivity.
  intros items native k i Hitems Hnative Hpk Hget Hwf Hsc.
  destruct (SaveExtras.apply_specials_frame to_python_repr items (kv :: row))
    as [Hkeys _].
  rewrite Hnative in Hkeys. cbn [fst] in Hkeys. split; [exact Hkeys|].
  assert (Hwf' : wf native) by (unfold wf; now rewrite Hkeys).
  pose proof (init_plain_state cls native self true s k i Hpk Hget Hwf' Hsc) as Hinit.
  assert (Hrun :
    bind store (convert_in_place store self to_python_repr None (kv :: row))
      (fun doc' =>
         Document__init__ store table_insert table_count jsonschema_validate
           pre_save post_save cls [] doc' self true) s
    = (Ok (fresh store s),
       {| heap := <[fresh store s :=
                      {| doc_class_of := cls; processors := [];
                         doc_collection := self; _saved := true;
                         _url := Some (url self ++ "/" ++ i);
                         _referenced := true; obj := native |}]> (heap store s);
          db := db store s |})).
  { unfold convert_in_place. rewrite Hitems, Hnative. cbn [fst snd].
    unfold bind at 1 2. unfold ret at 1 2. exact Hinit. }
  rewrite Hrun. cbn [fst snd heap db]. now repeat split.
Qed.
End Plain.

Lemma init_from_plain_properties_witness :
  let out := Examples.new_document true
               [("id", VStr "w1"); ("name", VStr "kid"); ("size", VInt 3)]
               Examples.widgets true Examples.empty_state in
  fst out = Ok 1%nat /\
  db _ (snd out) = [] /\
  heap _ (snd out) =
    <[1%nat :=
        {| doc_class_of := Examples.widget_class; processors := [];
           doc_collection := Examples.widgets; _saved := true;
           _url := Some "http://localhost:8000/shop/widgets/w1";
           _referenced := true;
           obj := [("id", VStr "w1"); ("name", VStr "kid"); ("size", VInt 3)] |}]> ∅ /\
  Document_url Examples.row_store Examples.rows_count 1%nat (snd out)
  = (Ok (VStr "http://localhost:8000/shop/widgets/w1"), snd out).
Proof.
  exact (init_from_plain_properties Examples.row_store Examples.rows_insert
           Examples.rows_count (fun _ _ => true) (Ok tt) (fun _ => Ok tt)
           Examples.widget_class
           [("id", VStr "w1"); ("name", VStr "kid"); ("size", VInt 3)]
           Examples.widgets true Examples.empty_state "id" "w1"
           eq_refl eq_refl
           ltac:(repeat constructor; cbn; intuition discriminate)
           ltac:(repeat constructor)).
Defined.

Lemma getitem_builds_saved_document_witness :
  let out := Collection__getitem__ Examples.row_store Examples.rows_insert
               Examples.rows_count (fun _ _ => true) (Ok tt) (fun _ => Ok tt)
               Examples.rows_get Examples.widgets Examples.widget_class [] "w7"
               Examples.stocked_unsaved in
  keys [("id", VStr "w7")] = keys [("id", VStr "w7")] /\
  fst out = Ok (fresh _ Examples.stocked_unsaved) /\
  db _ (snd out) = db _ Examples.stocked_unsaved /\
  heap _ (snd out) =
    <[fresh _ Examples.stocked_unsaved :=
        {| doc_class_of := Examples.widget_class; processors := [];
           doc_collection := Examples.widgets; _saved := true;
           _url := Some "http://localhost:8000/shop/widgets/w7";
           _referenced := true; obj := [("id", VStr "w7")] |}]>
      (heap _ Examples.stocked_unsaved).
Proof.
  exact (getitem_builds_saved_document Examples.row_store Examples.rows_insert
           Examples.rows_count (fun _ _ => true) (Ok tt) (fun _ => Ok tt)
           Examples.rows_get Examples.widgets Examples.widget_class "w7"
           Examples.stocked_unsaved [] [("id", VStr "w7")] "id" "w7"
           eq_refl eq_refl eq_refl eq_refl
           ltac:(repeat constructor; cbn; intuition discriminate)
           ltac:(repeat constructor)).
Defined.

Section Lifecycle.
Variable store : Type.
Variable table_count : string -> store -> nat.
Variable table_delete : string -> dict -> store -> value * store.
Variable table_get_all_delete : string -> list value -> dict -> store -> value * store.

(** X20. [Document.delete] hands the document's id to [Collection.delete],
    which takes a false value for "no documents given": deleting an
    unsaved document, whose id is [None], or one whose id is the
    empty string or 0, deletes every row of the table. Otherwise the
    rows under the id are deleted. Either way the Document objects
    are as they were, the deleted one still flagged saved. *)
Theorem delete_by_false_id_empties_table (s : state store) (a : addr)
    (d : document) (i : value) (kwargs : dict) :
  heap store s !! a = Some d ->
  Document_id d = Ok i ->
  scalar i = true ->
  Document_delete store table_delete table_get_all_delete a kwargs s =
    let r := if truthy i
             then table_get_all_delete (name (doc_collection d)) [i] kwargs
                    (db store s)
             else table_delete (name (doc_collection d)) kwargs (db store s) in
    (Ok (fst r), {| heap := heap store s; db := snd r |}).
Proof.
  intros Hd Hid Hi. unfold Document_delete, Collection_delete.
  unfold bind at 1, deref at 1. rewrite Hd.
  unfold bind at 1, lift at 1. rewrite Hid.
  assert (Ht : object_truthy store i = ret store (truthy i))
    by (destruct i; try discriminate; reflexivity).
  rewrite Ht. unfold bind at 1, ret at 1.
  destruct (truthy i); cbn [negb]; [|reflexivity].
  assert (Hl : match i with VList l => l | _ => [i] end = [i])
    by (destruct i; try discriminate; reflexivity).
  rewrite Hl. cbn [mapM].
  assert (Hv : (match i with
                | VDoc a0 => bind store (deref store a0)
                               (fun d0 => lift store (Document_id d0))
                | _ => ret store i
                end) = ret store i)
    by (destruct i; try discriminate; reflexivity).
  rewrite Hv. reflexivity.
Qed.

Lemma Document_url_state (a : addr) (s : state store) :
  snd (Document_url store table_count a s) = s.
Proof.
  unfold Document_url, bind, deref, collection_truthy, lift, ret.
  destruct (heap store s !! a) as [d|]; [|reflexivity].
  destruct (match _url d with Some u => truthy (VStr u) | None => false end);
    [reflexivity|]. cbn [fst snd].
  destruct (negb _); [|reflexivity].
  now destruct (Document_slug d).
Qed.

(** X21. [Collection.json] of one Document, for a collection that
    declares [specials], none of them for [_url]: the rendering is a
    copy of the document's properties with [_url], the document's
    URL, set in it, and then converted by the handlers' wire
    conversions; it has the keys of that copy, [_url] holds the URL,
    and the properties without a handler are as in the document.
    When a handler raises, the rendering raises that exception.
    Either way the state is as it was, the document's own properties
    included. *)
Theorem json_of_document_has_url (self : collection) (s : state store) (a : addr)
    (d : document) (items : list (string * ValueHandler)) (u : value) :
  heap store s !! a = Some d ->
  specials self = Some items ->
  ~ In "_url" (map fst items) ->
  fst (Document_url store table_count a s) = Ok u ->
  let r := apply_specials to_json_repr items (set "_url" u (obj d)) in
  Collection_json store table_count self [ADoc a] true s
  = (match snd r with
     | None => Ok (VDict (fst r))
     | Some e => Raise e
     end, s) /\
  get "_url" (fst r) = Some u /\
  keys (fst r) = keys (set "_url" u (obj d)) /\
  (forall k, ~ In k (map fst items) ->
             get k (fst r) = get k (set "_url" u (obj d))).
Proof.
  intros Hd Hitems Hnot Hu r.
  pose proof (Document_url_state a s) as Hst.
  assert (Hurl : Document_url store table_count a s = (Ok u, s)).
  { rewrite (surjective_pairing (Document_url store table_count a s)).
    now rewrite Hu, Hst. }
  destruct (SaveExtras.apply_specials_frame to_json_repr items
              (set "_url" u (obj d))) as [Hkeys Hframe].
  fold r in Hkeys, Hframe. split; [|split; [|split]].
  - unfold Collection_json, Collection_json_one, convert_in_place. cbn [mapM].
    unfold bind, deref, ret, raise. rewrite Hd. cbv beta iota zeta.
    rewrite Hurl. cbv beta iota zeta. cbn [fst snd]. rewrite Hitems.
    fold r. now destruct (snd r).
  - rewrite (Hframe "_url" Hnot). apply get_set_eq.
  - exact Hkeys.
  - exact Hframe.
Qed.
End Lifecycle.

Lemma delete_by_false_id_empties_table_witness :
  Document_delete Examples.row_store Examples.rows_delete
    Examples.rows_get_all_delete 1%nat [] Examples.stocked_unsaved
  = (Ok (VDict [("deleted", VInt 2)]),
     {| heap := heap _ Examples.stocked_unsaved; db := [] |}).
Proof.
  exact (delete_by_false_id_empties_table Examples.row_store Examples.rows_delete
           Examples.rows_get_all_delete Examples.stocked_unsaved 1%nat
           (Examples.widget false [("id", VStr "w1")]) VNone []
           eq_refl eq_refl eq_refl).
Defined.

Lemma json_of_document_has_url_witness :
  let s := {| heap := {[ 1%nat := Examples.event true
                                    [("id", VStr "e1"); ("when", VInt 0)] ]};
              db := [] |} in
  Collection_json Examples.row_store Examples.rows_count Examples.events
    [ADoc 1%nat] true s
  = (Ok (VDict [("id", VStr "e1");
                ("when", VStr "1970-01-01T00:00:00+00:00");
                ("_url", VStr "e1")]), s).
Proof.
  exact (proj1 (json_of_document_has_url Examples.row_store Examples.rows_count
                  Examples.events
                  {| heap := {[ 1%nat := Examples.event true
                                           [("id", VStr "e1"); ("when", VInt 0)] ]};
                     db := [] |}
                  1%nat (Examples.event true [("id", VStr "e1"); ("when", VInt 0)])
                  [("when", Examples.stamp)] (VStr "e1") eq_refl eq_refl
                  ltac:(cbn; intros [H|[]]; discriminate H) eq_refl)).
Defined.
End LifecycleExtras.

(** ** The registries of the single-file layout, continued *)

Module RegistryExtras.
Import Dict DictFacts DocumentPy.

Lemma length_set_absent {A} (k : string) (v : A) (d : list (string * A)) :
  mem k d = false -> length (set k v d) = S (length d).
Proof.
  unfold mem. induction d as [|[k0 v0] d IH]; cbn [get set length]; [reflexivity|].
  destruct (String.eqb k k0); [discriminate|]. intros H. cbn [length].
  now rewrite (IH H).
Qed.

Lemma set_set {A} (k : string) (v : A) (d : list (string * A)) :
  set k v (set k v d) = set k v d.
Proof.
  induction d as [|[k0 v0] d IH]; cbn [set].
  - now rewrite String.eqb_refl.
  - destruct (String.eqb k k0) eqn:E; cbn [set].
    + now rewrite String.eqb_refl.
    + now rewrite E, IH.
Qed.

Lemma In_existsb_eqb (c : string) (l : list string) :
  existsb (String.eqb c) l = true <-> In c l.
Proof.
  rewrite existsb_exists. split.
  - intros (x & Hx & Heq). apply String.eqb_eq in Heq. now subst.
  - intros H. exists c. split; [exact H | apply String.eqb_refl].
Qed.

Lemma not_In_existsb_eqb (c : string) (l : list string) :
  existsb (String.eqb c) l = false <-> ~ In c l.
Proof.
  rewrite <- In_existsb_eqb. now destruct (existsb (String.eqb c) l).
Qed.

Lemma two_members (c c' : string) (l : list string) :
  In c l -> In c' l -> c <> c' -> (2 <= length l)%nat.
Proof.
  destruct l as [|x [|y l]]; cbn [In length]; intros H H' Hne; try tauto; try lia.
  destruct H as [->|[]], H' as [->|[]]. congruence.
Qed.

(** X22. Registering an application in a suite that has none under its
    slug returns; afterwards the suite finds the application under
    the slug, finds under every other slug what it found before, and
    counts one application more; registering any application of the
    same slug again raises [SuiteException]. *)
Theorem registered_application_is_found (self self' : Suite) (app : Application) :
  Suite_register_application self app = Ok self' ->
  Suite__contains__ self (Application_slug app) = false /\
  Suite__getitem__ self' (Application_slug app) = Ok app /\
  (forall item, item <> Application_slug app ->
                Suite__getitem__ self' item = Suite__getitem__ self item) /\
  Suite__len__ self' = S (Suite__len__ self) /\
  base_url self' = base_url self /\
  (forall app', Application_slug app' = Application_slug app ->
                Suite_register_application self' app' = Raise SuiteException).
Proof.
  unfold Suite_register_application, Suite__contains__, Suite__getitem__, Suite__len__.
  destruct (mem (Application_slug app) (applications self)) eqn:Hmem; [discriminate|].
  intros H. injection H as <-. cbn [applications base_url].
  split; [reflexivity|]. split; [now rewrite get_set_eq|]. split; [|split; [|split]].
  - intros item Hne. rewrite get_set_ne by congruence. reflexivity.
  - now apply length_set_absent.
  - reflexivity.
  - intros app' ->. now rewrite mem_set, String.eqb_refl.
Qed.

Lemma registered_application_is_found_witness :
  exists self',
    Suite_register_application Examples.shop_suite
      {| Application_slug := "blog"; collections := [] |} = Ok self' /\
    Suite__getitem__ self' "blog" = Ok {| Application_slug := "blog"; collections := [] |} /\
    Suite__len__ self' = 2%nat.
Proof.
  eexists. split; [reflexivity|].
  destruct (registered_application_is_found Examples.shop_suite _
              {| Application_slug := "blog"; collections := [] |} eq_refl)
    as (_ & Hget & _ & Hlen & _).
  exact (conj Hget Hlen).
Defined.

(** X23. The registry of an Application class is keyed by slug, but the
    duplicate check looks the class's name up in it: after a first
    registration, registering the same class again raises
    [ApplicationException] only when its name and its slug are the
    same text, and otherwise returns with the registry as it was. *)
Theorem second_registration_checks_name (reg reg' : list (string * string))
    (name slug : string) :
  register_collection reg name slug = Ok reg' ->
  get slug reg' = Some name /\
  register_collection reg' name slug =
    if String.eqb name slug then Raise ApplicationException else Ok reg'.
Proof.
  unfold register_collection.
  destruct (mem name reg) eqn:Hmem; cbn [negb]; [discriminate|].
  intros H. injection H as <-. split; [apply get_set_eq|].
  rewrite mem_set, Hmem, orb_false_r.
  destruct (String.eqb name slug); cbn [negb]; [reflexivity|].
  now rewrite set_set.
Qed.

Lemma second_registration_checks_name_witness :
  register_collection [] "tracked_items" "tracked-items"
    = Ok [("tracked-items", "tracked_items")] /\
  register_collection [("tracked-items", "tracked_items")]
    "tracked_items" "tracked-items"
    = Ok [("tracked-items", "tracked_items")].
Proof.
  split; [reflexivity|].
  exact (proj2 (second_registration_checks_name [] _ "tracked_items" "tracked-items"
                  eq_refl)).
Defined.

(** X24. Creating a Suite class whose bases cover everything registered
    so far leaves the new class as the only one registered, and
    [Suite()] returns the instance. *)
Theorem subclass_replaces_its_bases (registry0 : list string) (name : string)
    (bases : list string) (i : Suite) :
  (forall c, In c registry0 -> In c bases) ->
  ~ In name bases ->
  SuiteMetaclass__init__ registry0 name bases = [name] /\
  Suite__call__ {| registry := SuiteMetaclass__init__ registry0 name bases;
                   instance := i |} = Ok i.
Proof.
  intros Hcov Hname.
  assert (Hreg : SuiteMetaclass__init__ registry0 name bases = [name]).
  { unfold SuiteMetaclass__init__.
    assert (Hnot : existsb (String.eqb name) registry0 = false).
    { apply not_In_existsb_eqb. intros H. apply Hname. now apply Hcov. }
    rewrite Hnot, List.filter_app. cbn [List.filter].
    apply not_In_existsb_eqb in Hname. rewrite Hname. cbn [negb].
    assert (Hnil : List.filter (fun c => negb (existsb (String.eqb c) bases)) registry0
                   = []).
    { clear Hnot. induction registry0 as [|c l IH]; cbn [List.filter]; [reflexivity|].
      assert (Hc : existsb (String.eqb c) bases = true)
        by (apply In_existsb_eqb, Hcov; now left).
      rewrite Hc. cbn [negb]. apply IH. intros x Hx. apply Hcov. now right. }
    now rewrite Hnil. }
  split; [exact Hreg|]. unfold Suite__call__. cbn [registry instance].
  now rewrite Hreg.
Qed.

Lemma subclass_replaces_its_bases_witness :
  SuiteMetaclass__init__ ["Suite"] "ShopSuite" ["Suite"] = ["ShopSuite"] /\
  Suite__call__ {| registry := SuiteMetaclass__init__ ["Suite"] "ShopSuite" ["Suite"];
                   instance := Examples.shop_suite |} = Ok Examples.shop_suite.
Proof.
  exact (subclass_replaces_its_bases ["Suite"] "ShopSuite" ["Suite"]
           Examples.shop_suite
           ltac:(cbn; tauto) ltac:(cbn; intros [H|[]]; discriminate H)).
Defined.

(** X25. Creating a Suite class while another class stays registered that
    is none of its bases leaves two classes registered, and every
    [Suite()] call raises [SuiteException] from then on. *)
Theorem sibling_suites_block_the_call (registry0 : list string) (name c : string)
    (bases : list string) (i : Suite) :
  In c registry0 ->
  c <> name ->
  ~ In c bases ->
  ~ In name bases ->
  Suite__call__ {| registry := SuiteMetaclass__init__ registry0 name bases;
                   instance := i |} = Raise SuiteException.
Proof.
  intros Hc Hne Hcb Hnb. unfold Suite__call__. cbn [registry].
  assert (Hlen : (2 <= length (SuiteMetaclass__init__ registry0 name bases))%nat).
  { apply (two_members c name); [| |exact Hne]; unfold SuiteMetaclass__init__;
      apply filter_In.
    - split; [|now apply not_In_existsb_eqb in Hcb; rewrite Hcb].
      destruct (existsb (String.eqb name) registry0); [exact Hc|].
      apply in_or_app. now left.
    - split; [|now apply not_In_existsb_eqb in Hnb; rewrite Hnb].
      destruct (existsb (String.eqb name) registry0) eqn:Hin.
      + now apply In_existsb_eqb.
      + apply in_or_app. right. now left. }
  destruct (Nat.ltb_spec 1 (length (SuiteMetaclass__init__ registry0 name bases)));
    [reflexivity | lia].
Qed.

Lemma sibling_suites_block_the_call_witness :
  Suite__call__ {| registry := SuiteMetaclass__init__ ["ShopSuite"] "TestSuite" ["Suite"];
                   instance := Examples.shop_suite |} = Raise SuiteException.
Proof.
  exact (sibling_suites_block_the_call ["ShopSuite"] "TestSuite" "ShopSuite" ["Suite"]
           Examples.shop_suite
           ltac:(cbn; tauto) ltac:(discriminate)
           ltac:(cbn; intros [H|[]]; discriminate H)
           ltac:(cbn; intros [H|[]]; discriminate H)).
Defined.
End RegistryExtras.

(** ** Class creation, continued *)

Module MetaclassExtras.
Import Dict DictFacts Pkg Stated ComposerFacts.

Lemma fold_as_class (as_class : collection_base -> doc_class)
    (bases : list collection_base) (acc : dict) :
  (forall b, definitions (as_class b) = cb_definitions b) ->
  fold_left (fun acc base =>
               match cb_definitions base with
               | Some d => if truthy (VDict d) then Dict.update acc d else acc
               | None => acc
               end) bases acc
  = fold_left inherit_definitions (map as_class bases) acc.
Proof.
  intros Has. revert acc. induction bases as [|b bases IH]; intros acc;
    cbn [fold_left map]; [reflexivity|].
  rewrite IH. f_equal. unfold inherit_definitions. now rewrite Has.
Qed.

Lemma existsb_as_class (as_class : collection_base -> doc_class) (k : string)
    (bases : list collection_base) :
  (forall b, definitions (as_class b) = cb_definitions b) ->
  existsb (fun b => mem k (base_definitions b)) (map as_class bases)
  = existsb (fun b => match cb_definitions b with
                      | Some d => mem k d
                      | None => false
                      end) bases.
Proof.
  intros Has. induction bases as [|b bases IH]; cbn [existsb map]; [reflexivity|].
  rewrite IH. f_equal. unfold base_definitions. rewrite Has.
  now destruct (cb_definitions b).
Qed.

(** X26. [CollectionMetaclass.__new__] always leaves a [definitions]
    attribute. Under a name that a base defines it holds the
    definition of the last base that defines the name, whatever the
    class itself declares under it; under a name no base defines it
    holds what the class declares, if anything. *)
Theorem collection_base_definition_wins (name : string)
    (bases : list collection_base) (attrs : collection_namespace) (k : string) :
  exists defs,
    cn_definitions (CollectionMetaclass__new__ name bases attrs) = Some defs /\
    (forall pre base post bd,
        bases = (pre ++ base :: post)%list ->
        cb_definitions base = Some bd ->
        wf bd ->
        mem k bd = true ->
        existsb (fun b => match cb_definitions b with
                          | Some d => mem k d
                          | None => false
                          end) post = false ->
        get k defs = get k bd) /\
    (existsb (fun b => match cb_definitions b with
                       | Some d => mem k d
                       | None => false
                       end) bases = false ->
     get k defs = match cn_definitions attrs with
                  | Some own => get k own
                  | None => None
                  end).
Proof.
  set (as_class := fun b : collection_base =>
         {| definitions := cb_definitions b; collection_schema_url := None;
            exposed_methods := None; schema := []; title := VNone;
            defaults := [] |}).
  assert (Has : forall b, definitions (as_class b) = cb_definitions b)
    by reflexivity.
  unfold CollectionMetaclass__new__. cbn [cn_definitions].
  rewrite (fold_as_class as_class bases [] Has).
  set (F := fold_left inherit_definitions (map as_class bases) []).
  assert (HwfF : wf F) by (apply wf_inherit; constructor).
  eexists. split; [reflexivity|]. split.
  - intros pre base post bd Hbases Hbd Hwf Hmem Hpost.
    assert (HF : get k F = get k bd).
    { unfold F. rewrite Hbases, map_app. cbn [map].
      replace bd with (base_definitions (as_class base))
        by (unfold base_definitions; cbn [as_class definitions]; now rewrite Hbd).
      apply get_inherit_fold_last.
      - unfold base_definitions. cbn [as_class definitions]. now rewrite Hbd.
      - unfold base_definitions. cbn [as_class definitions]. now rewrite Hbd.
      - now rewrite (existsb_as_class as_class k post Has). }
    unfold mem in Hmem.
    destruct (cn_definitions attrs) as [own|]; [|exact HF].
    rewrite get_update_wf by assumption. rewrite HF.
    now destruct (get k bd).
  - intros Hnone.
    assert (HF : get k F = None).
    { unfold F. rewrite get_inherit_fold_other; [reflexivity|].
      now rewrite (existsb_as_class as_class k bases Has). }
    destruct (cn_definitions attrs) as [own|]; [|exact HF].
    rewrite get_update_wf by assumption. now rewrite HF.
Qed.

Section Creation.
Variable split_camelcase : string -> string.
Variable convert_camelcase : string -> string.
Variable camelcase_slugify : string -> string.
Variable check_schema : dict -> bool.

(** X27. A document schema that declares a property [id] cannot be the
    schema of a collection, whatever primary key the collection
    declares, [id] included: class creation raises
    [CollectionException], in the package layout and in the
    single-file layout alike. *)
Theorem declared_id_is_rejected (name : string) (bases : list collection_base)
    (attrs : collection_namespace) (document_class : doc_class)
    (name' : string) (attrs' : DocumentPy.collection_namespace) :
  cn_document_class attrs = Some document_class ->
  declares_id (schema document_class) = Ok true ->
  declares_id (DocumentPy.cn_document_schema attrs') = Ok true ->
  CollectionMetaclass convert_camelcase camelcase_slugify check_schema
    name bases attrs = Raise CollectionException /\
  DocumentPy.CollectionMetaclass__init__ convert_camelcase camelcase_slugify
    check_schema name' attrs' = Raise CollectionException.
Proof.
  intros Hdc Hid Hid'. split.
  - unfold CollectionMetaclass, CollectionMetaclass__init__.
    cbn [CollectionMetaclass__new__ cn_document_class cn_primary_key].
    rewrite Hdc, Hid. reflexivity.
  - unfold DocumentPy.CollectionMetaclass__init__.
    destruct (negb (mem "description" (DocumentPy.cn_document_schema attrs'))).
    + rewrite RegistrationFacts.declares_id_set by discriminate.
      now rewrite Hid'.
    + now rewrite Hid'.
Qed.

Lemma title_of_loop (bases : list doc_class) (acc r : dict * dict) :
  foldM DocumentMetaclass_inherit acc bases = Ok r ->
  get "title" (snd r) = get "title" (snd acc).
Proof.
  intros H. destruct (inherit_loop bases acc r H) as [_ Hs].
  apply Hs. discriminate.
Qed.

(** X28. The title of a document class is the [title] it declares, unless
    that is missing or [None]; then it is the [title] of the schema
    it declares, and failing that the class name split at its capital
    letters. The composed schema carries that title under [title],
    and under [template] the template the class declares or the text
    [{id}]. *)
Theorem created_class_title (name : string) (bases : list doc_class)
    (attrs : namespace) (cls : doc_class) :
  DocumentMetaclass split_camelcase name bases attrs = Ok cls ->
  title cls =
    match ns_title attrs with
    | Some VNone | None =>
        match get "title"
                (match ns_schema attrs with
                 | Some s => s
                 | None => [("type", VStr "object"); ("properties", VDict [])]
                 end) with
        | Some t => t
        | None => VStr (split_camelcase name)
        end
    | Some t => t
    end /\
  get "title" (schema cls) = Some (title cls) /\
  get "template" (schema cls) =
    Some (match ns_template attrs with Some t => t | None => VStr "{id}" end).
Proof.
  unfold DocumentMetaclass, DocumentMetaclass__new__.
  destruct (foldM DocumentMetaclass_inherit _ bases) as [r|e] eqn:Hloop;
    [|discriminate].
  pose proof (title_of_loop _ _ _ Hloop) as Htitle. cbn [snd] in Htitle.
  cbn [rbind]. unfold DocumentMetaclass__init__. cbn [ns_schema ns_doc ns_exposed
    ns_definitions ns_template ns_title ns_collection].
  match goal with
  | |- context [compute_defaults ?s] =>
      destruct (compute_defaults s) as [defs|e]; cbn [rbind]; [|discriminate]
  end.
  intros H. injection H as <-. cbn [title schema]. rewrite Htitle.
  split; [reflexivity|]. split.
  - rewrite !get_set_ne by discriminate.
    destruct (ns_doc attrs) as [doc|].
    + match goal with
      | |- context [if ?c then _ else _] => destruct c
      end; rewrite ?get_set_ne by discriminate; now rewrite get_set_eq.
    + now rewrite get_set_eq.
  - now rewrite get_set_eq.
Qed.

Lemma allOf_loop (bases : list doc_class) :
  forall (acc r : dict * dict) (ol : option (list value)),
    foldM DocumentMetaclass_inherit acc bases = Ok r ->
    get "allOf" (snd acc) = VList <$> ol ->
    get "allOf" (snd r) =
      match omap collection_schema_url bases with
      | [] => VList <$> ol
      | urls => Some (VList (default [] ol ++
                             map (fun u => VDict [("$ref", VStr u)]) urls))
      end.
Proof.
  induction bases as [|b bases IH]; intros acc r ol H Hol.
  - cbn [foldM] in H. injection H as <-. exact Hol.
  - cbn [foldM] in H.
    destruct (DocumentMetaclass_inherit acc b) as [acc'|e] eqn:Hb; cbn [rbind] in H;
      [|discriminate].
    unfold DocumentMetaclass_inherit in Hb. cbn [omap list_omap].
    destruct (collection_schema_url b) as [u|].
    + assert (Hcur : get "allOf"
                       (if mem "allOf" (snd acc) then snd acc
                        else set "allOf" (VList []) (snd acc))
                     = Some (VList (default [] ol))).
      { unfold mem. destruct ol as [l|]; rewrite Hol.
        - exact Hol.
        - apply get_set_eq. }
      rewrite Hcur in Hb. injection Hb as <-.
      rewrite (IH _ r (Some (default [] ol ++ [VDict [("$ref", VStr u)]])%list) H)
        by (cbn [snd fmap option_fmap option_map]; apply get_set_eq).
      cbn [default fmap option_fmap option_map map].
      destruct (omap collection_schema_url bases) as [|u' urls].
      * reflexivity.
      * unfold id. cbn [map]. now rewrite <- app_assoc.
    + injection Hb as <-. now apply (IH _ r ol H).
Qed.

(** X29. Every base that belongs to a collection adds one reference to
    the [allOf] of the composed schema: the list the class declares,
    if any, then [{"$ref": url}] with the schema URL of the base's
    collection, base after base in the order of the bases; with no
    such base the declared [allOf] is kept, or none is made. *)
Theorem created_class_allOf (name : string) (bases : list doc_class)
    (attrs : namespace) (cls : doc_class) (ol : option (list value)) :
  DocumentMetaclass split_camelcase name bases attrs = Ok cls ->
  get "allOf" (match ns_schema attrs with
               | Some s => s
               | None => [("type", VStr "object"); ("properties", VDict [])]
               end) = VList <$> ol ->
  get "allOf" (schema cls) =
    match omap collection_schema_url bases with
    | [] => VList <$> ol
    | urls => Some (VList (default [] ol ++
                           map (fun u => VDict [("$ref", VStr u)]) urls))
    end.
Proof.
  unfold DocumentMetaclass, DocumentMetaclass__new__.
  destruct (foldM DocumentMetaclass_inherit _ bases) as [r|e] eqn:Hloop;
    [|discriminate].
  intros Hcls Hol.
  rewrite <- (allOf_loop _ _ _ _ Hloop Hol). clear Hloop Hol.
  cbn [rbind] in Hcls. unfold DocumentMetaclass__init__ in Hcls.
  cbn [ns_schema ns_doc ns_exposed ns_definitions ns_template ns_title
       ns_collection] in Hcls.
  match type of Hcls with
  | context [compute_defaults ?s] =>
      destruct (compute_defaults s) as [defs|e]; cbn [rbind] in Hcls; [|discriminate]
  end.
  injection Hcls as <-. cbn [schema].
  rewrite !get_set_ne by discriminate.
  destruct (ns_doc attrs) as [doc|].
  - match goal with
    | |- context [if ?c then _ else _] => destruct c
    end; now rewrite ?get_set_ne by discriminate.
  - now rewrite get_set_ne by discriminate.
Qed.
End Creation.
Lemma declared_id_is_rejected_witness :
  CollectionMetaclass (fun s => s) (fun s => s) (fun _ => true) "Keyed" []
    {| cn_definitions := None; cn_document_class := Some Examples.keyed_class;
       cn_primary_key := Some "id"; cn_exposed := [] |}
  = Raise CollectionException /\
  DocumentPy.CollectionMetaclass__init__ (fun s => s) (fun s => s) (fun _ => true)
    "Keyed"
    {| DocumentPy.cn_doc := None;
       DocumentPy.cn_document_schema := schema Examples.keyed_class;
       DocumentPy.cn_primary_key := Some "id";
       DocumentPy.cn_application := Some [] |}
  = Raise CollectionException.
Proof.
  exact (declared_id_is_rejected (fun s => s) (fun s => s) (fun _ => true)
           "Keyed" []
           {| cn_definitions := None; cn_document_class := Some Examples.keyed_class;
              cn_primary_key := Some "id"; cn_exposed := [] |}
           Examples.keyed_class "Keyed"
           {| DocumentPy.cn_doc := None;
              DocumentPy.cn_document_schema := schema Examples.keyed_class;
              DocumentPy.cn_primary_key := Some "id";
              DocumentPy.cn_application := Some [] |}
           eq_refl eq_refl eq_refl).
Defined.

Lemma created_class_title_witness :
  title Examples.widget_class = VStr "Widget" /\
  get "title" (schema Examples.widget_class) = Some (title Examples.widget_class) /\
  get "template" (schema Examples.widget_class) = Some (VStr "{id}").
Proof.
  exact (created_class_title (fun s => s) "Widget" [] Examples.widget_attrs
           Examples.widget_class eq_refl).
Defined.

Lemma created_class_allOf_witness :
  get "allOf" (schema Examples.shelved_class) =
    Some (VList [VDict [("$ref", VStr "http://localhost:8000/shop/widgets;schema")]]).
Proof.
  exact (created_class_allOf (fun s => s) "Gadget" [Examples.shelved_base]
           Examples.derived_attrs Examples.shelved_class None eq_refl eq_refl).
Defined.

End MetaclassExtras.
